(** * kubedog: generic resource dispatch and convergence polling

    A shallow embedding of [pkg/kubernetes/unstructured.go] (package [kube])
    together with the client helpers of the same package ([Validate],
    [getWaiterTries], [getWaiterInterval], [getTemplatesPath],
    [getResourcePath]).

    Conventions of the embedding:
    - Go [string] is [string]; Go [int] and [time.Duration] are [Z] (the
      attempt counter only ever counts up to [getWaiterTries], so the 64-bit
      wrap-around is never reached);
    - a Go [error] is [option error], [None] being [nil];
    - the dynamic client is an interface: a record of state transformers over
      an arbitrary remote state, held in the client set as a nil-able handle;
    - every function that talks to the remote system runs in the monad [M],
      which threads the remote state, appends every remote call and every
      sleep to a trace, and propagates Go panics;
    - [log.Infof] lines are not part of the model. *)

From Stdlib Require Import String Ascii List ZArith Lia Bool.
Import ListNotations.
Local Open Scope string_scope.
Local Open Scope Z_scope.
Local Set Warnings "-register-all".

(** ** Strings: [strings.Split], [util.DeleteEmpty], [filepath.Ext] *)

Module Strings.

(** [strings.Split(s, sep)] for a one-byte separator, which is what both
    call sites use (["="] and ["."]): [n] occurrences of the separator give
    [n + 1] pieces, the empty string gives one empty piece. *)
Fixpoint Split (s : string) (sep : ascii) : list string :=
  match s with
  | EmptyString => [EmptyString]
  | String c rest =>
      if Ascii.eqb c sep then EmptyString :: Split rest sep
      else match Split rest sep with
           | [] => [String c EmptyString]
           | piece :: pieces => String c piece :: pieces
           end
  end.

(** Modelled from the spec: [util.DeleteEmpty] lives in [internal/utilities],
    which is not among the sources. It returns the slice without its empty
    strings, in order: a selector key with a leading dot
    ([".metadata.labels.someTestKey"] in the package tests) and the spec's
    "dotted path split on [.]" both rely on empty pieces being dropped. *)
Fixpoint DeleteEmpty (s : list string) : list string :=
  match s with
  | [] => []
  | str :: rest =>
      if String.eqb str "" then DeleteEmpty rest else str :: DeleteEmpty rest
  end.

(** Number of occurrences of a byte in a string. *)
Fixpoint Count (s : string) (c : ascii) : nat :=
  match s with
  | EmptyString => O
  | String d rest => ((if Ascii.eqb d c then 1 else 0) + Count rest c)%nat
  end.

(** [filepath.Ext]: scan backwards from the end of the path, stop at a path
    separator, return the suffix that starts at the first dot met. *)
Fixpoint ext_scan (backwards : list ascii) (suffix : string) : string :=
  match backwards with
  | [] => ""
  | c :: before =>
      if Ascii.eqb c "/"%char then ""
      else if Ascii.eqb c "."%char then String c suffix
      else ext_scan before (String c suffix)
  end.

Definition Ext (path : string) : string :=
  ext_scan (rev (list_ascii_of_string path)) "".

End Strings.

(** ** Errors: [k8s.io/apimachinery/pkg/api/errors] and plain Go errors *)

Inductive StatusReason :=
| StatusReasonUnknown
| StatusReasonUnauthorized
| StatusReasonForbidden
| StatusReasonNotFound
| StatusReasonAlreadyExists
| StatusReasonConflict
| StatusReasonInvalid
| StatusReasonBadRequest
| StatusReasonInternalError.

Inductive error :=
| StatusError (reason : StatusReason) (message : string)
| errorString (message : string).

Definition Error (e : error) : string :=
  match e with
  | StatusError _ m => m
  | errorString m => m
  end.

Definition IsNotFound (e : error) : bool :=
  match e with
  | StatusError StatusReasonNotFound _ => true
  | _ => false
  end.

Definition IsAlreadyExists (e : error) : bool :=
  match e with
  | StatusError StatusReasonAlreadyExists _ => true
  | _ => false
  end.

Inductive result (A : Type) :=
| Ok (a : A)
| Err (e : error).
Arguments Ok {A} a.
Arguments Err {A} e.

(** ** Documents: [unstructured.Unstructured] *)

(** The JSON-like values an unstructured object holds. A Go map has one value
    per key; here it is an association list read at the first binding. *)
Inductive value :=
| VNil
| VBool (b : bool)
| VInt (z : Z)
| VString (s : string)
| VSlice (items : list value)
| VMap (fields : list (string * value)).

Fixpoint lookup (key : string) (m : list (string * value)) : option value :=
  match m with
  | [] => None
  | (k, v) :: rest => if String.eqb k key then Some v else lookup key rest
  end.

Fixpoint store (key : string) (v : value) (m : list (string * value))
  : list (string * value) :=
  match m with
  | [] => [(key, v)]
  | (k, old) :: rest =>
      if String.eqb k key then (k, v) :: rest else (k, old) :: store key v rest
  end.

(** The three-valued answer of the [Nested*] accessors: the value, whether it
    was found, and an accessor error when something on the way has the wrong
    type. *)
Record nested (A : Type) := mkNested {
  nval : A;
  nfound : bool;
  nerr : option error
}.
Arguments mkNested {A} nval nfound nerr.
Arguments nval {A} n.
Arguments nfound {A} n.
Arguments nerr {A} n.

Definition accessor_error : error := errorString "accessor error".

(** [unstructured.NestedFieldNoCopy] *)
Fixpoint NestedFieldNoCopy (val : value) (fields : list string) : nested value :=
  match fields with
  | [] => mkNested val true None
  | field :: rest =>
      match val with
      | VNil => mkNested VNil false None
      | VMap m =>
          match lookup field m with
          | None => mkNested VNil false None
          | Some v => NestedFieldNoCopy v rest
          end
      | _ => mkNested VNil false (Some accessor_error)
      end
  end.

(** [unstructured.NestedString] *)
Definition NestedString (obj : list (string * value)) (fields : list string)
  : nested string :=
  let r := NestedFieldNoCopy (VMap obj) fields in
  if negb (nfound r) || (match nerr r with Some _ => true | None => false end)
  then mkNested "" (nfound r) (nerr r)
  else match nval r with
       | VString s => mkNested s true None
       | _ => mkNested "" false (Some accessor_error)
       end.

(** [unstructured.NestedSlice] *)
Definition NestedSlice (obj : list (string * value)) (fields : list string)
  : nested (list value) :=
  let r := NestedFieldNoCopy (VMap obj) fields in
  if negb (nfound r) || (match nerr r with Some _ => true | None => false end)
  then mkNested [] (nfound r) (nerr r)
  else match nval r with
       | VSlice l => mkNested l true None
       | _ => mkNested [] false (Some accessor_error)
       end.

Record Unstructured := mkUnstructured { Object : list (string * value) }.

Definition UnstructuredContent (u : Unstructured) : list (string * value) :=
  Object u.

(** [getNestedString]: the string at the path, or [""] when it is absent or
    not a string. *)
Definition getNestedString (obj : list (string * value)) (fields : list string)
  : string :=
  let r := NestedString obj fields in
  if nfound r then
    match nerr r with None => nval r | Some _ => "" end
  else "".

Definition GetName (u : Unstructured) : string :=
  getNestedString (Object u) ["metadata"; "name"].

Definition GetNamespace (u : Unstructured) : string :=
  getNestedString (Object u) ["metadata"; "namespace"].

Definition GetKind (u : Unstructured) : string :=
  getNestedString (Object u) ["kind"].

Definition GetResourceVersion (u : Unstructured) : string :=
  getNestedString (Object u) ["metadata"; "resourceVersion"].

(** [unstructured.SetNestedField] for the two-field path used by
    [SetResourceVersion]: the intermediate map is created when absent, and
    nothing is written when something that is not a map is in the way. *)
Definition SetResourceVersion (version : string) (u : Unstructured)
  : Unstructured :=
  match lookup "metadata" (Object u) with
  | None =>
      mkUnstructured
        (store "metadata" (VMap [("resourceVersion", VString version)]) (Object u))
  | Some (VMap meta) =>
      mkUnstructured
        (store "metadata" (VMap (store "resourceVersion" (VString version) meta))
           (Object u))
  | Some _ => u
  end.

Definition DeepCopy (u : Unstructured) : Unstructured := u.

(** [schema.GroupVersionResource] and the part of [meta.RESTMapping] the
    package reads. *)
Record GroupVersionResource := mkGVR {
  Group : string;
  Version : string;
  Resource : string
}.

Record RESTMapping := mkRESTMapping {
  MappingResource : GroupVersionResource;
  Namespaced : bool
}.

(** [util.K8sUnstructuredResource] *)
Record K8sUnstructuredResource := mkK8sUnstructuredResource {
  GVR : RESTMapping;
  UResource : Unstructured
}.

(** ** The dynamic client and the execution monad *)

(** [dynamic.Interface], reached as
    [Resource(gvr).Namespace(ns).Create/Get/Update/Delete]: each method is a
    transformer of the remote state [S], whatever that state is. *)
Record DynamicClient (S : Type) := mkDynamicClient {
  dynCreate : GroupVersionResource -> string -> Unstructured -> S -> result Unstructured * S;
  dynGet : GroupVersionResource -> string -> string -> S -> result Unstructured * S;
  dynUpdate : GroupVersionResource -> string -> Unstructured -> S -> result Unstructured * S;
  dynDelete : GroupVersionResource -> string -> string -> S -> option error * S
}.
Arguments dynCreate {S} d.
Arguments dynGet {S} d.
Arguments dynUpdate {S} d.
Arguments dynDelete {S} d.

(** What the program does to the outside world, in order. *)
Inductive call :=
| CallCreate (gvr : GroupVersionResource) (ns : string) (obj : Unstructured)
| CallGet (gvr : GroupVersionResource) (ns name : string)
| CallUpdate (gvr : GroupVersionResource) (ns : string) (obj : Unstructured)
| CallDelete (gvr : GroupVersionResource) (ns name : string).

Inductive event :=
| Remote (c : call)
| Sleep (d : Z).

Definition call_namespace (c : call) : string :=
  match c with
  | CallCreate _ ns _ => ns
  | CallGet _ ns _ => ns
  | CallUpdate _ ns _ => ns
  | CallDelete _ ns _ => ns
  end.

Definition is_remote (e : event) : bool :=
  match e with Remote _ => true | Sleep _ => false end.

Definition is_get (e : event) : bool :=
  match e with Remote (CallGet _ _ _) => true | _ => false end.

Definition is_update (e : event) : bool :=
  match e with Remote (CallUpdate _ _ _) => true | _ => false end.

(** Number of fetches ([Get] calls) in a trace. *)
Definition fetches (t : list event) : nat := length (filter is_get t).

(** How a Go call ends: it returns, it panics, or (for the loops of the model
    only) the recursion budget handed to it was too small. *)
Inductive exec (A : Type) :=
| Done (a : A)
| Panic (msg : string)
| OutOfFuel.
Arguments Done {A} a.
Arguments Panic {A} msg.
Arguments OutOfFuel {A}.

Section Execution.

Variable S : Type.

Record World := mkWorld {
  remote : S;
  trace : list event
}.

Definition M (A : Type) : Type := World -> exec A * World.

Definition ret {A} (a : A) : M A := fun w => (Done a, w).

Definition bind {A B} (m : M A) (k : A -> M B) : M B :=
  fun w =>
    match m w with
    | (Done a, w') => k a w'
    | (Panic msg, w') => (Panic msg, w')
    | (OutOfFuel, w') => (OutOfFuel, w')
    end.

Definition panic {A} (msg : string) : M A := fun w => (Panic msg, w).

Definition emit (e : event) (w : World) : World :=
  mkWorld (remote w) (trace w ++ [e]).

(** [time.Sleep] *)
Definition time_Sleep (d : Z) : M unit := fun w => (Done tt, emit (Sleep d) w).

Definition nil_dereference : string :=
  "invalid memory address or nil pointer dereference".

(** Calls through the client set's [DynamicInterface] handle; a nil handle
    makes the method call panic. *)
Definition Create (h : option (DynamicClient S)) gvr ns obj : M (result Unstructured) :=
  fun w =>
    match h with
    | None => (Panic nil_dereference, w)
    | Some d =>
        let (r, s') := dynCreate d gvr ns obj (remote w) in
        (Done r, mkWorld s' (trace w ++ [Remote (CallCreate gvr ns obj)]))
    end.

Definition Get (h : option (DynamicClient S)) gvr ns name : M (result Unstructured) :=
  fun w =>
    match h with
    | None => (Panic nil_dereference, w)
    | Some d =>
        let (r, s') := dynGet d gvr ns name (remote w) in
        (Done r, mkWorld s' (trace w ++ [Remote (CallGet gvr ns name)]))
    end.

Definition Update (h : option (DynamicClient S)) gvr ns obj : M (result Unstructured) :=
  fun w =>
    match h with
    | None => (Panic nil_dereference, w)
    | Some d =>
        let (r, s') := dynUpdate d gvr ns obj (remote w) in
        (Done r, mkWorld s' (trace w ++ [Remote (CallUpdate gvr ns obj)]))
    end.

Definition Delete (h : option (DynamicClient S)) gvr ns name : M (option error) :=
  fun w =>
    match h with
    | None => (Panic nil_dereference, w)
    | Some d =>
        let (r, s') := dynDelete d gvr ns name (remote w) in
        (Done r, mkWorld s' (trace w ++ [Remote (CallDelete gvr ns name)]))
    end.

End Execution.

Arguments mkWorld {S} remote trace.
Arguments remote {S} w.
Arguments trace {S} w.
Arguments ret {S A} a.
Arguments bind {S A B} m k.
Arguments panic {S A} msg.
Arguments emit {S} e w.
Arguments time_Sleep {S} d.
Arguments Create {S} h gvr ns obj.
Arguments Get {S} h gvr ns name.
Arguments Update {S} h gvr ns obj.
Arguments Delete {S} h gvr ns name.

Notation "x <- m ;; k" := (bind m (fun x => k))
  (at level 61, m at next level, right associativity).

(** ** Writing into a document: [unstructured.SetNestedField], [strconv.ParseInt] *)

(** [jsonPath] of the accessor error messages. *)
Definition jsonPath (fields : list string) : string :=
  "." ++ String.concat "." fields.

Definition not_a_map_error (path : list string) : error :=
  errorString ("value cannot be set because " ++ jsonPath path
               ++ " is not a map[string]interface{}").

(** [setNestedFieldNoCopy] below its first field: walk down the fields but
    the last, making the maps that are missing and failing on what is there
    and is not a map, then write the last field. [walked] is the path gone
    through so far, for the error message. *)
Fixpoint setNestedFieldNoCopy (m : list (string * value)) (v : value)
    (walked : list string) (field : string) (rest : list string)
  : result (list (string * value)) :=
  match rest with
  | [] => Ok (store field v m)
  | next :: rest' =>
      match lookup field m with
      | Some (VMap valMap) =>
          match setNestedFieldNoCopy valMap v (walked ++ [field]) next rest' with
          | Ok valMap' => Ok (store field (VMap valMap') m)
          | Err err => Err err
          end
      | Some _ => Err (not_a_map_error (walked ++ [field]))
      | None =>
          match setNestedFieldNoCopy [] v (walked ++ [field]) next rest' with
          | Ok newVal => Ok (store field (VMap newVal) m)
          | Err err => Err err
          end
      end
  end.

Definition slice_out_of_range : string := "slice bounds out of range [:-1]".

(** [unstructured.SetNestedField]: with no field at all, [fields[:len(fields)-1]]
    is out of range and the call panics. *)
Definition SetNestedField (obj : list (string * value)) (v : value)
    (fields : list string) : exec (result (list (string * value))) :=
  match fields with
  | [] => Panic slice_out_of_range
  | field :: rest => Done (setNestedFieldNoCopy obj v [] field rest)
  end.

Definition is_digit (c : ascii) : bool :=
  ((48 <=? nat_of_ascii c) && (nat_of_ascii c <=? 57))%nat.

Fixpoint digits_value (s : string) (acc : Z) : option Z :=
  match s with
  | EmptyString => Some acc
  | String c rest =>
      if is_digit c
      then digits_value rest (acc * 10 + (Z.of_nat (nat_of_ascii c) - 48))
      else None
  end.

(** [strconv.ParseInt(s, 10, 64)]: an optional sign, then at least one
    decimal digit and nothing else; [None] for a syntax or a range error. *)
Definition ParseInt (s : string) : option Z :=
  let '(negative, body) :=
    match s with
    | String "-"%char rest => (true, rest)
    | String "+"%char rest => (false, rest)
    | _ => (false, s)
    end in
  match body with
  | EmptyString => None
  | _ =>
      match digits_value body 0 with
      | None => None
      | Some n =>
          let v := if negative then - n else n in
          if (- 2 ^ 63 <=? v) && (v <=? 2 ^ 63 - 1) then Some v else None
      end
  end.

(** ** The client set and the operations of [unstructured.go] *)

Definition operationCreate : string := "create".
Definition operationSubmit : string := "submit".
Definition operationUpdate : string := "update".
Definition operationDelete : string := "delete".

Definition stateCreated : string := "created".
Definition stateDeleted : string := "deleted".
Definition stateUpgraded : string := "upgraded".
Definition stateReady : string := "ready".
Definition stateFound : string := "found".

(** [os.FileInfo], as far as the walk callbacks read it. *)
Record FileInfo := mkFileInfo { IsDir : bool }.

(** One visit of [filepath.Walk]: the path, its info (nil when the walk could
    not stat it) and the error the walk met there. *)
Record visit := mkVisit {
  vpath : string;
  vinfo : option FileInfo;
  verr : option error
}.

Section Kube.

(** The remote state behind the dynamic client. *)
Variable S : Type.

(** The typed client, the discovery client and the template arguments are
    only passed around by this file. *)
Variables KubeClient DiscoveryClient TemplateArgs : Type.

(** [util.GetResourceFromYaml] ([internal/utilities], not among the sources):
    reads and decodes the file and resolves its kind through discovery. *)
Variable GetResourceFromYaml :
  string -> option DiscoveryClient -> TemplateArgs -> result K8sUnstructuredResource.

(** Library functions taken as they are: [filepath.Join],
    [cases.Title(language.English).String] and [strings.EqualFold]. *)
Variable filepath_Join : string -> string -> string.
Variable Title : string -> string.
Variable EqualFold : string -> string -> bool.

(** The visits [filepath.Walk] makes from a root, in lexical order, as long
    as the callback returns nil. *)
Variable walk_visits : string -> list visit.

Record ClientSet := mkClientSet {
  KubeInterface : option KubeClient;
  DynamicInterface : option (DynamicClient S);
  DiscoveryInterface : option DiscoveryClient;
  FilesPath : string;
  TemplateArguments : TemplateArgs;
  WaiterInterval : Z;
  WaiterTries : Z
}.

(** [DiscoverClients] (not among the sources) fills the handles of the client
    set from the cluster configuration, or fails. *)
Variable DiscoverClients : ClientSet -> ClientSet * option error.

Definition commonMessage : string :=
  "'AKubernetesCluster' sets this interface, try calling it before using this method".

Definition Validate (kc : ClientSet) : option error :=
  match DynamicInterface kc with
  | None => Some (errorString ("'Client.DynamicInterface' is nil. " ++ commonMessage))
  | Some _ =>
      match DiscoveryInterface kc with
      | None => Some (errorString ("'Client.DiscoveryInterface' is nil. " ++ commonMessage))
      | Some _ =>
          match KubeInterface kc with
          | None => Some (errorString ("'Client.KubeInterface' is nil. " ++ commonMessage))
          | Some _ => None
          end
      end
  end.

Definition getTemplatesPath (kc : ClientSet) : string :=
  let defaultFilePath := "templates" in
  if negb (String.eqb (FilesPath kc) "") then FilesPath kc else defaultFilePath.

Definition getResourcePath (kc : ClientSet) (resourceFileName : string) : string :=
  let templatesPath := getTemplatesPath kc in
  filepath_Join templatesPath resourceFileName.

Definition time_Second : Z := 1000000000.

Definition getWaiterInterval (kc : ClientSet) : Z :=
  let defaultWaiterInterval := time_Second * 30 in
  if WaiterInterval kc >? 0 then WaiterInterval kc else defaultWaiterInterval.

Definition getWaiterTries (kc : ClientSet) : Z :=
  let defaultWaiterTries := 40 in
  if WaiterTries kc >? 0 then WaiterTries kc else defaultWaiterTries.

(** Recursion budget that lets a polling loop run to its own exit: the loop
    leaves at the latest when the counter reaches [getWaiterTries]. *)
Definition budget (kc : ClientSet) : nat := Datatypes.S (Z.to_nat (getWaiterTries kc)).

(** *** Operation dispatch *)

Definition unsupported (operation : string) : error :=
  errorString ("unsupported operation: " ++ operation).

Definition unstructuredResourceOperation (kc : ClientSet) (operation ns : string)
    (unstructuredResource : K8sUnstructuredResource) : M S (option error) :=
  let gvr := GVR unstructuredResource in
  let resource := UResource unstructuredResource in
  let ns := if String.eqb ns "" then GetNamespace resource else ns in
  if String.eqb operation operationCreate || String.eqb operation operationSubmit then
    r <- Create (DynamicInterface kc) (MappingResource gvr) ns resource ;;
    match r with
    | Err err => if IsAlreadyExists err then ret None else ret (Some err)
    | Ok _ => ret None
    end
  else if String.eqb operation operationUpdate then
    r <- Get (DynamicInterface kc) (MappingResource gvr) ns (GetName resource) ;;
    match r with
    | Err err => ret (Some err)
    | Ok currentResourceVersion =>
        let resource :=
          SetResourceVersion (GetResourceVersion (DeepCopy currentResourceVersion)) resource in
        r <- Update (DynamicInterface kc) (MappingResource gvr) ns resource ;;
        match r with
        | Err err => ret (Some err)
        | Ok _ => ret None
        end
    end
  else if String.eqb operation operationDelete then
    r <- Delete (DynamicInterface kc) (MappingResource gvr) ns (GetName resource) ;;
    match r with
    | Some err => if IsNotFound err then ret None else ret (Some err)
    | None => ret None
    end
  else ret (Some (unsupported operation)).

Definition parseSingleResource (kc : ClientSet) (resourceFileName : string)
  : result K8sUnstructuredResource :=
  match Validate kc with
  | Some err => Err err
  | None =>
      let resourcePath := getResourcePath kc resourceFileName in
      GetResourceFromYaml resourcePath (DiscoveryInterface kc) (TemplateArguments kc)
  end.

Definition ResourceOperationInNamespace (kc : ClientSet)
    (operation resourceFileName ns : string) : M S (option error) :=
  match parseSingleResource kc resourceFileName with
  | Err err => ret (Some err)
  | Ok unstructuredResource =>
      unstructuredResourceOperation kc operation ns unstructuredResource
  end.

Definition ResourceOperation (kc : ClientSet) (operation resourceFileName : string)
  : M S (option error) :=
  ResourceOperationInNamespace kc operation resourceFileName "".

(** *** Existence poll *)

Definition timed_out_state : error :=
  errorString "waiter timed out waiting for resource state".

Fixpoint ResourceShouldBe_loop (fuel : nat) (kc : ClientSet) (gvr : RESTMapping)
    (resource : Unstructured) (state : string) (counter : Z) : M S (option error) :=
  match fuel with
  | O => fun w => (OutOfFuel, w)
  | Datatypes.S fuel' =>
      if counter >=? getWaiterTries kc then ret (Some timed_out_state)
      else
        r <- Get (DynamicInterface kc) (MappingResource gvr)
               (GetNamespace resource) (GetName resource) ;;
        match
          match r with
          | Err err => if negb (IsNotFound err) then inl err else inr false
          | Ok _ => inr true
          end
        with
        | inl err => ret (Some err)
        | inr exists_ =>
            let satisfied :=
              if String.eqb state stateDeleted then negb exists_
              else if String.eqb state stateCreated then exists_
              else false in
            if satisfied then ret None
            else
              _ <- time_Sleep (getWaiterInterval kc) ;;
              ResourceShouldBe_loop fuel' kc gvr resource state (counter + 1)
        end
  end.

Definition ResourceShouldBe (kc : ClientSet) (resourceFileName state : string)
  : M S (option error) :=
  match Validate kc with
  | Some err => ret (Some err)
  | None =>
      let resourcePath := getResourcePath kc resourceFileName in
      match GetResourceFromYaml resourcePath (DiscoveryInterface kc) (TemplateArguments kc) with
      | Err err => ret (Some err)
      | Ok unstructuredResource =>
          ResourceShouldBe_loop (budget kc) kc (GVR unstructuredResource)
            (UResource unstructuredResource) state 0
      end
  end.

(** *** Field-convergence poll *)

Definition selector_format_error (selector : string) : error :=
  errorString ("Selector '" ++ selector ++ "' should meet format '<key>=<value>'").

Definition selector_key_error (selector : string) : error :=
  errorString ("Found empty 'key' in selector '" ++ selector
               ++ "' of form '<key>=<value>'").

Definition timed_out_resource : error :=
  errorString "waiter timed out waiting for resource".

Fixpoint ResourceShouldConvergeToSelector_loop (fuel : nat) (kc : ClientSet)
    (gvr : RESTMapping) (resource : Unstructured) (keySlice : list string)
    (value : string) (counter : Z) : M S (option error) :=
  match fuel with
  | O => fun w => (OutOfFuel, w)
  | Datatypes.S fuel' =>
      if counter >=? getWaiterTries kc then ret (Some timed_out_resource)
      else
        r <- Get (DynamicInterface kc) (MappingResource gvr)
               (GetNamespace resource) (GetName resource) ;;
        match r with
        | Err err => ret (Some err)
        | Ok cr =>
            let again :=
              _ <- time_Sleep (getWaiterInterval kc) ;;
              ResourceShouldConvergeToSelector_loop fuel' kc gvr resource keySlice
                value (counter + 1) in
            let n := NestedString (UnstructuredContent cr) keySlice in
            if nfound n then
              match nerr n with
              | Some err => ret (Some err)
              | None => if EqualFold (nval n) value then ret None else again
              end
            else again
        end
  end.

Definition ResourceShouldConvergeToSelector (kc : ClientSet)
    (resourceFileName selector : string) : M S (option error) :=
  match Validate kc with
  | Some err => ret (Some err)
  | None =>
      let split := Strings.DeleteEmpty (Strings.Split selector "="%char) in
      match split with
      | [key; value] =>
          let keySlice := Strings.DeleteEmpty (Strings.Split key "."%char) in
          if (length keySlice <? 1)%nat then ret (Some (selector_key_error selector))
          else
            let resourcePath := getResourcePath kc resourceFileName in
            match GetResourceFromYaml resourcePath (DiscoveryInterface kc)
                    (TemplateArguments kc) with
            | Err err => ret (Some err)
            | Ok unstructuredResource =>
                ResourceShouldConvergeToSelector_loop (budget kc) kc
                  (GVR unstructuredResource) (UResource unstructuredResource)
                  keySlice value 0
            end
      | _ => ret (Some (selector_format_error selector))
      end
  end.

(** *** Condition-match poll *)

Definition status_not_a_string : string :=
  "interface conversion: interface {} is not string".

(** The [for _, c := range conditions] loop: [Done true] when an entry made
    the function return nil, [Done false] when the range ran to its end, and a
    panic when the unchecked [condition["status"].(string)] fails. *)
Fixpoint scan_conditions (conditions : list value) (cType expectedStatus : string)
  : exec bool :=
  match conditions with
  | [] => Done false
  | c :: rest =>
      match c with
      | VMap condition =>
          match lookup "type" condition with
          | None => scan_conditions rest cType expectedStatus
          | Some (VString condType) =>
              if String.eqb condType cType then
                match lookup "status" condition with
                | Some (VString status) =>
                    if String.eqb status expectedStatus then Done true
                    else scan_conditions rest cType expectedStatus
                | _ => Panic status_not_a_string
                end
              else scan_conditions rest cType expectedStatus
          | Some _ => scan_conditions rest cType expectedStatus
          end
      | _ => scan_conditions rest cType expectedStatus
      end
  end.

Fixpoint ResourceConditionShouldBe_loop (fuel : nat) (kc : ClientSet)
    (gvr : RESTMapping) (resource : Unstructured) (cType expectedStatus : string)
    (counter : Z) : M S (option error) :=
  match fuel with
  | O => fun w => (OutOfFuel, w)
  | Datatypes.S fuel' =>
      if counter >=? getWaiterTries kc then ret (Some timed_out_state)
      else
        r <- Get (DynamicInterface kc) (MappingResource gvr)
               (GetNamespace resource) (GetName resource) ;;
        match r with
        | Err err => ret (Some err)
        | Ok cr =>
            let again :=
              _ <- time_Sleep (getWaiterInterval kc) ;;
              ResourceConditionShouldBe_loop fuel' kc gvr resource cType
                expectedStatus (counter + 1) in
            let n := NestedSlice (UnstructuredContent cr) ["status"; "conditions"] in
            if nfound n then
              match nerr n with
              | Some err => ret (Some err)
              | None =>
                  match scan_conditions (nval n) cType expectedStatus with
                  | Done true => ret None
                  | Done false => again
                  | Panic msg => panic msg
                  | OutOfFuel => fun w => (OutOfFuel, w)
                  end
              end
            else again
        end
  end.

Definition ResourceConditionShouldBe (kc : ClientSet)
    (resourceFileName cType status : string) : M S (option error) :=
  let expectedStatus := Title status in
  match Validate kc with
  | Some err => ret (Some err)
  | None =>
      let resourcePath := getResourcePath kc resourceFileName in
      match GetResourceFromYaml resourcePath (DiscoveryInterface kc) (TemplateArguments kc) with
      | Err err => ret (Some err)
      | Ok unstructuredResource =>
          ResourceConditionShouldBe_loop (budget kc) kc (GVR unstructuredResource)
            (UResource unstructuredResource) cType expectedStatus 0
      end
  end.

(** *** Bulk directory delete *)

Definition timed_out_deletion : error :=
  errorString "waiter timed out waiting for deletion".

(** [filepath.Walk]: the callback is run on every visit, in order, and the
    first error it returns ends the walk. *)
Fixpoint Walk (visits : list visit)
    (fn : string -> option FileInfo -> option error -> M S (option error))
  : M S (option error) :=
  match visits with
  | [] => ret None
  | v :: rest =>
      r <- fn (vpath v) (vinfo v) (verr v) ;;
      match r with
      | Some err => ret (Some err)
      | None => Walk rest fn
      end
  end.

(** The guard both callbacks start with: [info.IsDir() ||
    filepath.Ext(path) != ".yaml"], where a nil [info] panics. *)
Definition not_a_resource_file (path : string) (info : option FileInfo) : exec bool :=
  match info with
  | None => Panic nil_dereference
  | Some i => Done (IsDir i || negb (String.eqb (Strings.Ext path) ".yaml"))
  end.

Definition deleteFn (kc : ClientSet) (path : string) (info : option FileInfo)
    (walkErr : option error) : M S (option error) :=
  match walkErr with
  | Some err => ret (Some err)
  | None =>
      match not_a_resource_file path info with
      | Panic msg => panic msg
      | OutOfFuel => fun w => (OutOfFuel, w)
      | Done true => ret None
      | Done false =>
          match GetResourceFromYaml path (DiscoveryInterface kc) (TemplateArguments kc) with
          | Err err => ret (Some err)
          | Ok unstructuredResource =>
              let gvr := GVR unstructuredResource in
              let resource := UResource unstructuredResource in
              r <- Delete (DynamicInterface kc) (MappingResource gvr)
                     (GetNamespace resource) (GetName resource) ;;
              match r with
              | Some err => ret (Some err)
              | None => ret None
              end
          end
      end
  end.

Fixpoint waitFn_loop (fuel : nat) (kc : ClientSet) (gvr : RESTMapping)
    (resource : Unstructured) (counter : Z) : M S (option error) :=
  match fuel with
  | O => fun w => (OutOfFuel, w)
  | Datatypes.S fuel' =>
      if counter >=? getWaiterTries kc then ret (Some timed_out_deletion)
      else
        r <- Get (DynamicInterface kc) (MappingResource gvr)
               (GetNamespace resource) (GetName resource) ;;
        let again :=
          _ <- time_Sleep (getWaiterInterval kc) ;;
          waitFn_loop fuel' kc gvr resource (counter + 1) in
        match r with
        | Err err => if IsNotFound err then ret None else again
        | Ok _ => again
        end
  end.

Definition waitFn (kc : ClientSet) (path : string) (info : option FileInfo)
    (walkErr : option error) : M S (option error) :=
  match walkErr with
  | Some err => ret (Some err)
  | None =>
      match not_a_resource_file path info with
      | Panic msg => panic msg
      | OutOfFuel => fun w => (OutOfFuel, w)
      | Done true => ret None
      | Done false =>
          match GetResourceFromYaml path (DiscoveryInterface kc) (TemplateArguments kc) with
          | Err err => ret (Some err)
          | Ok unstructuredResource =>
              waitFn_loop (budget kc) kc (GVR unstructuredResource)
                (UResource unstructuredResource) 0
          end
      end
  end.

Definition DeleteResourcesAtPath (kc : ClientSet) (resourcesPath : string)
  : M S (option error) :=
  match DiscoverClients kc with
  | (_, Some err) =>
      ret (Some (errorString ("Failed getting the kubernetes client: " ++ Error err)))
  | (kc, None) =>
      r <- Walk (walk_visits resourcesPath) (deleteFn kc) ;;
      match r with
      | Some err => ret (Some err)
      | None =>
          r <- Walk (walk_visits resourcesPath) (waitFn kc) ;;
          match r with
          | Some err => ret (Some err)
          | None => ret None
          end
      end
  end.

(** *** Dispatch over several resources, and dispatch with an expected result *)

(** [util.GetMultipleResourcesFromYaml] ([internal/utilities], not among the
    sources): the resources of a multi-document file, in document order. *)
Variable GetMultipleResourcesFromYaml :
  string -> option DiscoveryClient -> TemplateArgs
  -> result (list K8sUnstructuredResource).

Definition parseMultipleResources (kc : ClientSet) (resourceFileName : string)
  : result (list K8sUnstructuredResource) :=
  match Validate kc with
  | Some err => Err err
  | None =>
      let resourcePath := getResourcePath kc resourceFileName in
      GetMultipleResourcesFromYaml resourcePath (DiscoveryInterface kc)
        (TemplateArguments kc)
  end.

(** The [for _, unstructuredResource := range resourceList] loop of both
    multi-resource operations. *)
Fixpoint dispatch_each (kc : ClientSet) (operation ns : string)
    (resourceList : list K8sUnstructuredResource) : M S (option error) :=
  match resourceList with
  | [] => ret None
  | unstructuredResource :: rest =>
      err <- unstructuredResourceOperation kc operation ns unstructuredResource ;;
      match err with
      | Some err => ret (Some err)
      | None => dispatch_each kc operation ns rest
      end
  end.

Definition MultiResourceOperation (kc : ClientSet)
    (operation resourceFileName : string) : M S (option error) :=
  match parseMultipleResources kc resourceFileName with
  | Err err => ret (Some err)
  | Ok resourceList => dispatch_each kc operation "" resourceList
  end.

Definition MultiResourceOperationInNamespace (kc : ClientSet)
    (operation resourceFileName ns : string) : M S (option error) :=
  match parseMultipleResources kc resourceFileName with
  | Err err => ret (Some err)
  | Ok resourceList => dispatch_each kc operation ns resourceList
  end.

Definition unexpected_error (operation resourceFileName : string) (err : error)
  : error :=
  errorString ("unexpected error when " ++ operation ++ " " ++ resourceFileName
               ++ ": " ++ Error err).

Definition expected_error (operation resourceFileName : string) : error :=
  errorString ("expected error when " ++ operation ++ " " ++ resourceFileName
               ++ ", but received none").

Definition ResourceOperationWithResultInNamespace (kc : ClientSet)
    (operation resourceFileName namespace expectedResult : string)
  : M S (option error) :=
  let expectError := EqualFold expectedResult "fail" in
  err <- ResourceOperationInNamespace kc operation resourceFileName namespace ;;
  match err with
  | Some err =>
      if negb expectError
      then ret (Some (unexpected_error operation resourceFileName err))
      else ret None
  | None =>
      if expectError
      then ret (Some (expected_error operation resourceFileName))
      else ret None
  end.

Definition ResourceOperationWithResult (kc : ClientSet)
    (operation resourceFileName expectedResult : string) : M S (option error) :=
  ResourceOperationWithResultInNamespace kc operation resourceFileName ""
    expectedResult.

(** *** Writing one field of the live resource *)

Definition UpdateResourceWithField (kc : ClientSet)
    (resourceFileName key value : string) : M S (option error) :=
  let keySlice := Strings.DeleteEmpty (Strings.Split key "."%char) in
  match Validate kc with
  | Some err => ret (Some err)
  | None =>
      let resourcePath := getResourcePath kc resourceFileName in
      match GetResourceFromYaml resourcePath (DiscoveryInterface kc)
              (TemplateArguments kc) with
      | Err err => ret (Some err)
      | Ok unstructuredResource =>
          let gvr := GVR unstructuredResource in
          let resource := UResource unstructuredResource in
          let written :=
            match ParseInt value with
            | Some intValue => VInt intValue
            | None => VString value
            end in
          r <- Get (DynamicInterface kc) (MappingResource gvr)
                 (GetNamespace resource) (GetName resource) ;;
          match r with
          | Err err => ret (Some err)
          | Ok updateTarget =>
              match SetNestedField (UnstructuredContent updateTarget) written
                      keySlice with
              | Panic msg => panic msg
              | OutOfFuel => fun w => (OutOfFuel, w)
              | Done (Err err) => ret (Some err)
              | Done (Ok content) =>
                  r <- Update (DynamicInterface kc) (MappingResource gvr)
                         (GetNamespace resource) (mkUnstructured content) ;;
                  match r with
                  | Err err => ret (Some err)
                  | Ok _ =>
                      _ <- time_Sleep (getWaiterInterval kc) ;;
                      ret None
                  end
              end
          end
      end
  end.

(** [DeleteAllTestResources] *)
Definition DeleteAllTestResources (kc : ClientSet) : M S (option error) :=
  let resourcesPath := getTemplatesPath kc in
  DeleteResourcesAtPath kc resourcesPath.

End Kube.

Arguments mkClientSet {S KubeClient DiscoveryClient TemplateArgs}.
Arguments KubeInterface {S KubeClient DiscoveryClient TemplateArgs} c.
Arguments DynamicInterface {S KubeClient DiscoveryClient TemplateArgs} c.
Arguments DiscoveryInterface {S KubeClient DiscoveryClient TemplateArgs} c.
Arguments FilesPath {S KubeClient DiscoveryClient TemplateArgs} c.
Arguments TemplateArguments {S KubeClient DiscoveryClient TemplateArgs} c.
Arguments WaiterInterval {S KubeClient DiscoveryClient TemplateArgs} c.
Arguments WaiterTries {S KubeClient DiscoveryClient TemplateArgs} c.
Arguments Validate {S KubeClient DiscoveryClient TemplateArgs} kc.
Arguments getTemplatesPath {S KubeClient DiscoveryClient TemplateArgs} kc.
Arguments getResourcePath {S KubeClient DiscoveryClient TemplateArgs} filepath_Join kc resourceFileName.
Arguments getWaiterInterval {S KubeClient DiscoveryClient TemplateArgs} kc.
Arguments getWaiterTries {S KubeClient DiscoveryClient TemplateArgs} kc.
Arguments budget {S KubeClient DiscoveryClient TemplateArgs} kc.
Arguments unstructuredResourceOperation {S KubeClient DiscoveryClient TemplateArgs}
  kc operation ns unstructuredResource.
Arguments ResourceOperationInNamespace {S KubeClient DiscoveryClient TemplateArgs}
  GetResourceFromYaml filepath_Join kc operation resourceFileName ns.
Arguments ResourceShouldBe_loop {S KubeClient DiscoveryClient TemplateArgs}
  fuel kc gvr resource state counter.
Arguments ResourceShouldBe {S KubeClient DiscoveryClient TemplateArgs}
  GetResourceFromYaml filepath_Join kc resourceFileName state.
Arguments ResourceShouldConvergeToSelector_loop {S KubeClient DiscoveryClient TemplateArgs}
  EqualFold fuel kc gvr resource keySlice value counter.
Arguments ResourceShouldConvergeToSelector {S KubeClient DiscoveryClient TemplateArgs}
  GetResourceFromYaml filepath_Join EqualFold kc resourceFileName selector.
Arguments ResourceConditionShouldBe_loop {S KubeClient DiscoveryClient TemplateArgs}
  fuel kc gvr resource cType expectedStatus counter.
Arguments ResourceConditionShouldBe {S KubeClient DiscoveryClient TemplateArgs}
  GetResourceFromYaml filepath_Join Title kc resourceFileName cType status.
Arguments Walk {S} visits fn.
Arguments deleteFn {S KubeClient DiscoveryClient TemplateArgs}
  GetResourceFromYaml kc path info walkErr.
Arguments waitFn_loop {S KubeClient DiscoveryClient TemplateArgs}
  fuel kc gvr resource counter.
Arguments waitFn {S KubeClient DiscoveryClient TemplateArgs}
  GetResourceFromYaml kc path info walkErr.
Arguments DeleteResourcesAtPath {S KubeClient DiscoveryClient TemplateArgs}
  GetResourceFromYaml walk_visits DiscoverClients kc resourcesPath.

Arguments parseMultipleResources {S KubeClient DiscoveryClient TemplateArgs}
  filepath_Join GetMultipleResourcesFromYaml kc resourceFileName.
Arguments dispatch_each {S KubeClient DiscoveryClient TemplateArgs}
  kc operation ns resourceList.
Arguments MultiResourceOperation {S KubeClient DiscoveryClient TemplateArgs}
  filepath_Join GetMultipleResourcesFromYaml kc operation resourceFileName.
Arguments MultiResourceOperationInNamespace {S KubeClient DiscoveryClient TemplateArgs}
  filepath_Join GetMultipleResourcesFromYaml kc operation resourceFileName ns.
Arguments ResourceOperationWithResultInNamespace {S KubeClient DiscoveryClient TemplateArgs}
  GetResourceFromYaml filepath_Join EqualFold kc operation resourceFileName namespace
  expectedResult.
Arguments ResourceOperationWithResult {S KubeClient DiscoveryClient TemplateArgs}
  GetResourceFromYaml filepath_Join EqualFold kc operation resourceFileName
  expectedResult.
Arguments UpdateResourceWithField {S KubeClient DiscoveryClient TemplateArgs}
  GetResourceFromYaml filepath_Join kc resourceFileName key value.
Arguments DeleteAllTestResources {S KubeClient DiscoveryClient TemplateArgs}
  GetResourceFromYaml walk_visits DiscoverClients kc.

(** The namespace a dispatch addresses: the override when it is not empty,
    the namespace of the document otherwise. *)
Definition effective_namespace (ns : string) (resource : Unstructured) : string :=
  if String.eqb ns "" then GetNamespace resource else ns.

(** ** What the spec says about selectors *)

(** The key part of a selector: what stands before its first [=]. *)
Definition selector_key (selector : string) : string :=
  hd "" (Strings.Split selector "="%char).

(** A selector is malformed, in the spec's words, when it does not contain
    exactly one [=] or when its key part is empty. *)
Definition malformed_selector (selector : string) : Prop :=
  Strings.Count selector "="%char <> 1%nat \/ selector_key selector = "".

Definition is_format_error (selector : string) (e : error) : Prop :=
  e = selector_format_error selector \/ e = selector_key_error selector.

(** ** An in-memory remote system

    A dynamic client over a store of objects, in the manner of client-go's
    [NewSimpleDynamicClient]: objects are kept under their resource, namespace
    and name; creating what is there is "already exists", reading, updating or
    deleting what is not there is "not found". *)

Module Tracker.

Definition key : Type := (string * string * string)%type.

Definition key_eqb (a b : key) : bool :=
  let '(r1, n1, m1) := a in
  let '(r2, n2, m2) := b in
  String.eqb r1 r2 && String.eqb n1 n2 && String.eqb m1 m2.

Definition objects : Type := list (key * Unstructured).

Fixpoint find (k : key) (s : objects) : option Unstructured :=
  match s with
  | [] => None
  | (k', o) :: rest => if key_eqb k' k then Some o else find k rest
  end.

Fixpoint remove (k : key) (s : objects) : objects :=
  match s with
  | [] => []
  | (k', o) :: rest => if key_eqb k' k then remove k rest else (k', o) :: remove k rest
  end.

Definition not_found (name : string) : error :=
  StatusError StatusReasonNotFound (name ++ " not found").

Definition already_exists (name : string) : error :=
  StatusError StatusReasonAlreadyExists (name ++ " already exists").

Definition namespace_mismatch : error :=
  StatusError StatusReasonBadRequest
    "request namespace does not match object namespace".

Definition create (gvr : GroupVersionResource) (ns : string) (obj : Unstructured)
    (s : objects) : result Unstructured * objects :=
  if negb (String.eqb (GetNamespace obj) "") && negb (String.eqb (GetNamespace obj) ns)
  then (Err namespace_mismatch, s)
  else
    let k := (Resource gvr, ns, GetName obj) in
    match find k s with
    | Some _ => (Err (already_exists (GetName obj)), s)
    | None => (Ok obj, (k, obj) :: s)
    end.

Definition get (gvr : GroupVersionResource) (ns name : string) (s : objects)
  : result Unstructured * objects :=
  match find (Resource gvr, ns, name) s with
  | Some o => (Ok o, s)
  | None => (Err (not_found name), s)
  end.

Definition update (gvr : GroupVersionResource) (ns : string) (obj : Unstructured)
    (s : objects) : result Unstructured * objects :=
  let k := (Resource gvr, ns, GetName obj) in
  match find k s with
  | Some _ => (Ok obj, (k, obj) :: remove k s)
  | None => (Err (not_found (GetName obj)), s)
  end.

Definition delete (gvr : GroupVersionResource) (ns name : string) (s : objects)
  : option error * objects :=
  let k := (Resource gvr, ns, name) in
  match find k s with
  | Some _ => (None, remove k s)
  | None => (Some (not_found name), s)
  end.

Definition simpleDynamicClient : DynamicClient objects :=
  mkDynamicClient objects create get update delete.

(** The same store behind a remote system that lets nobody read. *)
Definition forbidden : error := StatusError StatusReasonForbidden "forbidden".

Definition unreadableClient : DynamicClient objects :=
  mkDynamicClient objects create (fun _ _ _ s => (Err forbidden, s)) update delete.

(** The same store behind a remote system whose every read answers with one
    given object, as a get reactor put in front of the client does. *)
Definition steadyClient (live : Unstructured) : DynamicClient objects :=
  mkDynamicClient objects create (fun _ _ _ s => (Ok live, s)) update delete.


(** The same store behind a remote system that is finishing a deletion: a
    read finds the object one last time and lets it go. *)
Definition finalizingClient : DynamicClient objects :=
  mkDynamicClient objects create
    (fun gvr ns name s =>
       match find (Resource gvr, ns, name) s with
       | Some o => (Ok o, remove (Resource gvr, ns, name) s)
       | None => (Err (not_found name), s)
       end)
    update delete.


(** The same store behind a remote system that takes an object into whatever
    namespace the request names. *)
Definition lenientClient : DynamicClient objects :=
  mkDynamicClient objects
    (fun gvr ns obj s =>
       match find (Resource gvr, ns, GetName obj) s with
       | Some _ => (Err (already_exists (GetName obj)), s)
       | None => (Ok obj, ((Resource gvr, ns, GetName obj), obj) :: s)
       end)
    get update delete.


(** The same store behind a remote system whose every read answers
    "not found", as a get reactor for a deleted object does. *)
Definition goneClient : DynamicClient objects :=
  mkDynamicClient objects create (fun _ _ name s => (Err (not_found name), s))
    update delete.

End Tracker.

(** ** A small test bed: one resource file, one mapping *)

Module Example.

Definition configMaps : RESTMapping :=
  mkRESTMapping (mkGVR "" "v1" "configmaps") true.

Definition document (fields : list (string * value)) : Unstructured :=
  mkUnstructured
    ([("apiVersion", VString "v1"); ("kind", VString "ConfigMap")] ++ fields).

(** A document that names its namespace, and one that does not. *)
Definition demo : Unstructured :=
  document [("metadata", VMap [("name", VString "demo");
                               ("namespace", VString "default")])].

Definition demoNoNamespace : Unstructured :=
  document [("metadata", VMap [("name", VString "demo")])].

(** The live object, with a version token and a condition that has a type
    and no status. *)
Definition demoLive : Unstructured :=
  document [("metadata", VMap [("name", VString "demo");
                               ("namespace", VString "default");
                               ("resourceVersion", VString "7")]);
            ("spec", VMap [("replicas", VString "3")]);
            ("status", VMap [("conditions",
               VSlice [VString "noise";
                       VMap [("reason", VString "Started")];
                       VMap [("type", VInt 1)];
                       VMap [("type", VString "Ready")]])])].

Definition resolved : K8sUnstructuredResource :=
  mkK8sUnstructuredResource configMaps demo.

Definition resolvedNoNamespace : K8sUnstructuredResource :=
  mkK8sUnstructuredResource configMaps demoNoNamespace.

(** Every [.yaml] path decodes to the demo resource. *)
Definition fromYaml (path : string) (_ : option unit) (_ : unit)
  : result K8sUnstructuredResource :=
  if String.eqb (Strings.Ext path) ".yaml" then Ok resolved
  else Err (errorString ("cannot decode " ++ path)).

Definition join (dir file : string) : string := dir ++ "/" ++ file.

Definition lower (c : ascii) : ascii :=
  let n := nat_of_ascii c in
  if ((65 <=? n) && (n <=? 90))%nat then ascii_of_nat (n + 32) else c.

Definition upper (c : ascii) : ascii :=
  let n := nat_of_ascii c in
  if ((97 <=? n) && (n <=? 122))%nat then ascii_of_nat (n - 32) else c.

Fixpoint map_string (f : ascii -> ascii) (s : string) : string :=
  match s with
  | EmptyString => EmptyString
  | String c rest => String (f c) (map_string f rest)
  end.

(** Title case and case folding on one ASCII word. *)
Definition title (s : string) : string :=
  match s with
  | EmptyString => EmptyString
  | String c rest => String (upper c) (map_string lower rest)
  end.

Definition equalFold (a b : string) : bool :=
  String.eqb (map_string lower a) (map_string lower b).

(** A directory with a resource file and a file that is not one. *)
Definition visits (root : string) : list visit :=
  [ mkVisit root (Some (mkFileInfo true)) None;
    mkVisit (join root "demo.yaml") (Some (mkFileInfo false)) None;
    mkVisit (join root "notes.txt") (Some (mkFileInfo false)) None ].

Definition clientSet (dyn : DynamicClient Tracker.objects) (tries : Z)
  : ClientSet Tracker.objects unit unit unit :=
  mkClientSet (Some tt) (Some dyn) (Some tt) "" tt 1 tries.

Definition discover (kc : ClientSet Tracker.objects unit unit unit)
  : ClientSet Tracker.objects unit unit unit * option error := (kc, None).

(** The remote system with nothing in it, and with the live demo object. *)
Definition empty : World Tracker.objects := mkWorld [] [].

Definition running : World Tracker.objects :=
  mkWorld [(("configmaps", "default", "demo"), demoLive)] [].


(** A second resource, and a file that holds both. *)
Definition other : Unstructured :=
  document [("metadata", VMap [("name", VString "other")])].

Definition resolvedOther : K8sUnstructuredResource :=
  mkK8sUnstructuredResource configMaps other.

Definition manyFromYaml (path : string) (_ : option unit) (_ : unit)
  : result (list K8sUnstructuredResource) :=
  if String.eqb (Strings.Ext path) ".yaml"
  then Ok [resolvedNoNamespace; resolvedOther]
  else Err (errorString ("cannot decode " ++ path)).

(** A client set without its dynamic handle. *)
Definition unconnected : ClientSet Tracker.objects unit unit unit :=
  mkClientSet (Some tt) None (Some tt) "" tt 1 2.


(** The live object with a number where the selector expects a string, and
    with a condition that is met. *)
Definition demoScaled : Unstructured :=
  document [("metadata", VMap [("name", VString "demo");
                               ("namespace", VString "default")]);
            ("spec", VMap [("replicas", VInt 3)]);
            ("status", VMap [("conditions",
               VSlice [VMap [("type", VString "Ready"); ("status", VString "False")];
                       VMap [("type", VString "Ready"); ("status", VString "True")]])])].


(** A directory without resource files. *)
Definition plainVisits (root : string) : list visit :=
  [ mkVisit root (Some (mkFileInfo true)) None;
    mkVisit (join root "README.md") (Some (mkFileInfo false)) None;
    mkVisit (join root "charts") (Some (mkFileInfo true)) None ].

(** The remote system that answers every read with the scaled demo object. *)
Definition scaled : DynamicClient Tracker.objects :=
  Tracker.steadyClient demoScaled.

End Example.

(** ** What keeps the existence poll waiting *)

(** A fetch result after which [ResourceShouldBe] neither returns nil nor
    returns the fetch error. *)
Definition keeps_waiting (state : string) (r : result Unstructured) : bool :=
  match r with
  | Ok _ => negb (String.eqb state stateCreated)
  | Err e => IsNotFound e && negb (String.eqb state stateDeleted)
  end.

(** The document's metadata is a map, or is yet to be made. *)
Definition metadata_is_map (u : Unstructured) : bool :=
  match lookup "metadata" (Object u) with
  | None => true
  | Some (VMap _) => true
  | Some _ => false
  end.

Definition addresses (ns : string) (e : event) : Prop :=
  match e with
  | Remote c => call_namespace c = ns
  | Sleep _ => True
  end.

Definition supported (operation : string) : Prop :=
  operation = operationCreate \/ operation = operationSubmit \/
  operation = operationUpdate \/ operation = operationDelete.

(** The remote call a create dispatch makes for a resource. *)
Definition create_call (ns : string) (ur : K8sUnstructuredResource) : event :=
  Remote (CallCreate (MappingResource (GVR ur))
            (effective_namespace ns (UResource ur)) (UResource ur)).

(** A create that the dispatch does not report: it went through, or the
    object was there. *)
Definition create_accepted (r : result Unstructured) : Prop :=
  match r with
  | Ok _ => True
  | Err err => IsAlreadyExists err = true
  end.

Definition is_error (err : option error) : bool :=
  match err with Some _ => true | None => false end.

(** ** What a poll does between its start and its end *)

(** A fetch result that makes [ResourceShouldBe] return nil. *)
Definition observed (state : string) (r : result Unstructured) : bool :=
  match r with
  | Ok _ => String.eqb state stateCreated
  | Err e => IsNotFound e && String.eqb state stateDeleted
  end.

(** The remote state after [k] fetches of one object. *)
Fixpoint after_fetches {S : Type} (d : DynamicClient S) (gvr : GroupVersionResource)
    (ns name : string) (k : nat) (s : S) : S :=
  match k with
  | O => s
  | Datatypes.S k' => after_fetches d gvr ns name k' (snd (dynGet d gvr ns name s))
  end.

(** The fetch every poll repeats for a resolved resource. *)
Definition fetch_of (ur : K8sUnstructuredResource) : event :=
  Remote (CallGet (MappingResource (GVR ur)) (GetNamespace (UResource ur))
            (GetName (UResource ur))).

Definition is_sleep (e : event) : bool :=
  match e with Sleep _ => true | Remote _ => false end.

Definition sleeps (t : list event) : nat := length (filter is_sleep t).

(** [n] rounds of a poll that never ends well: a fetch, then a sleep. *)
Definition rounds (n : nat) (fetch : event) (interval : Z) : list event :=
  concat (repeat [fetch; Sleep interval] n).

(** The string a document holds at a path, if it holds one. *)
Definition string_at (keySlice : list string) (live : Unstructured) : option string :=
  let n := NestedString (UnstructuredContent live) keySlice in
  if nfound n then Some (nval n) else None.

(** What one turn of any of the polling loops comes to: nothing happens (budget
    used up, nil handle), or the resource is fetched and the loop either ends
    there or sleeps for the waiter interval and takes its next turn. *)
Definition turn {S KubeClient DiscoveryClient TemplateArgs : Type}
    (kc : ClientSet S KubeClient DiscoveryClient TemplateArgs)
    (ur : K8sUnstructuredResource) (loop : nat -> Z -> M S (option error)) : Prop :=
  forall (fuel : nat) (counter : Z) (w : World S),
    (exists res, loop fuel counter w = (res, w))
    \/ (counter < getWaiterTries kc
        /\ exists s1,
             let w1 := mkWorld s1 (trace w ++ [fetch_of ur]) in
             (exists res, loop fuel counter w = (res, w1))
             \/ (exists fuel',
                    fuel = Datatypes.S fuel'
                    /\ loop fuel counter w
                       = loop fuel' (counter + 1)
                           (emit (Sleep (getWaiterInterval kc)) w1))).

(** What that makes of the whole loop: the trace grows by fetches of the
    resource and sleeps of the waiter interval only, with no more fetches
    than attempts left and no more sleeps than fetches. *)
Definition quiet {S KubeClient DiscoveryClient TemplateArgs : Type}
    (kc : ClientSet S KubeClient DiscoveryClient TemplateArgs)
    (ur : K8sUnstructuredResource) (attempts : Z) (before after : list event)
  : Prop :=
  exists added,
    after = (before ++ added)%list
    /\ Forall (fun e => e = fetch_of ur \/ e = Sleep (getWaiterInterval kc)) added
    /\ (fetches added <= Z.to_nat attempts)%nat
    /\ (sleeps added <= fetches added)%nat.

(** ** Selectors and conditions, as the polls read them *)

(** The key path and the value a selector is taken apart into, when the
    field-convergence poll accepts it. *)
Definition selector_parts (selector : string) : option (list string * string) :=
  match Strings.DeleteEmpty (Strings.Split selector "="%char) with
  | [key; value] =>
      let keySlice := Strings.DeleteEmpty (Strings.Split key "."%char) in
      if (length keySlice <? 1)%nat then None else Some (keySlice, value)
  | _ => None
  end.

(** An entry of [status.conditions] with the requested type and status. *)
Definition condition_matches (cType expectedStatus : string) (c : value) : bool :=
  match c with
  | VMap condition =>
      match lookup "type" condition, lookup "status" condition with
      | Some (VString condType), Some (VString status) =>
          String.eqb condType cType && String.eqb status expectedStatus
      | _, _ => false
      end
  | _ => false
  end.

(** An entry that is not of the requested type, or that is and has a string
    for its status. *)
Definition status_is_string (cType : string) (c : value) : bool :=
  match c with
  | VMap condition =>
      match lookup "type" condition with
      | Some (VString condType) =>
          if String.eqb condType cType
          then match lookup "status" condition with
               | Some (VString _) => true
               | _ => false
               end
          else true
      | _ => true
      end
  | _ => true
  end.

(** The conditions of a document, when [status.conditions] is a list. *)
Definition conditions_of (live : Unstructured) : option (list value) :=
  let n := NestedSlice (UnstructuredContent live) ["status"; "conditions"] in
  if nfound n then Some (nval n) else None.

(** ** The bulk delete, as the walk sees it *)

(** A visit that both callbacks take for a resource file. *)
Definition is_resource_file (v : visit) : bool :=
  match vinfo v with
  | Some info => negb (IsDir info) && String.eqb (Strings.Ext (vpath v)) ".yaml"
  | None => false
  end.

Definition is_delete (e : event) : bool :=
  match e with Remote (CallDelete _ _ _) => true | _ => false end.

(** Where the in-memory remote system keeps the object of a resource. *)
Definition tracker_key (ur : K8sUnstructuredResource) : Tracker.key :=
  (Resource (MappingResource (GVR ur)), GetNamespace (UResource ur),
   GetName (UResource ur)).

(** The value [UpdateResourceWithField] writes: a number when the text reads
    as a decimal integer, the text otherwise. *)
Definition written_value (text : string) : value :=
  match ParseInt text with
  | Some intValue => VInt intValue
  | None => VString text
  end.

(** * Properties *)

(** ** Traces and documents *)

Lemma fetches_snoc (t : list event) (e : event) :
  fetches (t ++ [e]) = (fetches t + (if is_get e then 1 else 0))%nat.
Proof.
  unfold fetches. rewrite filter_app, length_app. simpl.
  destruct (is_get e); reflexivity.
Qed.

Lemma lookup_store_same (key : string) (v : value) (m : list (string * value)) :
  lookup key (store key v m) = Some v.
Proof.
  induction m as [|[k old] rest IH]; simpl.
  - rewrite String.eqb_refl. reflexivity.
  - destruct (String.eqb k key) eqn:E; simpl; rewrite E; [reflexivity | exact IH].
Qed.

Lemma GetResourceVersion_SetResourceVersion (version : string) (u : Unstructured) :
  metadata_is_map u = true ->
  GetResourceVersion (SetResourceVersion version u) = version.
Proof.
  unfold metadata_is_map, SetResourceVersion, GetResourceVersion, getNestedString,
    NestedString.
  destruct (lookup "metadata" (Object u)) as [[| | | | |meta]|] eqn:E;
    try discriminate; intros _; cbn [Object NestedFieldNoCopy];
    rewrite lookup_store_same; cbn [NestedFieldNoCopy].
  - rewrite lookup_store_same. reflexivity.
  - reflexivity.
Qed.

Lemma key_eqb_refl (k : Tracker.key) : Tracker.key_eqb k k = true.
Proof.
  destruct k as [[r n] m]. unfold Tracker.key_eqb.
  rewrite !String.eqb_refl. reflexivity.
Qed.

Section Dispatch.

Context {S KubeClient DiscoveryClient TemplateArgs : Type}.
Implicit Type kc : ClientSet S KubeClient DiscoveryClient TemplateArgs.
Implicit Type d : DynamicClient S.
Implicit Type w : World S.

(** Delete dispatch: a not-found answer of the remote system is success. *)
Lemma delete_not_found_is_success kc d ns ur w err s' :
  DynamicInterface kc = Some d ->
  dynDelete d (MappingResource (GVR ur)) (effective_namespace ns (UResource ur))
    (GetName (UResource ur)) (remote w) = (Some err, s') ->
  IsNotFound err = true ->
  fst (unstructuredResourceOperation kc operationDelete ns ur w) = Done None.
Proof.
  intros Hd Hdel Hnf.
  unfold unstructuredResourceOperation, effective_namespace in *.
  cbn [String.eqb operationDelete operationCreate operationSubmit operationUpdate
       Ascii.eqb Bool.eqb orb].
  unfold bind, Delete. rewrite Hd, Hdel, Hnf. reflexivity.
Qed.

(** C7: an operation token outside create, submit, update and delete gets
    the unsupported-operation error, and the world is left as it was: no
    remote call is made. *)
Theorem unsupported_operation_makes_no_call kc operation ns ur w :
  operation <> operationCreate ->
  operation <> operationSubmit ->
  operation <> operationUpdate ->
  operation <> operationDelete ->
  unstructuredResourceOperation kc operation ns ur w
  = (Done (Some (unsupported operation)), w).
Proof.
  intros Hc Hs Hu Hd.
  apply String.eqb_neq in Hc, Hs, Hu, Hd.
  unfold unstructuredResourceOperation. rewrite Hc, Hs, Hu, Hd. reflexivity.
Qed.

(** C8: an update dispatch fetches the live resource first; when the fetch
    fails, with not-found or anything else, that error is returned and the
    fetch is the only remote call; otherwise the document is stamped with the
    version token of the fetched resource and the update is submitted with
    the stamped document, after the fetch. *)
Theorem update_fetches_then_stamps kc d ns ur w :
  DynamicInterface kc = Some d ->
  let gvr := MappingResource (GVR ur) in
  let resource := UResource ur in
  let target := effective_namespace ns resource in
  let fetch := Remote (CallGet gvr target (GetName resource)) in
  (forall err s1,
      dynGet d gvr target (GetName resource) (remote w) = (Err err, s1) ->
      unstructuredResourceOperation kc operationUpdate ns ur w
      = (Done (Some err), mkWorld s1 (trace w ++ [fetch])))
  /\
  (forall live s1,
      dynGet d gvr target (GetName resource) (remote w) = (Ok live, s1) ->
      let stamped := SetResourceVersion (GetResourceVersion live) resource in
      (metadata_is_map resource = true ->
       GetResourceVersion stamped = GetResourceVersion live)
      /\
      forall r s2,
        dynUpdate d gvr target stamped s1 = (r, s2) ->
        unstructuredResourceOperation kc operationUpdate ns ur w
        = (Done (match r with Err e => Some e | Ok _ => None end),
           mkWorld s2 (trace w ++ [fetch; Remote (CallUpdate gvr target stamped)]))).
Proof.
  intros Hd gvr resource target fetch.
  unfold unstructuredResourceOperation.
  cbn [String.eqb operationCreate operationSubmit operationUpdate
       Ascii.eqb Bool.eqb orb].
  fold gvr resource. fold (effective_namespace ns resource). fold target.
  split.
  - intros err s1 Hget. unfold bind, Get. rewrite Hd, Hget. reflexivity.
  - intros live s1 Hget. split.
    + apply GetResourceVersion_SetResourceVersion.
    + intros r s2 Hupd. unfold bind, Get, Update. rewrite Hd, Hget.
      unfold DeepCopy. cbn [remote trace]. rewrite Hupd.
      rewrite <- app_assoc. destruct r; reflexivity.
Qed.

(** C9: every remote call of a dispatch addresses the override namespace
    when the override is not empty, and the namespace of the document
    otherwise; a supported operation on a live handle makes such a call. *)
Theorem dispatch_namespace kc operation ns ur w :
  let target := if String.eqb ns "" then GetNamespace (UResource ur) else ns in
  (exists calls,
      trace (snd (unstructuredResourceOperation kc operation ns ur w))
      = (trace w ++ calls)%list
      /\ Forall (addresses target) calls)
  /\
  (forall d, DynamicInterface kc = Some d -> supported operation ->
     exists c calls,
       trace (snd (unstructuredResourceOperation kc operation ns ur w))
       = (trace w ++ Remote c :: calls)%list
       /\ call_namespace c = target).
Proof.
  intros target.
  assert (Hnil : forall r : exec (option error), exists calls : list event,
             trace (snd (r, w)) = (trace w ++ calls)%list /\ Forall (addresses target) calls).
  { intros r. exists []. rewrite app_nil_r. split; [reflexivity | constructor]. }
  unfold unstructuredResourceOperation. fold target.
  set (gvr := MappingResource (GVR ur)). set (resource := UResource ur).
  split.
  - destruct (String.eqb operation operationCreate || String.eqb operation operationSubmit).
    { unfold bind, Create. destruct (DynamicInterface kc) as [d|]; [|apply (Hnil (Panic nil_dereference))].
      destruct (dynCreate d gvr target resource (remote w)) as [r s1].
      exists [Remote (CallCreate gvr target resource)].
      split; [|repeat constructor].
      destruct r as [o|e]; [reflexivity|]. destruct (IsAlreadyExists e); reflexivity. }
    destruct (String.eqb operation operationUpdate).
    { unfold bind, Get. destruct (DynamicInterface kc) as [d|] eqn:Hd; [|apply (Hnil (Panic nil_dereference))].
      destruct (dynGet d gvr target (GetName resource) (remote w)) as [r s1].
      destruct r as [live|e].
      - unfold Update. cbn [remote trace].
        destruct (dynUpdate d gvr target
                    (SetResourceVersion (GetResourceVersion (DeepCopy live)) resource) s1)
          as [r s2].
        eexists [_; _]. split.
        + rewrite <- app_assoc. destruct r; reflexivity.
        + repeat constructor.
      - exists [Remote (CallGet gvr target (GetName resource))].
        split; [reflexivity | repeat constructor]. }
    destruct (String.eqb operation operationDelete).
    { unfold bind, Delete. destruct (DynamicInterface kc) as [d|]; [|apply (Hnil (Panic nil_dereference))].
      destruct (dynDelete d gvr target (GetName resource) (remote w)) as [r s1].
      exists [Remote (CallDelete gvr target (GetName resource))].
      split; [|repeat constructor].
      destruct r as [e|]; [|reflexivity]. destruct (IsNotFound e); reflexivity. }
    apply (Hnil (Done (Some (unsupported operation)))).
  - intros d Hd Hop. rewrite Hd.
    destruct Hop as [-> | [-> | [-> | ->]]];
      cbn [String.eqb operationCreate operationSubmit operationUpdate operationDelete
           Ascii.eqb Bool.eqb orb].
    + unfold bind, Create.
      destruct (dynCreate d gvr target resource (remote w)) as [r s1].
      exists (CallCreate gvr target resource), []. split; [|reflexivity].
      destruct r as [o|e]; [reflexivity|]. destruct (IsAlreadyExists e); reflexivity.
    + unfold bind, Create.
      destruct (dynCreate d gvr target resource (remote w)) as [r s1].
      exists (CallCreate gvr target resource), []. split; [|reflexivity].
      destruct r as [o|e]; [reflexivity|]. destruct (IsAlreadyExists e); reflexivity.
    + unfold bind, Get.
      destruct (dynGet d gvr target (GetName resource) (remote w)) as [r s1].
      destruct r as [live|e].
      * unfold Update. cbn [remote trace].
        destruct (dynUpdate d gvr target
                    (SetResourceVersion (GetResourceVersion (DeepCopy live)) resource) s1)
          as [r s2].
        exists (CallGet gvr target (GetName resource)). eexists [_]. split; [|reflexivity].
        rewrite <- app_assoc. destruct r; reflexivity.
      * exists (CallGet gvr target (GetName resource)), []. split; reflexivity.
    + unfold bind, Delete.
      destruct (dynDelete d gvr target (GetName resource) (remote w)) as [r s1].
      exists (CallDelete gvr target (GetName resource)), []. split; [|reflexivity].
      destruct r as [e|]; [|reflexivity]. destruct (IsNotFound e); reflexivity.
Qed.

End Dispatch.

(** ** Create and delete against what is already there, or already gone *)

Lemma create_on_tracker_again (gvr : GroupVersionResource) (ns : string)
    (obj : Unstructured) (s s1 : Tracker.objects) (r : result Unstructured) :
  Tracker.create gvr ns obj s = (r, s1) ->
  match r with Ok _ => True | Err e => IsAlreadyExists e = true end ->
  exists e, Tracker.create gvr ns obj s1 = (Err e, s1) /\ IsAlreadyExists e = true.
Proof.
  unfold Tracker.create.
  destruct (negb (String.eqb (GetNamespace obj) "")
            && negb (String.eqb (GetNamespace obj) ns)).
  - intros [= <- <-]. discriminate.
  - destruct (Tracker.find (Resource gvr, ns, GetName obj) s) eqn:F.
    + intros [= <- <-] _. rewrite F. eexists. split; reflexivity.
    + intros [= <- <-] _. cbn [Tracker.find]. rewrite key_eqb_refl.
      eexists. split; reflexivity.
Qed.

(** C2: a create or submit dispatch that the remote system answers with
    "already exists" returns nil; and on the in-memory remote system, a create
    dispatch that follows a create dispatch of the same resource which
    returned nil returns nil too. *)
Theorem create_already_exists_is_success :
  (forall (S KubeClient DiscoveryClient TemplateArgs : Type)
          (kc : ClientSet S KubeClient DiscoveryClient TemplateArgs)
          (d : DynamicClient S) (operation ns : string)
          (ur : K8sUnstructuredResource) (w : World S) (err : error) (s' : S),
      DynamicInterface kc = Some d ->
      operation = operationCreate \/ operation = operationSubmit ->
      dynCreate d (MappingResource (GVR ur)) (effective_namespace ns (UResource ur))
        (UResource ur) (remote w) = (Err err, s') ->
      IsAlreadyExists err = true ->
      fst (unstructuredResourceOperation kc operation ns ur w) = Done None)
  /\
  (forall (KubeClient DiscoveryClient TemplateArgs : Type)
          (kc : ClientSet Tracker.objects KubeClient DiscoveryClient TemplateArgs)
          (operation ns : string) (ur : K8sUnstructuredResource)
          (w w1 : World Tracker.objects),
      DynamicInterface kc = Some Tracker.simpleDynamicClient ->
      operation = operationCreate \/ operation = operationSubmit ->
      unstructuredResourceOperation kc operation ns ur w = (Done None, w1) ->
      fst (unstructuredResourceOperation kc operation ns ur w1) = Done None).
Proof.
  split.
  - intros S K D T kc d operation ns ur w err s' Hd Hop Hcreate Hexists.
    unfold unstructuredResourceOperation, effective_namespace in *.
    assert (Hb : String.eqb operation operationCreate
                 || String.eqb operation operationSubmit = true)
      by (destruct Hop as [-> | ->]; reflexivity).
    rewrite Hb. unfold bind, Create. rewrite Hd, Hcreate, Hexists. reflexivity.
  - intros K D T kc operation ns ur w w1 Hd Hop.
    unfold unstructuredResourceOperation.
    assert (Hb : String.eqb operation operationCreate
                 || String.eqb operation operationSubmit = true)
      by (destruct Hop as [-> | ->]; reflexivity).
    rewrite Hb. unfold bind, Create. rewrite Hd.
    cbn [dynCreate Tracker.simpleDynamicClient].
    set (gvr := MappingResource (GVR ur)).
    set (target := if String.eqb ns "" then GetNamespace (UResource ur) else ns).
    destruct (Tracker.create gvr target (UResource ur) (remote w)) as [r s1] eqn:First.
    intros Hfirst.
    assert (Hr : match r with Ok _ => True | Err e => IsAlreadyExists e = true end).
    { destruct r as [o|e]; [exact I|].
      destruct (IsAlreadyExists e); [reflexivity | discriminate Hfirst]. }
    assert (Hw1 : remote w1 = s1).
    { destruct r as [o|e]; [|destruct (IsAlreadyExists e)];
        inversion Hfirst; reflexivity. }
    destruct (create_on_tracker_again _ _ _ _ _ _ First Hr) as [e [Second He]].
    rewrite Hw1, Second, He. reflexivity.
Qed.

(** C1: the delete dispatch treats not-found as success, phase one of the
    bulk directory delete does not. With one resource file whose resource the
    remote system does not hold, [DeleteResourcesAtPath] returns the not-found
    error of its first delete request and never reaches the wait phase, where
    the delete dispatch on the same resource returns nil. *)
Theorem bulk_delete_returns_not_found :
  DeleteResourcesAtPath Example.fromYaml Example.visits Example.discover
    (Example.clientSet Tracker.simpleDynamicClient 2) "templates" Example.empty
  = (Done (Some (Tracker.not_found "demo")),
     mkWorld [] [Remote (CallDelete (MappingResource Example.configMaps) "default" "demo")])
  /\ IsNotFound (Tracker.not_found "demo") = true
  /\ unstructuredResourceOperation (Example.clientSet Tracker.simpleDynamicClient 2)
       operationDelete "" Example.resolved Example.empty
     = (Done None,
        mkWorld [] [Remote (CallDelete (MappingResource Example.configMaps) "default" "demo")]).
Proof.
  split; [|split]; vm_compute; reflexivity.
Qed.

(** ** The polling loops *)

Section Polls.

Context {S KubeClient DiscoveryClient TemplateArgs : Type}.
Variable GetResourceFromYaml :
  string -> option DiscoveryClient -> TemplateArgs -> result K8sUnstructuredResource.
Variable filepath_Join : string -> string -> string.
Variable Title : string -> string.
Variable EqualFold : string -> string -> bool.
Implicit Type kc : ClientSet S KubeClient DiscoveryClient TemplateArgs.
Implicit Type d : DynamicClient S.
Implicit Type w : World S.

Lemma getWaiterTries_positive kc : 0 < getWaiterTries kc.
Proof.
  unfold getWaiterTries. destruct (WaiterTries kc >? 0) eqn:E; [|lia].
  apply Z.gtb_lt in E. lia.
Qed.

Lemma getWaiterTries_set kc : 1 <= WaiterTries kc -> getWaiterTries kc = WaiterTries kc.
Proof.
  intros H. unfold getWaiterTries.
  destruct (WaiterTries kc >? 0) eqn:E; [reflexivity|].
  rewrite Z.gtb_ltb in E. apply Z.ltb_ge in E. lia.
Qed.

Lemma budget_suffices kc : (Z.to_nat (getWaiterTries kc) < budget kc)%nat.
Proof. unfold budget. lia. Qed.

(** As long as every fetch keeps the existence poll waiting, the loop makes
    one fetch per remaining attempt and ends in the timeout error. *)
Lemma ResourceShouldBe_loop_exhausts kc d gvr resource state :
  DynamicInterface kc = Some d ->
  (forall s, keeps_waiting state
               (fst (dynGet d (MappingResource gvr) (GetNamespace resource)
                       (GetName resource) s)) = true) ->
  forall (n fuel : nat) (counter : Z) w,
    getWaiterTries kc - counter = Z.of_nat n ->
    (n < fuel)%nat ->
    exists w',
      ResourceShouldBe_loop fuel kc gvr resource state counter w
      = (Done (Some timed_out_state), w')
      /\ fetches (trace w') = (fetches (trace w) + n)%nat.
Proof.
  intros Hd Hkeep.
  induction n as [|n IH]; intros fuel counter w Hrem Hfuel;
    (destruct fuel as [|fuel]; [lia|]); cbn [ResourceShouldBe_loop].
  - destruct (counter >=? getWaiterTries kc) eqn:E.
    + exists w. split; [reflexivity | lia].
    + rewrite Z.geb_leb in E. apply Z.leb_gt in E. lia.
  - destruct (counter >=? getWaiterTries kc) eqn:E.
    { rewrite Z.geb_leb in E. apply Z.leb_le in E. lia. }
    unfold bind at 1. unfold Get. rewrite Hd.
    specialize (Hkeep (remote w)).
    destruct (dynGet d (MappingResource gvr) (GetNamespace resource)
                (GetName resource) (remote w)) as [r s1].
    cbn [fst] in Hkeep.
    set (w1 := mkWorld s1 (trace w ++ [Remote (CallGet (MappingResource gvr)
                 (GetNamespace resource) (GetName resource))])).
    assert (Hnext : exists w',
               ResourceShouldBe_loop fuel kc gvr resource state (counter + 1)
                 (emit (Sleep (getWaiterInterval kc)) w1)
               = (Done (Some timed_out_state), w')
               /\ fetches (trace w') = (fetches (trace w) + Datatypes.S n)%nat).
    { destruct (IH fuel (counter + 1) (emit (Sleep (getWaiterInterval kc)) w1))
        as [w' [Hrun Hcount]]; [lia | lia |].
      exists w'. split; [exact Hrun|].
      rewrite Hcount. unfold emit, w1. cbn [trace]. rewrite !fetches_snoc.
      cbn [is_get]. lia. }
    destruct r as [live|e]; cbn [keeps_waiting] in Hkeep.
    + apply negb_true_iff in Hkeep. rewrite Hkeep.
      destruct (String.eqb state stateDeleted); exact Hnext.
    + apply andb_true_iff in Hkeep. destruct Hkeep as [Hnf Hstate].
      apply negb_true_iff in Hstate. rewrite Hnf, Hstate. cbn [negb].
      destruct (String.eqb state stateCreated); exact Hnext.
Qed.

(** Before its loop, a poll validates the client set and resolves the file. *)
Lemma ResourceShouldBe_enters_loop kc file state ur :
  Validate kc = None ->
  GetResourceFromYaml (getResourcePath filepath_Join kc file)
    (DiscoveryInterface kc) (TemplateArguments kc) = Ok ur ->
  ResourceShouldBe GetResourceFromYaml filepath_Join kc file state
  = ResourceShouldBe_loop (budget kc) kc (GVR ur) (UResource ur) state 0.
Proof.
  intros Hv Hr. unfold ResourceShouldBe. rewrite Hv, Hr. reflexivity.
Qed.

(** C3: with [WaiterTries = N >= 1] and target ["deleted"], a resource that
    every fetch reports present makes the existence poll fetch exactly [N]
    times and return the timeout error; a resource that the first fetch
    reports not-found makes it return nil after that one fetch. *)
Theorem existence_poll_deleted kc d file (N : Z) ur w :
  1 <= N ->
  WaiterTries kc = N ->
  Validate kc = None ->
  DynamicInterface kc = Some d ->
  GetResourceFromYaml (getResourcePath filepath_Join kc file)
    (DiscoveryInterface kc) (TemplateArguments kc) = Ok ur ->
  let gvr := MappingResource (GVR ur) in
  let ns := GetNamespace (UResource ur) in
  let name := GetName (UResource ur) in
  ((forall s, exists live s', dynGet d gvr ns name s = (Ok live, s')) ->
     exists w',
       ResourceShouldBe GetResourceFromYaml filepath_Join kc file stateDeleted w
       = (Done (Some timed_out_state), w')
       /\ fetches (trace w') = (fetches (trace w) + Z.to_nat N)%nat)
  /\
  (forall err s',
      dynGet d gvr ns name (remote w) = (Err err, s') ->
      IsNotFound err = true ->
      ResourceShouldBe GetResourceFromYaml filepath_Join kc file stateDeleted w
      = (Done None, mkWorld s' (trace w ++ [Remote (CallGet gvr ns name)]))).
Proof.
  intros HN Htries Hv Hd Hr gvr ns name.
  rewrite (ResourceShouldBe_enters_loop _ _ _ _ Hv Hr).
  assert (Hget : getWaiterTries kc = N)
    by (rewrite getWaiterTries_set; lia).
  split.
  - intros Hpresent.
    apply ResourceShouldBe_loop_exhausts with (d := d).
    + exact Hd.
    + intros s. destruct (Hpresent s) as [live [s' Hs]].
      fold gvr ns name. rewrite Hs. reflexivity.
    + rewrite Hget. lia.
    + rewrite <- Hget. apply budget_suffices.
  - intros err s' Hfetch Hnf. unfold budget. cbn [ResourceShouldBe_loop].
    destruct (0 >=? getWaiterTries kc) eqn:E.
    { rewrite Z.geb_leb in E. apply Z.leb_le in E. lia. }
    unfold bind, Get. rewrite Hd. fold gvr ns name. rewrite Hfetch, Hnf.
    reflexivity.
Qed.

(** C10: with a state token other than ["created"] and ["deleted"], an
    existence poll whose fetches all succeed or report not-found never returns
    nil: it fetches once per attempt of its budget and returns the timeout
    error. *)
Theorem unknown_state_times_out kc d file state ur w :
  state <> stateCreated ->
  state <> stateDeleted ->
  Validate kc = None ->
  DynamicInterface kc = Some d ->
  GetResourceFromYaml (getResourcePath filepath_Join kc file)
    (DiscoveryInterface kc) (TemplateArguments kc) = Ok ur ->
  (forall s,
      match fst (dynGet d (MappingResource (GVR ur)) (GetNamespace (UResource ur))
                   (GetName (UResource ur)) s) with
      | Ok _ => True
      | Err err => IsNotFound err = true
      end) ->
  exists w',
    ResourceShouldBe GetResourceFromYaml filepath_Join kc file state w
    = (Done (Some timed_out_state), w')
    /\ fetches (trace w') = (fetches (trace w) + Z.to_nat (getWaiterTries kc))%nat.
Proof.
  intros Hc Hdel Hv Hd Hr Hfetch.
  rewrite (ResourceShouldBe_enters_loop _ _ _ _ Hv Hr).
  apply String.eqb_neq in Hc, Hdel.
  pose proof (getWaiterTries_positive kc) as Hpos.
  apply ResourceShouldBe_loop_exhausts with (d := d).
  - exact Hd.
  - intros s. specialize (Hfetch s).
    destruct (fst (dynGet d (MappingResource (GVR ur)) (GetNamespace (UResource ur))
                     (GetName (UResource ur)) s)) as [live|err];
      cbn [keeps_waiting].
    + rewrite Hc. reflexivity.
    + rewrite Hfetch, Hdel. reflexivity.
  - lia.
  - apply budget_suffices.
Qed.

(** A fetch error other than not-found ends the existence poll at the
    attempt where it occurs: the fetch is the last thing the loop does. *)
Lemma ResourceShouldBe_loop_fatal kc d gvr resource state fuel counter w err s' :
  DynamicInterface kc = Some d ->
  counter < getWaiterTries kc ->
  dynGet d (MappingResource gvr) (GetNamespace resource) (GetName resource) (remote w)
  = (Err err, s') ->
  IsNotFound err = false ->
  ResourceShouldBe_loop (Datatypes.S fuel) kc gvr resource state counter w
  = (Done (Some err),
     mkWorld s' (trace w ++ [Remote (CallGet (MappingResource gvr)
                               (GetNamespace resource) (GetName resource))])).
Proof.
  intros Hd Hc Hget Hnf. cbn [ResourceShouldBe_loop].
  destruct (counter >=? getWaiterTries kc) eqn:E.
  { rewrite Z.geb_leb in E. apply Z.leb_le in E. lia. }
  unfold bind, Get. rewrite Hd, Hget, Hnf. reflexivity.
Qed.

(** The field-convergence poll returns any fetch error at once. *)
Lemma ResourceShouldConvergeToSelector_loop_fatal
    kc d gvr resource keySlice value fuel counter w err s' :
  DynamicInterface kc = Some d ->
  counter < getWaiterTries kc ->
  dynGet d (MappingResource gvr) (GetNamespace resource) (GetName resource) (remote w)
  = (Err err, s') ->
  ResourceShouldConvergeToSelector_loop EqualFold (Datatypes.S fuel) kc gvr resource
    keySlice value counter w
  = (Done (Some err),
     mkWorld s' (trace w ++ [Remote (CallGet (MappingResource gvr)
                               (GetNamespace resource) (GetName resource))])).
Proof.
  intros Hd Hc Hget. cbn [ResourceShouldConvergeToSelector_loop].
  destruct (counter >=? getWaiterTries kc) eqn:E.
  { rewrite Z.geb_leb in E. apply Z.leb_le in E. lia. }
  unfold bind, Get. rewrite Hd, Hget. reflexivity.
Qed.

(** So does the condition-match poll. *)
Lemma ResourceConditionShouldBe_loop_fatal
    kc d gvr resource cType expectedStatus fuel counter w err s' :
  DynamicInterface kc = Some d ->
  counter < getWaiterTries kc ->
  dynGet d (MappingResource gvr) (GetNamespace resource) (GetName resource) (remote w)
  = (Err err, s') ->
  ResourceConditionShouldBe_loop (Datatypes.S fuel) kc gvr resource cType
    expectedStatus counter w
  = (Done (Some err),
     mkWorld s' (trace w ++ [Remote (CallGet (MappingResource gvr)
                               (GetNamespace resource) (GetName resource))])).
Proof.
  intros Hd Hc Hget. cbn [ResourceConditionShouldBe_loop].
  destruct (counter >=? getWaiterTries kc) eqn:E.
  { rewrite Z.geb_leb in E. apply Z.leb_le in E. lia. }
  unfold bind, Get. rewrite Hd, Hget. reflexivity.
Qed.

(** The wait phase of the bulk delete is the odd one: a fetch error that is
    not not-found is dropped, and the loop sleeps and goes on. *)
Lemma waitFn_loop_swallows kc d gvr resource fuel counter w err s' :
  DynamicInterface kc = Some d ->
  counter < getWaiterTries kc ->
  dynGet d (MappingResource gvr) (GetNamespace resource) (GetName resource) (remote w)
  = (Err err, s') ->
  IsNotFound err = false ->
  waitFn_loop (Datatypes.S fuel) kc gvr resource counter w
  = waitFn_loop fuel kc gvr resource (counter + 1)
      (emit (Sleep (getWaiterInterval kc))
         (mkWorld s' (trace w ++ [Remote (CallGet (MappingResource gvr)
                                   (GetNamespace resource) (GetName resource))]))).
Proof.
  intros Hd Hc Hget Hnf. cbn [waitFn_loop].
  destruct (counter >=? getWaiterTries kc) eqn:E.
  { rewrite Z.geb_leb in E. apply Z.leb_le in E. lia. }
  unfold bind, Get, time_Sleep. rewrite Hd, Hget, Hnf. reflexivity.
Qed.

(** *** Conditions *)

(** Entries that are not maps, that have no [type], or whose [type] is not a
    string are passed over by the scan. *)
Lemma scan_conditions_skips (c : value) (rest : list value) (cType expectedStatus : string) :
  match c with
  | VMap condition =>
      match lookup "type" condition with
      | Some (VString _) => False
      | _ => True
      end
  | _ => True
  end ->
  scan_conditions (c :: rest) cType expectedStatus
  = scan_conditions rest cType expectedStatus.
Proof.
  destruct c as [| | | | |condition]; try reflexivity.
  cbn [scan_conditions].
  destruct (lookup "type" condition) as [[| | | | |]|]; intros H;
    try reflexivity; contradiction.
Qed.

(** An entry of another type is passed over whatever its status is. *)
Lemma scan_conditions_other_type (condition : list (string * value)) (condType : string)
    (rest : list value) (cType expectedStatus : string) :
  lookup "type" condition = Some (VString condType) ->
  condType <> cType ->
  scan_conditions (VMap condition :: rest) cType expectedStatus
  = scan_conditions rest cType expectedStatus.
Proof.
  intros Ht Hne. apply String.eqb_neq in Hne.
  cbn [scan_conditions]. rewrite Ht, Hne. reflexivity.
Qed.

(** An entry of the requested type without a string status makes the
    unchecked type assertion panic. *)
Lemma scan_conditions_panics (condition : list (string * value))
    (rest : list value) (cType expectedStatus : string) :
  lookup "type" condition = Some (VString cType) ->
  match lookup "status" condition with
  | Some (VString _) => False
  | _ => True
  end ->
  scan_conditions (VMap condition :: rest) cType expectedStatus
  = Panic status_not_a_string.
Proof.
  intros Ht Hs. cbn [scan_conditions]. rewrite Ht, String.eqb_refl.
  destruct (lookup "status" condition) as [[| | | | |]|];
    try reflexivity; contradiction.
Qed.

(** *** Selectors *)

Lemma Split_length (s : string) (sep : ascii) :
  length (Strings.Split s sep) = Datatypes.S (Strings.Count s sep).
Proof.
  induction s as [|c rest IH]; cbn [Strings.Split Strings.Count]; [reflexivity|].
  destruct (Ascii.eqb c sep).
  - cbn [length]. rewrite IH. reflexivity.
  - destruct (Strings.Split rest sep) as [|piece pieces]; [discriminate IH|].
    cbn [length] in *. lia.
Qed.

Lemma DeleteEmpty_length (l : list string) :
  (length (Strings.DeleteEmpty l) <= length l)%nat.
Proof.
  induction l as [|str rest IH]; cbn [Strings.DeleteEmpty length]; [lia|].
  destruct (String.eqb str ""); cbn [length]; lia.
Qed.

Lemma DeleteEmpty_drops_empty_head (l : list string) :
  l <> [] -> hd "" l = "" ->
  (length (Strings.DeleteEmpty l) < length l)%nat.
Proof.
  destruct l as [|str rest]; [congruence|].
  cbn [hd Strings.DeleteEmpty length]. intros _ ->. cbn [String.eqb].
  pose proof (DeleteEmpty_length rest). lia.
Qed.

Lemma convergence_rejects_pieces kc file selector w :
  Validate kc = None ->
  length (Strings.DeleteEmpty (Strings.Split selector "="%char)) <> 2%nat ->
  ResourceShouldConvergeToSelector GetResourceFromYaml filepath_Join EqualFold kc
    file selector w
  = (Done (Some (selector_format_error selector)), w).
Proof.
  intros Hv Hlen. unfold ResourceShouldConvergeToSelector. rewrite Hv.
  destruct (Strings.DeleteEmpty (Strings.Split selector "="%char))
    as [|key [|value [|third more]]]; try reflexivity.
  cbn [length] in Hlen. congruence.
Qed.

Lemma Validate_has_dynamic_client kc :
  Validate kc = None -> exists d, DynamicInterface kc = Some d.
Proof.
  unfold Validate. destruct (DynamicInterface kc) as [d|]; [|discriminate].
  intros _. exists d. reflexivity.
Qed.

Lemma convergence_loop_extends_trace kc gvr resource keySlice value :
  forall fuel counter w,
  exists added,
    trace (snd (ResourceShouldConvergeToSelector_loop EqualFold fuel kc gvr resource
                  keySlice value counter w))
    = (trace w ++ added)%list.
Proof.
  induction fuel as [|fuel IH]; intros counter w;
    cbn [ResourceShouldConvergeToSelector_loop].
  - exists []. rewrite app_nil_r. reflexivity.
  - destruct (counter >=? getWaiterTries kc).
    { exists []. rewrite app_nil_r. reflexivity. }
    unfold bind at 1. unfold Get.
    destruct (DynamicInterface kc) as [d|].
    2:{ exists []. rewrite app_nil_r. reflexivity. }
    destruct (dynGet d (MappingResource gvr) (GetNamespace resource)
                (GetName resource) (remote w)) as [[cr|err] s1].
    2:{ eexists [_]. reflexivity. }
    set (fetch := Remote (CallGet (MappingResource gvr) (GetNamespace resource)
                            (GetName resource))).
    assert (Hagain : exists added,
               trace (snd ((_ <- time_Sleep (getWaiterInterval kc) ;;
                            ResourceShouldConvergeToSelector_loop EqualFold fuel kc
                              gvr resource keySlice value (counter + 1))
                             (mkWorld s1 (trace w ++ [fetch]))))
               = (trace w ++ added)%list).
    { unfold bind, time_Sleep.
      destruct (IH (counter + 1)
                  (emit (Sleep (getWaiterInterval kc))
                     (mkWorld s1 (trace w ++ [fetch])))) as [added Hadded].
      exists (fetch :: Sleep (getWaiterInterval kc) :: added).
      rewrite Hadded. unfold emit. cbn [trace]. rewrite <- !app_assoc. reflexivity. }
    destruct (nfound (NestedString (UnstructuredContent cr) keySlice));
      [|exact Hagain].
    destruct (nerr (NestedString (UnstructuredContent cr) keySlice)).
    { eexists [_]. reflexivity. }
    destruct (EqualFold _ value); [|exact Hagain].
    eexists [_]. reflexivity.
Qed.

(** C6, as the code has it: a selector whose [=]-separated pieces, empty
    pieces dropped, are not exactly two, or whose key has no non-empty
    [.]-separated segment, gets a format error from a validated client with
    the world left as it was, so before any fetch. That covers every selector
    without [=] and every selector with one [=] and an empty key. A selector
    whose non-empty pieces are exactly two and whose key has a non-empty
    segment is not refused, however many [=] it has: when its resource file
    resolves, the first thing the poll adds to the trace is the fetch of the
    resource. *)
Theorem malformed_selector_fails_before_fetch kc file selector w :
  Validate kc = None ->
  let pieces := Strings.DeleteEmpty (Strings.Split selector "="%char) in
  let poll :=
    ResourceShouldConvergeToSelector GetResourceFromYaml filepath_Join EqualFold kc
      file selector w in
  (length pieces <> 2%nat \/
   (exists key value,
       pieces = [key; value] /\ Strings.DeleteEmpty (Strings.Split key "."%char) = []) ->
   exists e, is_format_error selector e /\ poll = (Done (Some e), w))
  /\ (Strings.Count selector "="%char = 0%nat ->
      poll = (Done (Some (selector_format_error selector)), w))
  /\ (Strings.Count selector "="%char = 1%nat -> selector_key selector = "" ->
      poll = (Done (Some (selector_format_error selector)), w))
  /\ (forall key value ur,
         pieces = [key; value] ->
         Strings.DeleteEmpty (Strings.Split key "."%char) <> [] ->
         GetResourceFromYaml (getResourcePath filepath_Join kc file)
           (DiscoveryInterface kc) (TemplateArguments kc) = Ok ur ->
         exists rest,
           trace (snd poll) = (trace w ++ fetch_of ur :: rest)%list).
Proof.
  intros Hv pieces poll. subst poll. split; [|split; [|split]].
  - intros [Hlen | [key [value [Hp Hk]]]].
    + exists (selector_format_error selector). split; [left; reflexivity|].
      apply convergence_rejects_pieces; assumption.
    + exists (selector_key_error selector). split; [right; reflexivity|].
      unfold ResourceShouldConvergeToSelector. rewrite Hv.
      fold pieces. rewrite Hp, Hk. reflexivity.
  - intros Hcount. apply convergence_rejects_pieces; [assumption|].
    pose proof (DeleteEmpty_length (Strings.Split selector "="%char)) as Hle.
    rewrite Split_length, Hcount in Hle. lia.
  - intros Hcount Hkey. apply convergence_rejects_pieces; [assumption|].
    assert (Hne : Strings.Split selector "="%char <> []).
    { intros Habs. pose proof (Split_length selector "="%char) as Hl.
      rewrite Habs in Hl. discriminate Hl. }
    pose proof (DeleteEmpty_drops_empty_head _ Hne Hkey) as Hlt.
    rewrite Split_length, Hcount in Hlt. lia.
  - intros key value ur Hp Hk Hr.
    destruct (Validate_has_dynamic_client kc Hv) as [d Hd].
    pose proof (getWaiterTries_positive kc) as Hpos.
    unfold ResourceShouldConvergeToSelector. rewrite Hv. fold pieces. rewrite Hp.
    assert (Hlen : (length (Strings.DeleteEmpty (Strings.Split key "."%char)) <? 1)%nat
                   = false).
    { destruct (Strings.DeleteEmpty (Strings.Split key "."%char)); [congruence|].
      reflexivity. }
    rewrite Hlen, Hr. unfold budget. cbn [ResourceShouldConvergeToSelector_loop].
    destruct (0 >=? getWaiterTries kc) eqn:E.
    { rewrite Z.geb_leb in E. apply Z.leb_le in E. lia. }
    unfold bind at 1. unfold Get. rewrite Hd. unfold fetch_of.
    destruct (dynGet d (MappingResource (GVR ur)) (GetNamespace (UResource ur))
                (GetName (UResource ur)) (remote w)) as [[cr|err] s1].
    2:{ exists []. reflexivity. }
    set (fetch := Remote (CallGet (MappingResource (GVR ur))
                            (GetNamespace (UResource ur)) (GetName (UResource ur)))).
    set (keySlice := Strings.DeleteEmpty (Strings.Split key "."%char)).
    assert (Hagain : exists rest,
               trace (snd ((_ <- time_Sleep (getWaiterInterval kc) ;;
                            ResourceShouldConvergeToSelector_loop EqualFold
                              (Z.to_nat (getWaiterTries kc)) kc (GVR ur)
                              (UResource ur) keySlice value (0 + 1))
                             (mkWorld s1 (trace w ++ [fetch]))))
               = (trace w ++ fetch :: rest)%list).
    { unfold bind, time_Sleep.
      destruct (convergence_loop_extends_trace kc (GVR ur) (UResource ur) keySlice
                  value (Z.to_nat (getWaiterTries kc)) (0 + 1)
                  (emit (Sleep (getWaiterInterval kc))
                     (mkWorld s1 (trace w ++ [fetch])))) as [added Hadded].
      exists (Sleep (getWaiterInterval kc) :: added).
      rewrite Hadded. unfold emit. cbn [trace]. rewrite <- !app_assoc. reflexivity. }
    destruct (nfound (NestedString (UnstructuredContent cr) keySlice));
      [|exact Hagain].
    destruct (nerr (NestedString (UnstructuredContent cr) keySlice)).
    { exists []. reflexivity. }
    destruct (EqualFold _ value); [|exact Hagain].
    exists []. reflexivity.
Qed.

End Polls.

(** ** The loops run to their own exit

    With the budget the polls hand to their loops, the recursion of the model
    never runs dry: every poll ends the way the Go loop ends, by a return or
    by a panic. *)

Section Termination.

Context {S KubeClient DiscoveryClient TemplateArgs : Type}.
Implicit Type kc : ClientSet S KubeClient DiscoveryClient TemplateArgs.
Implicit Type w : World S.

Ltac attempt IH :=
  match goal with
  | |- context [?c >=? ?t] =>
      let E := fresh "E" in
      destruct (c >=? t) eqn:E;
      [ discriminate
      | rewrite Z.geb_leb in E; apply Z.leb_gt in E ]
  end;
  unfold bind at 1; unfold Get;
  match goal with
  | |- context [DynamicInterface ?kc] =>
      destruct (DynamicInterface kc) as [d|]; [|discriminate]
  end;
  match goal with
  | |- context [dynGet ?d ?g ?n ?m ?s] => destruct (dynGet d g n m s) as [[live|err] s1]
  end.

Ltac again IH := unfold bind, time_Sleep; apply IH; [lia | lia].

Lemma ResourceShouldBe_loop_returns kc gvr resource state :
  forall (n fuel : nat) (counter : Z) w,
    getWaiterTries kc - counter <= Z.of_nat n ->
    (n < fuel)%nat ->
    fst (ResourceShouldBe_loop fuel kc gvr resource state counter w) <> OutOfFuel.
Proof.
  induction n as [|n IH]; intros fuel counter w Hrem Hfuel;
    (destruct fuel as [|fuel]; [lia|]); cbn [ResourceShouldBe_loop];
    attempt IH; try lia.
  - destruct (if String.eqb state stateDeleted then negb true
              else if String.eqb state stateCreated then true else false);
      [discriminate | again IH].
  - destruct (negb (IsNotFound err)); [discriminate|].
    destruct (if String.eqb state stateDeleted then negb false
              else if String.eqb state stateCreated then false else false);
      [discriminate | again IH].
Qed.

Lemma ResourceShouldConvergeToSelector_loop_returns
    (EqualFold : string -> string -> bool) kc gvr resource keySlice value :
  forall (n fuel : nat) (counter : Z) w,
    getWaiterTries kc - counter <= Z.of_nat n ->
    (n < fuel)%nat ->
    fst (ResourceShouldConvergeToSelector_loop EqualFold fuel kc gvr resource keySlice
           value counter w) <> OutOfFuel.
Proof.
  induction n as [|n IH]; intros fuel counter w Hrem Hfuel;
    (destruct fuel as [|fuel]; [lia|]);
    cbn [ResourceShouldConvergeToSelector_loop]; attempt IH; try lia;
    try discriminate.
  destruct (nfound (NestedString (UnstructuredContent live) keySlice));
    [|again IH].
  destruct (nerr (NestedString (UnstructuredContent live) keySlice));
    [discriminate|].
  destruct (EqualFold _ value); [discriminate | again IH].
Qed.

Lemma ResourceConditionShouldBe_loop_returns kc gvr resource cType expectedStatus :
  forall (n fuel : nat) (counter : Z) w,
    getWaiterTries kc - counter <= Z.of_nat n ->
    (n < fuel)%nat ->
    fst (ResourceConditionShouldBe_loop fuel kc gvr resource cType expectedStatus
           counter w) <> OutOfFuel.
Proof.
  assert (Hscan : forall conditions,
             scan_conditions conditions cType expectedStatus <> OutOfFuel).
  { induction conditions as [|c rest IHc]; cbn [scan_conditions]; [discriminate|].
    destruct c as [| | | | |condition]; try exact IHc.
    destruct (lookup "type" condition) as [[| | |condType| |]|]; try exact IHc.
    destruct (String.eqb condType cType); [|exact IHc].
    destruct (lookup "status" condition) as [[| | |status| |]|]; try discriminate.
    destruct (String.eqb status expectedStatus); [discriminate | exact IHc]. }
  induction n as [|n IH]; intros fuel counter w Hrem Hfuel;
    (destruct fuel as [|fuel]; [lia|]);
    cbn [ResourceConditionShouldBe_loop]; attempt IH; try lia;
    try discriminate.
  destruct (nfound (NestedSlice (UnstructuredContent live) ["status"; "conditions"]));
    [|again IH].
  destruct (nerr (NestedSlice (UnstructuredContent live) ["status"; "conditions"]));
    [discriminate|].
  specialize (Hscan (nval (NestedSlice (UnstructuredContent live)
                             ["status"; "conditions"]))).
  destruct (scan_conditions _ cType expectedStatus) as [[|]| |];
    [discriminate | again IH | discriminate | contradiction].
Qed.

Lemma waitFn_loop_returns kc gvr resource :
  forall (n fuel : nat) (counter : Z) w,
    getWaiterTries kc - counter <= Z.of_nat n ->
    (n < fuel)%nat ->
    fst (waitFn_loop fuel kc gvr resource counter w) <> OutOfFuel.
Proof.
  induction n as [|n IH]; intros fuel counter w Hrem Hfuel;
    (destruct fuel as [|fuel]; [lia|]); cbn [waitFn_loop];
    attempt IH; try lia.
  - again IH.
  - destruct (IsNotFound err); [discriminate | again IH].
Qed.

End Termination.

(** ** The test bed, run *)

(** C4: the existence, field-convergence and condition-match polls return a
    fetch error that is not not-found at the attempt where it occurs, the
    wait phase of the bulk delete does not. With a remote system that accepts
    the delete and answers every fetch with "forbidden", and two attempts,
    [DeleteResourcesAtPath] fetches twice, sleeps after each fetch and returns
    the timeout error, where the existence poll on the same resource returns
    the "forbidden" error after one fetch. *)
Theorem wait_phase_retries_after_fetch_error :
  let kc := Example.clientSet Tracker.unreadableClient 2 in
  let gvr := MappingResource Example.configMaps in
  IsNotFound Tracker.forbidden = false
  /\ DeleteResourcesAtPath Example.fromYaml Example.visits Example.discover kc
       "templates" Example.running
     = (Done (Some timed_out_deletion),
        mkWorld [] [Remote (CallDelete gvr "default" "demo");
                    Remote (CallGet gvr "default" "demo"); Sleep 1;
                    Remote (CallGet gvr "default" "demo"); Sleep 1])
  /\ ResourceShouldBe Example.fromYaml Example.join kc "demo.yaml" stateDeleted
       Example.running
     = (Done (Some Tracker.forbidden),
        mkWorld (remote Example.running) [Remote (CallGet gvr "default" "demo")]).
Proof.
  intros kc gvr. split; [|split]; vm_compute; reflexivity.
Qed.

(** C5: entries that are not maps, have no type or have a type that is not a
    string are skipped, but an entry of the requested type without a string
    status is not: it stops the condition-match poll with a panic. The live
    demo object carries one entry of each kind; asked for another type the
    scan runs over all four, asked for ["Ready"] the poll panics on its first
    fetch. *)
Theorem condition_without_status_panics :
  let kc := Example.clientSet Tracker.simpleDynamicClient 2 in
  let gvr := MappingResource Example.configMaps in
  let conditions :=
    nval (NestedSlice (UnstructuredContent Example.demoLive) ["status"; "conditions"]) in
  conditions = [VString "noise"; VMap [("reason", VString "Started")];
                VMap [("type", VInt 1)]; VMap [("type", VString "Ready")]]
  /\ scan_conditions conditions "Available" "True" = Done false
  /\ scan_conditions conditions "Ready" "True" = Panic status_not_a_string
  /\ ResourceConditionShouldBe Example.fromYaml Example.join Example.title kc
       "demo.yaml" "Ready" "true" Example.running
     = (Panic status_not_a_string,
        mkWorld (remote Example.running) [Remote (CallGet gvr "default" "demo")]).
Proof.
  intros kc gvr conditions. split; [|split; [|split]]; vm_compute; reflexivity.
Qed.

Lemma selector_with_two_equals_run :
  ResourceShouldConvergeToSelector Example.fromYaml Example.join Example.equalFold
    (Example.clientSet Tracker.simpleDynamicClient 2) "demo.yaml" "spec.replicas==3"
    Example.running
  = (Done None,
     mkWorld (remote Example.running)
       [Remote (CallGet (MappingResource Example.configMaps) "default" "demo")]).
Proof. vm_compute. reflexivity. Qed.

(** C6 as the spec words it does not hold: ["spec.replicas==3"] has two [=],
    yet the poll goes on to fetch the resource, and succeeds. *)
Lemma selector_with_two_equals_is_polled :
  ~ (forall selector : string,
        malformed_selector selector ->
        forall w : World Tracker.objects,
        exists e,
          is_format_error selector e
          /\ ResourceShouldConvergeToSelector Example.fromYaml Example.join
               Example.equalFold (Example.clientSet Tracker.simpleDynamicClient 2)
               "demo.yaml" selector w
             = (Done (Some e), w)).
Proof.
  intros H.
  assert (Hm : malformed_selector "spec.replicas==3").
  { left. vm_compute. discriminate. }
  destruct (H _ Hm Example.running) as [e [_ Hrun]].
  rewrite selector_with_two_equals_run in Hrun. discriminate Hrun.
Qed.

(** ** The theorems at work on the test bed *)

Lemma unsupported_operation_witness :
  ("patch" <> operationCreate /\ "patch" <> operationSubmit
   /\ "patch" <> operationUpdate /\ "patch" <> operationDelete)
  /\ unstructuredResourceOperation (Example.clientSet Tracker.simpleDynamicClient 2)
       "patch" "" Example.resolved Example.running
     = (Done (Some (unsupported "patch")), Example.running).
Proof.
  split.
  - repeat split; discriminate.
  - apply unsupported_operation_makes_no_call; discriminate.
Defined.

Lemma update_witness :
  let kc := Example.clientSet Tracker.simpleDynamicClient 2 in
  let gvr := MappingResource Example.configMaps in
  let stamped := SetResourceVersion "7" Example.demo in
  unstructuredResourceOperation kc operationUpdate "" Example.resolved Example.empty
  = (Done (Some (Tracker.not_found "demo")),
     mkWorld [] [Remote (CallGet gvr "default" "demo")])
  /\ GetResourceVersion stamped = "7"
  /\ unstructuredResourceOperation kc operationUpdate "" Example.resolved Example.running
     = (Done None,
        mkWorld [(("configmaps", "default", "demo"), stamped)]
          [Remote (CallGet gvr "default" "demo");
           Remote (CallUpdate gvr "default" stamped)]).
Proof.
  intros kc gvr stamped.
  pose proof (update_fetches_then_stamps kc Tracker.simpleDynamicClient ""
                Example.resolved Example.empty eq_refl) as [Hfail _].
  pose proof (update_fetches_then_stamps kc Tracker.simpleDynamicClient ""
                Example.resolved Example.running eq_refl) as [_ Hlive].
  split; [exact (Hfail _ _ eq_refl)|].
  destruct (Hlive Example.demoLive _ eq_refl) as [Hstamp Hsubmit].
  split; [exact (Hstamp eq_refl)|].
  exact (Hsubmit _ _ eq_refl).
Defined.

Lemma dispatch_namespace_witness :
  let kc := Example.clientSet Tracker.simpleDynamicClient 2 in
  supported operationDelete
  /\ (exists c calls,
         trace (snd (unstructuredResourceOperation kc operationDelete "test-ns"
                       Example.resolved Example.running))
         = (trace Example.running ++ Remote c :: calls)%list
         /\ call_namespace c = "test-ns")
  /\ (exists c calls,
         trace (snd (unstructuredResourceOperation kc operationDelete ""
                       Example.resolved Example.running))
         = (trace Example.running ++ Remote c :: calls)%list
         /\ call_namespace c = "default").
Proof.
  intros kc.
  assert (Hop : supported operationDelete) by (do 3 right; reflexivity).
  split; [exact Hop|]. split.
  - exact (proj2 (dispatch_namespace kc operationDelete "test-ns" Example.resolved
                    Example.running) Tracker.simpleDynamicClient eq_refl Hop).
  - exact (proj2 (dispatch_namespace kc operationDelete "" Example.resolved
                    Example.running) Tracker.simpleDynamicClient eq_refl Hop).
Defined.

Lemma create_already_exists_witness :
  let kc := Example.clientSet Tracker.simpleDynamicClient 2 in
  let created :=
    snd (unstructuredResourceOperation kc operationCreate "" Example.resolved
           Example.empty) in
  IsAlreadyExists (Tracker.already_exists "demo") = true
  /\ fst (unstructuredResourceOperation kc operationSubmit "" Example.resolved
            Example.running) = Done None
  /\ fst (unstructuredResourceOperation kc operationCreate "" Example.resolved
            Example.empty) = Done None
  /\ fst (unstructuredResourceOperation kc operationCreate "" Example.resolved created)
     = Done None.
Proof.
  intros kc created.
  split; [reflexivity|]. split; [|split; [reflexivity|]].
  - exact (proj1 create_already_exists_is_success _ _ _ _ kc
             Tracker.simpleDynamicClient operationSubmit "" Example.resolved
             Example.running (Tracker.already_exists "demo") (remote Example.running)
             eq_refl (or_intror eq_refl) eq_refl eq_refl).
  - exact (proj2 create_already_exists_is_success _ _ _ kc operationCreate ""
             Example.resolved Example.empty created eq_refl (or_introl eq_refl)
             eq_refl).
Defined.

Lemma existence_poll_deleted_witness :
  let steady := Example.clientSet (Tracker.steadyClient Example.demoLive) 3 in
  let plain := Example.clientSet Tracker.simpleDynamicClient 3 in
  let gvr := MappingResource Example.configMaps in
  1 <= 3
  /\ (exists w',
         ResourceShouldBe Example.fromYaml Example.join steady "demo.yaml" stateDeleted
           Example.running
         = (Done (Some timed_out_state), w')
         /\ fetches (trace w') = (fetches (trace Example.running) + Z.to_nat 3)%nat)
  /\ ResourceShouldBe Example.fromYaml Example.join plain "demo.yaml" stateDeleted
       Example.empty
     = (Done None, mkWorld [] [Remote (CallGet gvr "default" "demo")]).
Proof.
  intros steady plain gvr.
  assert (Hn : 1 <= 3) by lia.
  split; [exact Hn|]. split.
  - refine (proj1 (existence_poll_deleted Example.fromYaml Example.join steady
                     (Tracker.steadyClient Example.demoLive) "demo.yaml" 3
                     Example.resolved Example.running Hn eq_refl eq_refl eq_refl
                     eq_refl) _).
    intros s. exists Example.demoLive, s. reflexivity.
  - exact (proj2 (existence_poll_deleted Example.fromYaml Example.join plain
                    Tracker.simpleDynamicClient "demo.yaml" 3 Example.resolved
                    Example.empty Hn eq_refl eq_refl eq_refl eq_refl)
             (Tracker.not_found "demo") [] eq_refl eq_refl).
Defined.

Lemma unknown_state_witness :
  let kc := Example.clientSet Tracker.simpleDynamicClient 3 in
  (stateReady <> stateCreated /\ stateReady <> stateDeleted)
  /\ exists w',
       ResourceShouldBe Example.fromYaml Example.join kc "demo.yaml" stateReady
         Example.running
       = (Done (Some timed_out_state), w')
       /\ fetches (trace w')
          = (fetches (trace Example.running) + Z.to_nat (getWaiterTries kc))%nat.
Proof.
  intros kc.
  assert (Hc : stateReady <> stateCreated) by discriminate.
  assert (Hd : stateReady <> stateDeleted) by discriminate.
  split; [split; assumption|].
  refine (unknown_state_times_out Example.fromYaml Example.join kc
            Tracker.simpleDynamicClient "demo.yaml" stateReady Example.resolved
            Example.running Hc Hd eq_refl eq_refl eq_refl _).
  intros s. cbn [dynGet Tracker.simpleDynamicClient]. unfold Tracker.get.
  destruct (Tracker.find _ s); [exact I | reflexivity].
Defined.

Lemma malformed_selector_witness :
  let kc := Example.clientSet Tracker.simpleDynamicClient 3 in
  let poll selector :=
    ResourceShouldConvergeToSelector Example.fromYaml Example.join Example.equalFold
      kc "demo.yaml" selector Example.running in
  (exists e, is_format_error "...=3" e /\ poll "...=3" = (Done (Some e), Example.running))
  /\ poll "badselector"
     = (Done (Some (selector_format_error "badselector")), Example.running)
  /\ poll "=3" = (Done (Some (selector_format_error "=3")), Example.running)
  /\ (exists rest,
         trace (snd (poll "spec.replicas==3"))
         = (trace Example.running ++ fetch_of Example.resolved :: rest)%list).
Proof.
  intros kc poll. split; [|split; [|split]].
  - refine (proj1 (malformed_selector_fails_before_fetch Example.fromYaml
                     Example.join Example.equalFold kc "demo.yaml" "...=3"
                     Example.running eq_refl) _).
    right. exists "...", "3". split; reflexivity.
  - exact (proj1 (proj2 (malformed_selector_fails_before_fetch Example.fromYaml
                     Example.join Example.equalFold kc "demo.yaml" "badselector"
                     Example.running eq_refl)) eq_refl).
  - exact (proj1 (proj2 (proj2 (malformed_selector_fails_before_fetch
                     Example.fromYaml Example.join Example.equalFold kc "demo.yaml"
                     "=3" Example.running eq_refl))) eq_refl eq_refl).
  - refine (proj2 (proj2 (proj2 (malformed_selector_fails_before_fetch
                     Example.fromYaml Example.join Example.equalFold kc "demo.yaml"
                     "spec.replicas==3" Example.running eq_refl)))
              "spec.replicas" "3" Example.resolved eq_refl _ eq_refl).
    discriminate.
Defined.

(** * Further properties of the package *)

(** ** Several resources, expected results, and what happens before any call *)

Section Operations.

Context {S KubeClient DiscoveryClient TemplateArgs : Type}.
Variable GetResourceFromYaml :
  string -> option DiscoveryClient -> TemplateArgs -> result K8sUnstructuredResource.
Variable GetMultipleResourcesFromYaml :
  string -> option DiscoveryClient -> TemplateArgs
  -> result (list K8sUnstructuredResource).
Variable filepath_Join : string -> string -> string.
Variable Title : string -> string.
Variable EqualFold : string -> string -> bool.
Implicit Type kc : ClientSet S KubeClient DiscoveryClient TemplateArgs.
Implicit Type d : DynamicClient S.
Implicit Type w : World S.

Lemma dispatch_each_app kc operation ns before after w :
  dispatch_each kc operation ns (before ++ after)%list w
  = match dispatch_each kc operation ns before w with
    | (Done None, w1) => dispatch_each kc operation ns after w1
    | stopped => stopped
    end.
Proof.
  revert w. induction before as [|ur before IH]; intros w; [reflexivity|].
  cbn [app dispatch_each]. unfold bind.
  destruct (unstructuredResourceOperation kc operation ns ur w) as [[[err|]| |] w1];
    try reflexivity.
  apply IH.
Qed.

(** X1: the multi-resource operation stops at the first resource whose dispatch
    fails: it returns that error, and the world is the one that dispatch left,
    so the resources after it are not touched. *)
Theorem multi_stops_at_first_error kc operation file ns before failing after
    w w1 w2 err :
  Validate kc = None ->
  GetMultipleResourcesFromYaml (getResourcePath filepath_Join kc file)
    (DiscoveryInterface kc) (TemplateArguments kc)
  = Ok (before ++ failing :: after)%list ->
  dispatch_each kc operation ns before w = (Done None, w1) ->
  unstructuredResourceOperation kc operation ns failing w1 = (Done (Some err), w2) ->
  MultiResourceOperationInNamespace filepath_Join GetMultipleResourcesFromYaml kc
    operation file ns w
  = (Done (Some err), w2).
Proof.
  intros Hv Hparse Hbefore Hfail.
  unfold MultiResourceOperationInNamespace, parseMultipleResources.
  rewrite Hv, Hparse, dispatch_each_app, Hbefore.
  cbn [dispatch_each]. unfold bind. rewrite Hfail. reflexivity.
Qed.

(** X2: against a remote system that accepts every create, or answers "already
    exists", creating the resources of a file returns nil after exactly one
    create call per resource, in document order, each in the override
    namespace or, without override, in the namespace of its document. *)
Theorem multi_create_calls_in_order kc d file ns resources w :
  Validate kc = None ->
  DynamicInterface kc = Some d ->
  GetMultipleResourcesFromYaml (getResourcePath filepath_Join kc file)
    (DiscoveryInterface kc) (TemplateArguments kc) = Ok resources ->
  (forall gvr target obj s, create_accepted (fst (dynCreate d gvr target obj s))) ->
  exists w',
    MultiResourceOperationInNamespace filepath_Join GetMultipleResourcesFromYaml kc
      operationCreate file ns w
    = (Done None, w')
    /\ trace w' = (trace w ++ map (create_call ns) resources)%list.
Proof.
  intros Hv Hd Hparse Haccept.
  unfold MultiResourceOperationInNamespace, parseMultipleResources.
  rewrite Hv, Hparse. clear Hparse. revert w.
  induction resources as [|ur rest IH]; intros w.
  - exists w. split; [reflexivity|]. cbn [map]. rewrite app_nil_r. reflexivity.
  - cbn [dispatch_each]. unfold bind at 1.
    unfold unstructuredResourceOperation.
    cbn [String.eqb operationCreate operationSubmit Ascii.eqb Bool.eqb orb].
    unfold bind at 1. unfold Create. rewrite Hd.
    specialize (Haccept (MappingResource (GVR ur))
                  (if String.eqb ns "" then GetNamespace (UResource ur) else ns)
                  (UResource ur) (remote w)).
    destruct (dynCreate d (MappingResource (GVR ur))
                (if String.eqb ns "" then GetNamespace (UResource ur) else ns)
                (UResource ur) (remote w)) as [r s1].
    cbn [fst create_accepted] in Haccept.
    match goal with
    | |- context [mkWorld s1 ?t] => destruct (IH (mkWorld s1 t)) as [w' [Hrun Htrace]]
    end.
    exists w'. split.
    + destruct r as [o|e]; [exact Hrun|]. rewrite Haccept. exact Hrun.
    + rewrite Htrace. cbn [trace map]. rewrite <- app_assoc. reflexivity.
Qed.

(** X3: the operation with an expected result does to the world what the plain
    operation does, and returns nil exactly when the outcome is the expected
    one: an error when the expected result is "fail" (whatever its case),
    success otherwise. *)
Theorem with_result_checks_the_outcome kc operation file namespace expectedResult
    w w' err :
  ResourceOperationInNamespace GetResourceFromYaml filepath_Join kc operation file
    namespace w = (Done err, w') ->
  exists verdict,
    ResourceOperationWithResultInNamespace GetResourceFromYaml filepath_Join
      EqualFold kc operation file namespace expectedResult w
    = (Done verdict, w')
    /\ (verdict = None <-> EqualFold expectedResult "fail" = is_error err).
Proof.
  intros Hrun. unfold ResourceOperationWithResultInNamespace, bind.
  rewrite Hrun.
  destruct err as [e|]; destruct (EqualFold expectedResult "fail");
    cbn [negb is_error]; eexists; (split; [reflexivity|]);
    split; intros H; try reflexivity; discriminate H.
Qed.

(** X4: with any of its three handles nil, the client set is refused before
    anything else happens: every entry point that validates returns the
    validation error and leaves the world as it was. *)
Theorem nil_handle_fails_fast kc operation file ns state selector cType status
    key value w :
  KubeInterface kc = None \/ DynamicInterface kc = None
  \/ DiscoveryInterface kc = None ->
  exists err,
    Validate kc = Some err
    /\ ResourceOperationInNamespace GetResourceFromYaml filepath_Join kc operation
         file ns w = (Done (Some err), w)
    /\ MultiResourceOperation filepath_Join GetMultipleResourcesFromYaml kc operation
         file w = (Done (Some err), w)
    /\ MultiResourceOperationInNamespace filepath_Join GetMultipleResourcesFromYaml kc
         operation file ns w = (Done (Some err), w)
    /\ ResourceShouldBe GetResourceFromYaml filepath_Join kc file state w
       = (Done (Some err), w)
    /\ ResourceShouldConvergeToSelector GetResourceFromYaml filepath_Join EqualFold kc
         file selector w = (Done (Some err), w)
    /\ ResourceConditionShouldBe GetResourceFromYaml filepath_Join Title kc file cType
         status w = (Done (Some err), w)
    /\ UpdateResourceWithField GetResourceFromYaml filepath_Join kc file key value w
       = (Done (Some err), w).
Proof.
  intros Hnil.
  assert (Hv : exists err, Validate kc = Some err).
  { unfold Validate.
    destruct (DynamicInterface kc); [|eexists; reflexivity].
    destruct (DiscoveryInterface kc); [|eexists; reflexivity].
    destruct (KubeInterface kc); [|eexists; reflexivity].
    destruct Hnil as [H | [H | H]]; discriminate H. }
  destruct Hv as [err Hv]. exists err. split; [exact Hv|].
  unfold ResourceOperationInNamespace, parseSingleResource, MultiResourceOperation,
    MultiResourceOperationInNamespace, parseMultipleResources, ResourceShouldBe,
    ResourceShouldConvergeToSelector, ResourceConditionShouldBe,
    UpdateResourceWithField.
  rewrite Hv. repeat split; reflexivity.
Qed.

(** X5: a resource file that cannot be resolved stops a validated client set
    before any request through the dynamic client: the single-resource
    operation, the existence and condition polls and the field update return
    the resolution error with the state behind the dynamic client and the
    trace as they were, and so does the field-convergence poll unless the
    selector is refused first. *)
Theorem unresolved_file_makes_no_call kc operation file ns state selector cType
    status key value w err :
  Validate kc = None ->
  GetResourceFromYaml (getResourcePath filepath_Join kc file)
    (DiscoveryInterface kc) (TemplateArguments kc) = Err err ->
  ResourceOperationInNamespace GetResourceFromYaml filepath_Join kc operation file
    ns w = (Done (Some err), w)
  /\ ResourceShouldBe GetResourceFromYaml filepath_Join kc file state w
     = (Done (Some err), w)
  /\ ResourceConditionShouldBe GetResourceFromYaml filepath_Join Title kc file cType
       status w = (Done (Some err), w)
  /\ UpdateResourceWithField GetResourceFromYaml filepath_Join kc file key value w
     = (Done (Some err), w)
  /\ exists refused,
       ResourceShouldConvergeToSelector GetResourceFromYaml filepath_Join EqualFold
         kc file selector w = (Done (Some refused), w)
       /\ (refused = err \/ is_format_error selector refused).
Proof.
  intros Hv Hr.
  unfold ResourceOperationInNamespace, parseSingleResource, ResourceShouldBe,
    ResourceShouldConvergeToSelector, ResourceConditionShouldBe,
    UpdateResourceWithField.
  rewrite Hv, Hr. repeat split; try reflexivity.
  destruct (Strings.DeleteEmpty (Strings.Split selector "="%char))
    as [|k [|v [|third more]]];
    try (eexists; split; [reflexivity | right; left; reflexivity]).
  destruct (length (Strings.DeleteEmpty (Strings.Split k "."%char)) <? 1)%nat.
  - eexists; split; [reflexivity | right; right; reflexivity].
  - eexists; split; [reflexivity | left; reflexivity].
Qed.

End Operations.

(** ** The shape of a poll *)

Section Shape.

Context {S KubeClient DiscoveryClient TemplateArgs : Type}.
Implicit Type kc : ClientSet S KubeClient DiscoveryClient TemplateArgs.
Implicit Type w : World S.

Lemma quiet_nothing kc ur attempts (t : list event) : quiet kc ur attempts t t.
Proof.
  exists []. rewrite app_nil_r. repeat split; [constructor | cbn; lia | cbn; lia].
Qed.

Lemma turns_are_quiet kc ur loop :
  turn kc ur loop ->
  forall fuel counter w,
    quiet kc ur (getWaiterTries kc - counter) (trace w)
      (trace (snd (loop fuel counter w))).
Proof.
  intros Hturn. induction fuel as [|fuel IH]; intros counter w.
  - destruct (Hturn O counter w) as [[res ->] | [Hc [s1 [[res ->] | [fuel' [Hf _]]]]]].
    + apply quiet_nothing.
    + exists [fetch_of ur]. cbn [snd trace]. repeat split.
      * repeat constructor.
      * unfold fetches. cbn. lia.
      * cbn. lia.
    + discriminate Hf.
  - destruct (Hturn (Datatypes.S fuel) counter w)
      as [[res ->] | [Hc [s1 [[res ->] | [fuel' [Hf ->]]]]]].
    + apply quiet_nothing.
    + exists [fetch_of ur]. cbn [snd trace]. repeat split.
      * repeat constructor.
      * unfold fetches. cbn. lia.
      * cbn. lia.
    + injection Hf as <-.
      destruct (IH (counter + 1)
                  (emit (Sleep (getWaiterInterval kc))
                     (mkWorld s1 (trace w ++ [fetch_of ur]))))
        as [added [Htrace [Hall [Hfetch Hsleep]]]].
      exists (fetch_of ur :: Sleep (getWaiterInterval kc) :: added).
      rewrite Htrace. unfold emit. cbn [trace]. repeat split.
      * rewrite <- !app_assoc. reflexivity.
      * constructor; [left; reflexivity|]. constructor; [right; reflexivity|].
        exact Hall.
      * unfold fetches in *. cbn [filter fetch_of is_get length]. lia.
      * unfold sleeps, fetches in *. cbn [filter fetch_of is_get is_sleep length].
        lia.
Qed.

Ltac one_turn :=
  unfold turn; intros fuel counter w; destruct fuel as [|fuel];
  [ left; eexists; reflexivity | ];
  cbn [ResourceShouldBe_loop ResourceShouldConvergeToSelector_loop
       ResourceConditionShouldBe_loop waitFn_loop];
  match goal with
  | |- context [?c >=? ?t] =>
      let E := fresh "E" in
      destruct (c >=? t) eqn:E;
      [ left; eexists; reflexivity
      | rewrite Z.geb_leb in E; apply Z.leb_gt in E ]
  end;
  unfold bind, Get;
  match goal with
  | |- context [DynamicInterface ?kc] =>
      destruct (DynamicInterface kc) as [d|]; [|left; eexists; reflexivity]
  end;
  match goal with
  | |- context [dynGet ?d ?g ?n ?m ?s] =>
      destruct (dynGet d g n m s) as [[live|err] s1]
  end;
  right; (split; [lia|]); eexists; cbv zeta.

Ltac ends_here := left; eexists; reflexivity.
Ltac goes_on := right; eexists; split; reflexivity.

Lemma ResourceShouldBe_turn kc ur state :
  turn kc ur (fun fuel counter =>
                ResourceShouldBe_loop fuel kc (GVR ur) (UResource ur) state counter).
Proof.
  one_turn.
  - destruct (if String.eqb state stateDeleted then negb true
              else if String.eqb state stateCreated then true else false);
      [ends_here | goes_on].
  - destruct (negb (IsNotFound err)); [ends_here|].
    destruct (if String.eqb state stateDeleted then negb false
              else if String.eqb state stateCreated then false else false);
      [ends_here | goes_on].
Qed.

Lemma ResourceShouldConvergeToSelector_turn
    (EqualFold : string -> string -> bool) kc ur keySlice value :
  turn kc ur (fun fuel counter =>
                ResourceShouldConvergeToSelector_loop EqualFold fuel kc (GVR ur)
                  (UResource ur) keySlice value counter).
Proof.
  one_turn; [|ends_here].
  destruct (nfound (NestedString (UnstructuredContent live) keySlice)); [|goes_on].
  destruct (nerr (NestedString (UnstructuredContent live) keySlice)); [ends_here|].
  destruct (EqualFold _ value); [ends_here | goes_on].
Qed.

Lemma ResourceConditionShouldBe_turn kc ur cType expectedStatus :
  turn kc ur (fun fuel counter =>
                ResourceConditionShouldBe_loop fuel kc (GVR ur) (UResource ur) cType
                  expectedStatus counter).
Proof.
  one_turn; [|ends_here].
  destruct (nfound (NestedSlice (UnstructuredContent live) ["status"; "conditions"]));
    [|goes_on].
  destruct (nerr (NestedSlice (UnstructuredContent live) ["status"; "conditions"]));
    [ends_here|].
  destruct (scan_conditions _ cType expectedStatus) as [[|]| |];
    [ends_here | goes_on | ends_here | ends_here].
Qed.

Lemma waitFn_turn kc ur :
  turn kc ur (fun fuel counter =>
                waitFn_loop fuel kc (GVR ur) (UResource ur) counter).
Proof.
  one_turn; [goes_on|].
  destruct (IsNotFound err); [ends_here | goes_on].
Qed.

End Shape.

(** ** Polls: what they do to the remote system, and when they end *)

Section Convergence.

Context {S KubeClient DiscoveryClient TemplateArgs : Type}.
Variable GetResourceFromYaml :
  string -> option DiscoveryClient -> TemplateArgs -> result K8sUnstructuredResource.
Variable filepath_Join : string -> string -> string.
Variable Title : string -> string.
Variable EqualFold : string -> string -> bool.
Implicit Type kc : ClientSet S KubeClient DiscoveryClient TemplateArgs.
Implicit Type d : DynamicClient S.
Implicit Type w : World S.

(** X6: the three polls only read: whatever the remote system answers, all they
    add to the trace is fetches of the resolved resource, in the namespace of
    its document, and sleeps of the waiter interval; there are at most
    [getWaiterTries] fetches, and never more sleeps than fetches. *)
Theorem polls_only_fetch_and_sleep kc file state selector cType status ur w :
  GetResourceFromYaml (getResourcePath filepath_Join kc file)
    (DiscoveryInterface kc) (TemplateArguments kc) = Ok ur ->
  quiet kc ur (getWaiterTries kc) (trace w)
    (trace (snd (ResourceShouldBe GetResourceFromYaml filepath_Join kc file state w)))
  /\ quiet kc ur (getWaiterTries kc) (trace w)
       (trace (snd (ResourceShouldConvergeToSelector GetResourceFromYaml
                      filepath_Join EqualFold kc file selector w)))
  /\ quiet kc ur (getWaiterTries kc) (trace w)
       (trace (snd (ResourceConditionShouldBe GetResourceFromYaml filepath_Join
                      Title kc file cType status w))).
Proof.
  intros Hr.
  unfold ResourceShouldBe, ResourceShouldConvergeToSelector, ResourceConditionShouldBe.
  destruct (Validate kc); [repeat split; apply quiet_nothing|].
  rewrite Hr. split; [|split].
  - pose proof (turns_are_quiet kc ur _ (ResourceShouldBe_turn kc ur state)
                  (budget kc) 0 w) as H.
    rewrite Z.sub_0_r in H. exact H.
  - destruct (Strings.DeleteEmpty (Strings.Split selector "="%char))
      as [|key [|value [|third more]]]; try apply quiet_nothing.
    destruct (length (Strings.DeleteEmpty (Strings.Split key "."%char)) <? 1)%nat;
      [apply quiet_nothing|].
    pose proof (turns_are_quiet kc ur _
                  (ResourceShouldConvergeToSelector_turn EqualFold kc ur
                     (Strings.DeleteEmpty (Strings.Split key "."%char)) value)
                  (budget kc) 0 w) as H.
    rewrite Z.sub_0_r in H. exact H.
  - pose proof (turns_are_quiet kc ur _
                  (ResourceConditionShouldBe_turn kc ur cType (Title status))
                  (budget kc) 0 w) as H.
    rewrite Z.sub_0_r in H. exact H.
Qed.

Lemma created_is_not_deleted (state : string) :
  String.eqb state stateCreated = true -> String.eqb state stateDeleted = false.
Proof. intros H. apply String.eqb_eq in H. subst state. reflexivity. Qed.

Lemma ResourceShouldBe_loop_waits kc d ur state fuel counter w r s1 :
  DynamicInterface kc = Some d ->
  counter < getWaiterTries kc ->
  dynGet d (MappingResource (GVR ur)) (GetNamespace (UResource ur))
    (GetName (UResource ur)) (remote w) = (r, s1) ->
  keeps_waiting state r = true ->
  ResourceShouldBe_loop (Datatypes.S fuel) kc (GVR ur) (UResource ur) state counter w
  = ResourceShouldBe_loop fuel kc (GVR ur) (UResource ur) state (counter + 1)
      (emit (Sleep (getWaiterInterval kc)) (mkWorld s1 (trace w ++ [fetch_of ur]))).
Proof.
  intros Hd Hc Hget Hkeep. cbn [ResourceShouldBe_loop].
  destruct (counter >=? getWaiterTries kc) eqn:E.
  { rewrite Z.geb_leb in E. apply Z.leb_le in E. lia. }
  unfold bind at 1. unfold Get. rewrite Hd, Hget.
  destruct r as [live|e]; cbn [keeps_waiting] in Hkeep.
  - apply negb_true_iff in Hkeep. rewrite Hkeep.
    destruct (String.eqb state stateDeleted); reflexivity.
  - apply andb_true_iff in Hkeep. destruct Hkeep as [Hnf Hstate].
    apply negb_true_iff in Hstate. rewrite Hnf, Hstate. cbn [negb].
    destruct (String.eqb state stateCreated); reflexivity.
Qed.

Lemma ResourceShouldBe_loop_sees kc d ur state fuel counter w r s1 :
  DynamicInterface kc = Some d ->
  counter < getWaiterTries kc ->
  dynGet d (MappingResource (GVR ur)) (GetNamespace (UResource ur))
    (GetName (UResource ur)) (remote w) = (r, s1) ->
  observed state r = true ->
  ResourceShouldBe_loop (Datatypes.S fuel) kc (GVR ur) (UResource ur) state counter w
  = (Done None, mkWorld s1 (trace w ++ [fetch_of ur])).
Proof.
  intros Hd Hc Hget Hobs. cbn [ResourceShouldBe_loop].
  destruct (counter >=? getWaiterTries kc) eqn:E.
  { rewrite Z.geb_leb in E. apply Z.leb_le in E. lia. }
  unfold bind, Get. rewrite Hd, Hget.
  destruct r as [live|e]; cbn [observed] in Hobs.
  - rewrite (created_is_not_deleted _ Hobs), Hobs. reflexivity.
  - apply andb_true_iff in Hobs. destruct Hobs as [Hnf Hstate].
    rewrite Hnf, Hstate. reflexivity.
Qed.

Lemma ResourceShouldBe_loop_observes kc d ur state :
  DynamicInterface kc = Some d ->
  let gvr := MappingResource (GVR ur) in
  let ns := GetNamespace (UResource ur) in
  let name := GetName (UResource ur) in
  forall (k fuel : nat) (counter : Z) w,
    (k < fuel)%nat ->
    counter + Z.of_nat k < getWaiterTries kc ->
    (forall i, (i < k)%nat ->
       keeps_waiting state
         (fst (dynGet d gvr ns name (after_fetches d gvr ns name i (remote w)))) = true) ->
    observed state
      (fst (dynGet d gvr ns name (after_fetches d gvr ns name k (remote w)))) = true ->
    ResourceShouldBe_loop fuel kc (GVR ur) (UResource ur) state counter w
    = (Done None,
       mkWorld (after_fetches d gvr ns name (Datatypes.S k) (remote w))
         (trace w ++ rounds k (fetch_of ur) (getWaiterInterval kc) ++ [fetch_of ur])).
Proof.
  intros Hd gvr ns name.
  induction k as [|k IH]; intros fuel counter w Hfuel Hc Hwait Hobs;
    (destruct fuel as [|fuel]; [lia|]).
  - cbn [after_fetches] in *.
    destruct (dynGet d gvr ns name (remote w)) as [r s1] eqn:Hget.
    rewrite (ResourceShouldBe_loop_sees kc d ur state fuel counter w r s1 Hd
               ltac:(lia) Hget Hobs).
    reflexivity.
  - pose proof (Hwait O ltac:(lia)) as Hfirst. cbn [after_fetches] in Hfirst.
    destruct (dynGet d gvr ns name (remote w)) as [r s1] eqn:Hget.
    rewrite (ResourceShouldBe_loop_waits kc d ur state fuel counter w r s1 Hd
               ltac:(lia) Hget Hfirst).
    rewrite IH.
    + unfold emit. cbn [remote trace after_fetches]. fold gvr ns name.
      rewrite Hget. cbn [snd]. f_equal. f_equal.
      unfold rounds. cbn [repeat concat]. rewrite <- !app_assoc. reflexivity.
    + lia.
    + lia.
    + intros i Hi. unfold emit. cbn [remote].
      specialize (Hwait (Datatypes.S i) ltac:(lia)). cbn [after_fetches] in Hwait.
      fold gvr ns name in Hget. rewrite Hget in Hwait. exact Hwait.
    + unfold emit. cbn [remote]. cbn [after_fetches] in Hobs.
      fold gvr ns name in Hget. rewrite Hget in Hobs. exact Hobs.
Qed.

(** X7: the existence poll returns nil at the first fetch that shows the wanted
    state: if the first [k] fetches keep it waiting and the next one shows the
    state, with [k] below the number of attempts, it returns nil after exactly
    [k + 1] fetches and [k] sleeps, and no fetch is made after that one. *)
Theorem existence_poll_returns_when_observed kc d file state ur (k : nat) w :
  Validate kc = None ->
  DynamicInterface kc = Some d ->
  GetResourceFromYaml (getResourcePath filepath_Join kc file)
    (DiscoveryInterface kc) (TemplateArguments kc) = Ok ur ->
  let gvr := MappingResource (GVR ur) in
  let ns := GetNamespace (UResource ur) in
  let name := GetName (UResource ur) in
  Z.of_nat k < getWaiterTries kc ->
  (forall i, (i < k)%nat ->
     keeps_waiting state
       (fst (dynGet d gvr ns name (after_fetches d gvr ns name i (remote w)))) = true) ->
  observed state
    (fst (dynGet d gvr ns name (after_fetches d gvr ns name k (remote w)))) = true ->
  ResourceShouldBe GetResourceFromYaml filepath_Join kc file state w
  = (Done None,
     mkWorld (after_fetches d gvr ns name (Datatypes.S k) (remote w))
       (trace w ++ rounds k (fetch_of ur) (getWaiterInterval kc) ++ [fetch_of ur])).
Proof.
  intros Hv Hd Hr gvr ns name Hk Hwait Hobs.
  unfold ResourceShouldBe. rewrite Hv, Hr.
  apply ResourceShouldBe_loop_observes with (d := d); try assumption;
    unfold budget; lia.
Qed.

Lemma ResourceShouldBe_loop_gives_up kc d ur state :
  DynamicInterface kc = Some d ->
  (forall s, keeps_waiting state
               (fst (dynGet d (MappingResource (GVR ur)) (GetNamespace (UResource ur))
                       (GetName (UResource ur)) s)) = true) ->
  forall (n fuel : nat) (counter : Z) w,
    getWaiterTries kc - counter = Z.of_nat n ->
    (n < fuel)%nat ->
    exists s',
      ResourceShouldBe_loop fuel kc (GVR ur) (UResource ur) state counter w
      = (Done (Some timed_out_state),
         mkWorld s' (trace w ++ rounds n (fetch_of ur) (getWaiterInterval kc))).
Proof.
  intros Hd Hkeep.
  induction n as [|n IH]; intros fuel counter w Hrem Hfuel;
    (destruct fuel as [|fuel]; [lia|]).
  - cbn [ResourceShouldBe_loop].
    destruct (counter >=? getWaiterTries kc) eqn:E.
    + exists (remote w). unfold rounds. cbn [repeat concat]. rewrite app_nil_r.
      destruct w; reflexivity.
    + rewrite Z.geb_leb in E. apply Z.leb_gt in E. lia.
  - specialize (Hkeep (remote w)) as Hfirst.
    destruct (dynGet d (MappingResource (GVR ur)) (GetNamespace (UResource ur))
                (GetName (UResource ur)) (remote w)) as [r s1] eqn:Hget.
    rewrite (ResourceShouldBe_loop_waits kc d ur state fuel counter w r s1 Hd
               ltac:(lia) Hget Hfirst).
    destruct (IH fuel (counter + 1)
                (emit (Sleep (getWaiterInterval kc))
                   (mkWorld s1 (trace w ++ [fetch_of ur])))) as [s' Hrun]; [lia | lia |].
    exists s'. rewrite Hrun. unfold emit. cbn [trace]. f_equal. f_equal.
    unfold rounds. cbn [repeat concat]. rewrite <- !app_assoc. reflexivity.
Qed.

(** X8: an existence poll that never sees the wanted state sleeps after every
    fetch, the last one included: what it adds to the trace is exactly
    [getWaiterTries] rounds of one fetch and one sleep of the waiter interval,
    and only then the timeout error comes. *)
Theorem existence_poll_sleeps_after_every_attempt kc d file state ur w :
  Validate kc = None ->
  DynamicInterface kc = Some d ->
  GetResourceFromYaml (getResourcePath filepath_Join kc file)
    (DiscoveryInterface kc) (TemplateArguments kc) = Ok ur ->
  (forall s, keeps_waiting state
               (fst (dynGet d (MappingResource (GVR ur)) (GetNamespace (UResource ur))
                       (GetName (UResource ur)) s)) = true) ->
  exists s',
    ResourceShouldBe GetResourceFromYaml filepath_Join kc file state w
    = (Done (Some timed_out_state),
       mkWorld s' (trace w ++ rounds (Z.to_nat (getWaiterTries kc)) (fetch_of ur)
                               (getWaiterInterval kc))).
Proof.
  intros Hv Hd Hr Hkeep. unfold ResourceShouldBe. rewrite Hv, Hr.
  pose proof (getWaiterTries_positive kc) as Hpos.
  apply ResourceShouldBe_loop_gives_up with (d := d); try assumption;
    unfold budget; lia.
Qed.

(** X9: with target ["created"]: a resource that the first fetch finds makes the
    existence poll return nil after that one fetch; a resource that every
    fetch reports not-found makes it fetch [getWaiterTries] times and return
    the timeout error. *)
Theorem existence_poll_created kc d file ur w :
  Validate kc = None ->
  DynamicInterface kc = Some d ->
  GetResourceFromYaml (getResourcePath filepath_Join kc file)
    (DiscoveryInterface kc) (TemplateArguments kc) = Ok ur ->
  let gvr := MappingResource (GVR ur) in
  let ns := GetNamespace (UResource ur) in
  let name := GetName (UResource ur) in
  (forall live s',
      dynGet d gvr ns name (remote w) = (Ok live, s') ->
      ResourceShouldBe GetResourceFromYaml filepath_Join kc file stateCreated w
      = (Done None, mkWorld s' (trace w ++ [fetch_of ur])))
  /\
  ((forall s, exists err s',
       dynGet d gvr ns name s = (Err err, s') /\ IsNotFound err = true) ->
   exists w',
     ResourceShouldBe GetResourceFromYaml filepath_Join kc file stateCreated w
     = (Done (Some timed_out_state), w')
     /\ fetches (trace w')
        = (fetches (trace w) + Z.to_nat (getWaiterTries kc))%nat).
Proof.
  intros Hv Hd Hr gvr ns name.
  pose proof (getWaiterTries_positive kc) as Hpos.
  unfold ResourceShouldBe. rewrite Hv, Hr. split.
  - intros live s' Hget. unfold budget.
    apply (ResourceShouldBe_loop_sees kc d ur stateCreated _ 0 w (Ok live) s' Hd
             Hpos Hget eq_refl).
  - intros Habsent.
    apply ResourceShouldBe_loop_exhausts with (d := d).
    + exact Hd.
    + intros s. destruct (Habsent s) as [err [s' [Hget Hnf]]].
      fold gvr ns name. rewrite Hget. cbn [fst keeps_waiting]. rewrite Hnf.
      reflexivity.
    + lia.
    + unfold budget. lia.
Qed.

Lemma fetches_rounds (t : list event) (n : nat) (ur : K8sUnstructuredResource)
    (interval : Z) :
  fetches (t ++ rounds n (fetch_of ur) interval) = (fetches t + n)%nat.
Proof.
  unfold fetches. rewrite filter_app, length_app. f_equal.
  induction n as [|n IH]; [reflexivity|].
  unfold rounds in *. cbn [repeat concat app filter fetch_of is_get length].
  rewrite IH. reflexivity.
Qed.

(** A loop that, below its budget, always fetches, sleeps and takes its next
    turn ends in its timeout error after one round per attempt left. *)
Lemma waiting_loop_gives_up kc d ur (loop : nat -> Z -> M S (option error))
    (timeout : error) :
  (forall fuel counter w,
      getWaiterTries kc <= counter ->
      loop (Datatypes.S fuel) counter w = (Done (Some timeout), w)) ->
  (forall fuel counter w,
      counter < getWaiterTries kc ->
      loop (Datatypes.S fuel) counter w
      = loop fuel (counter + 1)
          (emit (Sleep (getWaiterInterval kc))
             (mkWorld (snd (dynGet d (MappingResource (GVR ur))
                              (GetNamespace (UResource ur)) (GetName (UResource ur))
                              (remote w)))
                (trace w ++ [fetch_of ur])))) ->
  forall (n fuel : nat) (counter : Z) w,
    getWaiterTries kc - counter = Z.of_nat n ->
    (n < fuel)%nat ->
    exists s',
      loop fuel counter w
      = (Done (Some timeout),
         mkWorld s' (trace w ++ rounds n (fetch_of ur) (getWaiterInterval kc))).
Proof.
  intros Hstop Hturn.
  induction n as [|n IH]; intros fuel counter w Hrem Hfuel;
    (destruct fuel as [|fuel]; [lia|]).
  - rewrite Hstop by lia. exists (remote w).
    unfold rounds. cbn [repeat concat]. rewrite app_nil_r. destruct w; reflexivity.
  - rewrite Hturn by lia.
    match goal with
    | |- context [loop fuel (counter + 1) ?w1] =>
        destruct (IH fuel (counter + 1) w1) as [s' Hrun]; [lia | lia |]
    end.
    exists s'. rewrite Hrun. unfold emit. cbn [trace]. f_equal. f_equal.
    unfold rounds. cbn [repeat concat]. rewrite <- !app_assoc. reflexivity.
Qed.

(** *** Field convergence *)

Lemma NestedFieldNoCopy_found (fields : list string) :
  forall val, nfound (NestedFieldNoCopy val fields) = true ->
              nerr (NestedFieldNoCopy val fields) = None.
Proof.
  induction fields as [|field rest IH]; intros val; cbn [NestedFieldNoCopy];
    [reflexivity|].
  destruct val as [| | | | |m]; try discriminate.
  destruct (lookup field m); [apply IH | discriminate].
Qed.

Lemma NestedString_found obj fields :
  nfound (NestedString obj fields) = true -> nerr (NestedString obj fields) = None.
Proof.
  unfold NestedString.
  pose proof (NestedFieldNoCopy_found fields (VMap obj)) as H.
  destruct (nfound (NestedFieldNoCopy (VMap obj) fields)); cbn [negb orb].
  - rewrite (H eq_refl).
    destruct (nval (NestedFieldNoCopy (VMap obj) fields)); cbn; congruence.
  - cbn. discriminate.
Qed.

Lemma NestedSlice_found obj fields :
  nfound (NestedSlice obj fields) = true -> nerr (NestedSlice obj fields) = None.
Proof.
  unfold NestedSlice.
  pose proof (NestedFieldNoCopy_found fields (VMap obj)) as H.
  destruct (nfound (NestedFieldNoCopy (VMap obj) fields)); cbn [negb orb].
  - rewrite (H eq_refl).
    destruct (nval (NestedFieldNoCopy (VMap obj) fields)); cbn; congruence.
  - cbn. discriminate.
Qed.

Lemma convergence_enters_loop kc file selector keySlice value ur :
  Validate kc = None ->
  selector_parts selector = Some (keySlice, value) ->
  GetResourceFromYaml (getResourcePath filepath_Join kc file)
    (DiscoveryInterface kc) (TemplateArguments kc) = Ok ur ->
  ResourceShouldConvergeToSelector GetResourceFromYaml filepath_Join EqualFold kc
    file selector
  = ResourceShouldConvergeToSelector_loop EqualFold (budget kc) kc (GVR ur)
      (UResource ur) keySlice value 0.
Proof.
  intros Hv Hparts Hr. unfold ResourceShouldConvergeToSelector, selector_parts in *.
  rewrite Hv.
  destruct (Strings.DeleteEmpty (Strings.Split selector "="%char))
    as [|key [|val [|third more]]]; try discriminate Hparts.
  destruct (length (Strings.DeleteEmpty (Strings.Split key "."%char)) <? 1)%nat;
    [discriminate Hparts|].
  injection Hparts as <- <-. rewrite Hr. reflexivity.
Qed.

(** X10: the field-convergence poll returns nil as soon as a fetch shows a string
    at the key path that equals the value up to case: with such a document at
    the first fetch, after that one fetch. *)
Theorem convergence_poll_succeeds kc d file selector keySlice value ur w live s'
    found :
  Validate kc = None ->
  DynamicInterface kc = Some d ->
  selector_parts selector = Some (keySlice, value) ->
  GetResourceFromYaml (getResourcePath filepath_Join kc file)
    (DiscoveryInterface kc) (TemplateArguments kc) = Ok ur ->
  dynGet d (MappingResource (GVR ur)) (GetNamespace (UResource ur))
    (GetName (UResource ur)) (remote w) = (Ok live, s') ->
  string_at keySlice live = Some found ->
  EqualFold found value = true ->
  ResourceShouldConvergeToSelector GetResourceFromYaml filepath_Join EqualFold kc
    file selector w
  = (Done None, mkWorld s' (trace w ++ [fetch_of ur])).
Proof.
  intros Hv Hd Hparts Hr Hget Hat Heq.
  rewrite (convergence_enters_loop _ _ _ _ _ _ Hv Hparts Hr).
  pose proof (getWaiterTries_positive kc) as Hpos.
  unfold budget. cbn [ResourceShouldConvergeToSelector_loop].
  destruct (0 >=? getWaiterTries kc) eqn:E.
  { rewrite Z.geb_leb in E. apply Z.leb_le in E. lia. }
  unfold bind, Get. rewrite Hd, Hget. unfold string_at in Hat.
  destruct (nfound (NestedString (UnstructuredContent live) keySlice)) eqn:Hf;
    [|discriminate Hat].
  rewrite (NestedString_found _ _ Hf). injection Hat as <-. rewrite Heq.
  reflexivity.
Qed.

(** X11: a field that is absent, that is not a string (a number, say), or that is
    a string other than the value keeps the field-convergence poll waiting:
    when every fetch returns such a document, the poll makes [getWaiterTries]
    rounds of one fetch and one sleep and returns its timeout error. *)
Theorem convergence_poll_times_out kc d file selector keySlice value ur w :
  Validate kc = None ->
  DynamicInterface kc = Some d ->
  selector_parts selector = Some (keySlice, value) ->
  GetResourceFromYaml (getResourcePath filepath_Join kc file)
    (DiscoveryInterface kc) (TemplateArguments kc) = Ok ur ->
  (forall s, exists live s1,
      dynGet d (MappingResource (GVR ur)) (GetNamespace (UResource ur))
        (GetName (UResource ur)) s = (Ok live, s1)
      /\ match string_at keySlice live with
         | None => True
         | Some found => EqualFold found value = false
         end) ->
  exists s',
    ResourceShouldConvergeToSelector GetResourceFromYaml filepath_Join EqualFold kc
      file selector w
    = (Done (Some timed_out_resource),
       mkWorld s' (trace w ++ rounds (Z.to_nat (getWaiterTries kc)) (fetch_of ur)
                               (getWaiterInterval kc))).
Proof.
  intros Hv Hd Hparts Hr Hfetch.
  rewrite (convergence_enters_loop _ _ _ _ _ _ Hv Hparts Hr).
  pose proof (getWaiterTries_positive kc) as Hpos.
  apply (waiting_loop_gives_up kc d ur
           (fun fuel counter =>
              ResourceShouldConvergeToSelector_loop EqualFold fuel kc (GVR ur)
                (UResource ur) keySlice value counter)).
  - intros fuel counter w0 Hc. cbn [ResourceShouldConvergeToSelector_loop].
    destruct (counter >=? getWaiterTries kc) eqn:E; [reflexivity|].
    rewrite Z.geb_leb in E. apply Z.leb_gt in E. lia.
  - intros fuel counter w0 Hc. cbn [ResourceShouldConvergeToSelector_loop].
    destruct (counter >=? getWaiterTries kc) eqn:E.
    { rewrite Z.geb_leb in E. apply Z.leb_le in E. lia. }
    unfold bind at 1. unfold Get. rewrite Hd.
    destruct (Hfetch (remote w0)) as [live [s1 [Hget Hat]]]. rewrite Hget.
    cbn [snd]. unfold string_at in Hat.
    destruct (nfound (NestedString (UnstructuredContent live) keySlice)) eqn:Hf;
      [|reflexivity].
    rewrite (NestedString_found _ _ Hf), Hat. reflexivity.
  - lia.
  - unfold budget. lia.
Qed.

(** A number at the key path is not a string for the poll, whatever its
    decimal writing. *)
Lemma string_at_number keySlice live z :
  NestedFieldNoCopy (VMap (Object live)) keySlice = mkNested (VInt z) true None ->
  string_at keySlice live = None.
Proof.
  intros H. unfold string_at, NestedString, UnstructuredContent. rewrite H.
  reflexivity.
Qed.

(** X12: unlike the existence poll, the field-convergence and condition-match
    polls take a resource that is not there for an error: when the first
    fetch fails, with not-found or anything else, they return that error
    after this one fetch. *)
Theorem absent_resource_ends_field_and_condition_polls kc d file selector keySlice
    value cType status ur w err s' :
  Validate kc = None ->
  DynamicInterface kc = Some d ->
  selector_parts selector = Some (keySlice, value) ->
  GetResourceFromYaml (getResourcePath filepath_Join kc file)
    (DiscoveryInterface kc) (TemplateArguments kc) = Ok ur ->
  dynGet d (MappingResource (GVR ur)) (GetNamespace (UResource ur))
    (GetName (UResource ur)) (remote w) = (Err err, s') ->
  ResourceShouldConvergeToSelector GetResourceFromYaml filepath_Join EqualFold kc
    file selector w
  = (Done (Some err), mkWorld s' (trace w ++ [fetch_of ur]))
  /\ ResourceConditionShouldBe GetResourceFromYaml filepath_Join Title kc file cType
       status w
     = (Done (Some err), mkWorld s' (trace w ++ [fetch_of ur])).
Proof.
  intros Hv Hd Hparts Hr Hget.
  pose proof (getWaiterTries_positive kc) as Hpos.
  rewrite (convergence_enters_loop _ _ _ _ _ _ Hv Hparts Hr).
  unfold ResourceConditionShouldBe. rewrite Hv, Hr. unfold budget.
  cbn [ResourceShouldConvergeToSelector_loop ResourceConditionShouldBe_loop].
  destruct (0 >=? getWaiterTries kc) eqn:E.
  { rewrite Z.geb_leb in E. apply Z.leb_le in E. lia. }
  unfold bind, Get. rewrite Hd, Hget. split; reflexivity.
Qed.

(** *** Selectors *)

Lemma Split_without_separator (s : string) (sep : ascii) :
  Strings.Count s sep = 0%nat -> Strings.Split s sep = [s].
Proof.
  induction s as [|c rest IH]; cbn [Strings.Split Strings.Count]; [reflexivity|].
  destruct (Ascii.eqb c sep); [discriminate|].
  intros H. rewrite (IH H). reflexivity.
Qed.

Lemma Split_at_first_separator (before after : string) (sep : ascii) :
  Strings.Count before sep = 0%nat ->
  Strings.Split (before ++ String sep after) sep = before :: Strings.Split after sep.
Proof.
  induction before as [|c rest IH]; cbn [Strings.Split Strings.Count String.append].
  - intros _. rewrite Ascii.eqb_refl. reflexivity.
  - destruct (Ascii.eqb c sep); [discriminate|].
    intros H. rewrite (IH H). reflexivity.
Qed.

(** X13: a selector written [key=value], with neither part empty nor holding a
    [=] and with a key that has a segment between its dots, is taken apart
    into the segments of the key and the value as it stands, dots included;
    a dot in front of the key changes nothing. *)
Theorem selector_parts_of_key_value (key value : string) :
  Strings.Count key "="%char = 0%nat ->
  Strings.Count value "="%char = 0%nat ->
  key <> "" ->
  value <> "" ->
  Strings.DeleteEmpty (Strings.Split key "."%char) <> [] ->
  selector_parts (key ++ "=" ++ value)
  = Some (Strings.DeleteEmpty (Strings.Split key "."%char), value)
  /\ selector_parts ("." ++ key ++ "=" ++ value) = selector_parts (key ++ "=" ++ value).
Proof.
  intros Hk Hv Hkey Hvalue Hsegments.
  apply String.eqb_neq in Hkey, Hvalue.
  assert (Hlen : (length (Strings.DeleteEmpty (Strings.Split key "."%char)) <? 1)%nat
                 = false).
  { destruct (Strings.DeleteEmpty (Strings.Split key "."%char)); [congruence|].
    reflexivity. }
  assert (Hplain : selector_parts (key ++ "=" ++ value)
                   = Some (Strings.DeleteEmpty (Strings.Split key "."%char), value)).
  { unfold selector_parts. cbn [String.append].
    rewrite (Split_at_first_separator key value "="%char Hk).
    rewrite (Split_without_separator value "="%char Hv).
    cbn [Strings.DeleteEmpty]. rewrite Hkey, Hvalue, Hlen. reflexivity. }
  split; [exact Hplain|]. rewrite Hplain.
  unfold selector_parts.
  change ("." ++ key ++ "=" ++ value) with (String "."%char key ++ String "="%char value).
  rewrite (Split_at_first_separator (String "."%char key) value "="%char Hk).
  rewrite (Split_without_separator value "="%char Hv).
  cbn [Strings.DeleteEmpty String.eqb]. rewrite Hvalue.
  cbn [Strings.Split Ascii.eqb Bool.eqb Strings.DeleteEmpty String.eqb].
  rewrite Hlen. reflexivity.
Qed.

(** *** Conditions *)

Lemma scan_conditions_well_formed (cType expectedStatus : string)
    (conditions : list value) :
  forallb (status_is_string cType) conditions = true ->
  scan_conditions conditions cType expectedStatus
  = Done (existsb (condition_matches cType expectedStatus) conditions).
Proof.
  induction conditions as [|c rest IH]; [reflexivity|].
  cbn [forallb existsb]. intros H. apply andb_true_iff in H. destruct H as [Hc Hrest].
  specialize (IH Hrest). cbn [scan_conditions].
  destruct c as [| | | | |condition]; cbn [condition_matches orb]; try exact IH.
  cbn [status_is_string] in Hc.
  destruct (lookup "type" condition) as [[| | |condType| |]|]; try exact IH.
  destruct (String.eqb condType cType).
  - destruct (lookup "status" condition) as [[| | |status| |]|]; try discriminate Hc.
    cbn [andb]. destruct (String.eqb status expectedStatus); [reflexivity | exact IH].
  - destruct (lookup "status" condition) as [[| | |status| |]|]; exact IH.
Qed.

(** X14: when every entry of the requested type has a string for its status, the
    scan of the conditions ends without panic and says whether some entry has
    the requested type and the expected status. *)
Theorem scan_conditions_decides (cType expectedStatus : string) (conditions : list value) :
  forallb (status_is_string cType) conditions = true ->
  scan_conditions conditions cType expectedStatus
  = Done (existsb (condition_matches cType expectedStatus) conditions).
Proof. apply scan_conditions_well_formed. Qed.

(** X15: the scan says yes only for an entry that has the requested type and the
    expected status, and it says yes at the first such entry: what comes after
    it in the list, well formed or not, is not looked at. *)
Theorem scan_conditions_stops_at_first_match (cType expectedStatus : string) :
  (forall conditions,
      scan_conditions conditions cType expectedStatus = Done true ->
      existsb (condition_matches cType expectedStatus) conditions = true)
  /\
  (forall before after,
      forallb (status_is_string cType) before = true ->
      existsb (condition_matches cType expectedStatus) before = true ->
      scan_conditions (before ++ after) cType expectedStatus = Done true).
Proof.
  split.
  - induction conditions as [|c rest IH]; [discriminate|].
    cbn [scan_conditions existsb].
    destruct c as [| | | | |condition]; cbn [condition_matches orb]; try exact IH.
    destruct (lookup "type" condition) as [[| | |condType| |]|]; try exact IH.
    destruct (String.eqb condType cType).
    + destruct (lookup "status" condition) as [[| | |status| |]|]; try discriminate.
      cbn [andb]. destruct (String.eqb status expectedStatus); [reflexivity | exact IH].
    + destruct (lookup "status" condition) as [[| | |status| |]|]; exact IH.
  - induction before as [|c rest IH]; [discriminate|].
    cbn [forallb existsb app scan_conditions]. intros after Hwf Hmatch.
    apply andb_true_iff in Hwf. destruct Hwf as [Hc Hrest].
    destruct c as [| | | | |condition]; cbn [condition_matches orb] in Hmatch;
      try (apply IH; assumption).
    cbn [status_is_string] in Hc.
    destruct (lookup "type" condition) as [[| | |condType| |]|];
      try (apply IH; assumption).
    destruct (String.eqb condType cType).
    + destruct (lookup "status" condition) as [[| | |status| |]|];
        try discriminate Hc.
      cbn [andb] in Hmatch.
      destruct (String.eqb status expectedStatus);
        [reflexivity | apply IH; assumption].
    + destruct (lookup "status" condition) as [[| | |status| |]|];
        apply IH; assumption.
Qed.

(** X16: the condition-match poll returns nil after one fetch when, in the
    conditions of the fetched document, every entry of the requested type has
    a string for its status and one of them has the title-cased expected
    status; and, when every fetch returns a document without
    [status.conditions], or with conditions in which every entry of the
    requested type has a string status and none has the expected one, it makes
    [getWaiterTries] rounds of one fetch and one sleep and returns the timeout
    error. *)
Theorem condition_poll_follows_the_conditions kc d file cType status ur w :
  Validate kc = None ->
  DynamicInterface kc = Some d ->
  GetResourceFromYaml (getResourcePath filepath_Join kc file)
    (DiscoveryInterface kc) (TemplateArguments kc) = Ok ur ->
  let gvr := MappingResource (GVR ur) in
  let ns := GetNamespace (UResource ur) in
  let name := GetName (UResource ur) in
  let poll :=
    ResourceConditionShouldBe GetResourceFromYaml filepath_Join Title kc file cType
      status w in
  (forall live s' conditions,
      dynGet d gvr ns name (remote w) = (Ok live, s') ->
      conditions_of live = Some conditions ->
      forallb (status_is_string cType) conditions = true ->
      existsb (condition_matches cType (Title status)) conditions = true ->
      poll = (Done None, mkWorld s' (trace w ++ [fetch_of ur])))
  /\
  ((forall s, exists live s1,
       dynGet d gvr ns name s = (Ok live, s1)
       /\ match conditions_of live with
          | None => True
          | Some conditions =>
              forallb (status_is_string cType) conditions = true
              /\ existsb (condition_matches cType (Title status)) conditions = false
          end) ->
   exists s',
     poll = (Done (Some timed_out_state),
             mkWorld s' (trace w ++ rounds (Z.to_nat (getWaiterTries kc))
                                     (fetch_of ur) (getWaiterInterval kc)))).
Proof.
  intros Hv Hd Hr gvr ns name poll. subst poll.
  pose proof (getWaiterTries_positive kc) as Hpos.
  unfold ResourceConditionShouldBe. rewrite Hv, Hr. split.
  - intros live s' conditions Hget Hcond Hwf Hmatch.
    unfold budget. cbn [ResourceConditionShouldBe_loop].
    destruct (0 >=? getWaiterTries kc) eqn:E.
    { rewrite Z.geb_leb in E. apply Z.leb_le in E. lia. }
    unfold bind, Get. rewrite Hd. fold gvr ns name. rewrite Hget.
    unfold conditions_of in Hcond.
    destruct (nfound (NestedSlice (UnstructuredContent live) ["status"; "conditions"]))
      eqn:Hf; [|discriminate Hcond].
    rewrite (NestedSlice_found _ _ Hf). injection Hcond as ->.
    rewrite (scan_conditions_well_formed _ _ _ Hwf), Hmatch. reflexivity.
  - intros Hfetch.
    apply (waiting_loop_gives_up kc d ur
             (fun fuel counter =>
                ResourceConditionShouldBe_loop fuel kc (GVR ur) (UResource ur) cType
                  (Title status) counter)).
    + intros fuel counter w0 Hc. cbn [ResourceConditionShouldBe_loop].
      destruct (counter >=? getWaiterTries kc) eqn:E; [reflexivity|].
      rewrite Z.geb_leb in E. apply Z.leb_gt in E. lia.
    + intros fuel counter w0 Hc. cbn [ResourceConditionShouldBe_loop].
      destruct (counter >=? getWaiterTries kc) eqn:E.
      { rewrite Z.geb_leb in E. apply Z.leb_le in E. lia. }
      unfold bind at 1. unfold Get. rewrite Hd.
      destruct (Hfetch (remote w0)) as [live [s1 [Hget Hcond]]].
      fold gvr ns name. rewrite Hget. cbn [snd]. unfold conditions_of in Hcond.
      destruct (nfound (NestedSlice (UnstructuredContent live)
                          ["status"; "conditions"])) eqn:Hf; [|reflexivity].
      rewrite (NestedSlice_found _ _ Hf). destruct Hcond as [Hwf Hnone].
      rewrite (scan_conditions_well_formed _ _ _ Hwf), Hnone. reflexivity.
    + lia.
    + unfold budget. lia.
Qed.

End Convergence.

(** ** The bulk delete *)

Section BulkDelete.

Context {S KubeClient DiscoveryClient TemplateArgs : Type}.
Variable GetResourceFromYaml :
  string -> option DiscoveryClient -> TemplateArgs -> result K8sUnstructuredResource.
Variable walk_visits : string -> list visit.
Variable DiscoverClients :
  ClientSet S KubeClient DiscoveryClient TemplateArgs
  -> ClientSet S KubeClient DiscoveryClient TemplateArgs * option error.
Implicit Type kc : ClientSet S KubeClient DiscoveryClient TemplateArgs.
Implicit Type w : World S.

Lemma not_a_resource_file_spec (v : visit) (info : FileInfo) :
  vinfo v = Some info ->
  not_a_resource_file (vpath v) (vinfo v) = Done (negb (is_resource_file v)).
Proof.
  intros H. unfold not_a_resource_file, is_resource_file. rewrite H.
  rewrite negb_andb, negb_involutive. reflexivity.
Qed.

Lemma Walk_skips kc (fn : ClientSet S KubeClient DiscoveryClient TemplateArgs ->
                          string -> option FileInfo -> option error -> M S (option error))
    (visits : list visit) w :
  (forall v, verr v = None -> is_resource_file v = false -> vinfo v <> None ->
             fn kc (vpath v) (vinfo v) (verr v) w = (Done None, w)) ->
  Forall (fun v => verr v = None /\ vinfo v <> None /\ is_resource_file v = false)
    visits ->
  Walk visits (fn kc) w = (Done None, w).
Proof.
  intros Hfn Hall. induction Hall as [|v rest [He [Hi Hf]] _ IH]; [reflexivity|].
  cbn [Walk]. unfold bind. rewrite (Hfn v He Hf Hi). exact IH.
Qed.

(** X17: once the clients are discovered without error, a tree without
    resource files (directories and files of another extension only, all of
    them readable) is walked twice without a single request through the
    dynamic client, and the bulk delete returns nil with the state behind the
    dynamic client and the trace as they were. *)
Theorem bulk_delete_without_resource_files kc kc' resourcesPath w :
  DiscoverClients kc = (kc', None) ->
  Forall (fun v => verr v = None /\ vinfo v <> None /\ is_resource_file v = false)
    (walk_visits resourcesPath) ->
  DeleteResourcesAtPath GetResourceFromYaml walk_visits DiscoverClients kc
    resourcesPath w
  = (Done None, w).
Proof.
  intros Hdisc Hall. unfold DeleteResourcesAtPath. rewrite Hdisc. unfold bind.
  rewrite (Walk_skips kc' (deleteFn GetResourceFromYaml)); [|
    | exact Hall].
  - rewrite (Walk_skips kc' (waitFn GetResourceFromYaml)); [reflexivity | | exact Hall].
    intros v He Hf Hi. unfold waitFn. rewrite He.
    destruct (vinfo v) as [info|] eqn:Hinfo; [|congruence].
    rewrite <- Hinfo, (not_a_resource_file_spec v info Hinfo), Hf. reflexivity.
  - intros v He Hf Hi. unfold deleteFn. rewrite He.
    destruct (vinfo v) as [info|] eqn:Hinfo; [|congruence].
    rewrite <- Hinfo, (not_a_resource_file_spec v info Hinfo), Hf. reflexivity.
Qed.

Lemma Walk_deleteFn_trace kc (visits : list visit) :
  forall w, exists deletes,
    trace (snd (Walk visits (deleteFn GetResourceFromYaml kc) w))
    = (trace w ++ deletes)%list
    /\ Forall (fun e => is_delete e = true) deletes
    /\ (length deletes <= length visits)%nat.
Proof.
  induction visits as [|v rest IH]; intros w.
  - exists []. rewrite app_nil_r. repeat split; [constructor | cbn; lia].
  - assert (Hstop : forall (r : exec (option error)), exists deletes : list event,
               trace (snd (r, w)) = (trace w ++ deletes)%list
               /\ Forall (fun e => is_delete e = true) deletes
               /\ (length deletes <= length (v :: rest))%nat).
    { intros r. exists []. rewrite app_nil_r.
      repeat split; [constructor | cbn; lia]. }
    assert (Hnext : exists deletes : list event,
               trace (snd (Walk rest (deleteFn GetResourceFromYaml kc) w))
               = (trace w ++ deletes)%list
               /\ Forall (fun e => is_delete e = true) deletes
               /\ (length deletes <= length (v :: rest))%nat).
    { destruct (IH w) as [deletes [Ht [Hall Hlen]]]. exists deletes.
      repeat split; [exact Ht | exact Hall | cbn [length]; lia]. }
    cbn [Walk]. unfold bind at 1. unfold deleteFn at 1.
    destruct (verr v); [apply Hstop|].
    destruct (not_a_resource_file (vpath v) (vinfo v)) as [[|]| |];
      [exact Hnext | | apply Hstop | apply Hstop].
    destruct (GetResourceFromYaml (vpath v) (DiscoveryInterface kc)
                (TemplateArguments kc)) as [ur|err]; [|apply Hstop].
    unfold bind, Delete.
    destruct (DynamicInterface kc) as [d|]; [|apply Hstop].
    destruct (dynDelete d (MappingResource (GVR ur)) (GetNamespace (UResource ur))
                (GetName (UResource ur)) (remote w)) as [r s1].
    set (call := Remote (CallDelete (MappingResource (GVR ur))
                           (GetNamespace (UResource ur)) (GetName (UResource ur)))).
    destruct r as [err|]; unfold ret; cbv beta iota zeta.
    + exists [call]. repeat split; [repeat constructor | cbn; lia].
    + destruct (IH (mkWorld s1 (trace w ++ [call]))) as [deletes [Ht [Hall Hlen]]].
      exists (call :: deletes). rewrite Ht. cbn [trace]. rewrite <- app_assoc.
      repeat split; [constructor; [reflexivity | exact Hall] | cbn [length]; lia].
Qed.

Lemma Walk_waitFn_trace kc (visits : list visit) :
  forall w, exists waits,
    trace (snd (Walk visits (waitFn GetResourceFromYaml kc) w))
    = (trace w ++ waits)%list
    /\ Forall (fun e => is_get e = true \/ e = Sleep (getWaiterInterval kc)) waits.
Proof.
  induction visits as [|v rest IH]; intros w.
  - exists []. rewrite app_nil_r. split; [reflexivity | constructor].
  - assert (Hstop : forall (r : exec (option error)), exists waits : list event,
               trace (snd (r, w)) = (trace w ++ waits)%list
               /\ Forall (fun e => is_get e = true \/ e = Sleep (getWaiterInterval kc))
                    waits).
    { intros r. exists []. rewrite app_nil_r. split; [reflexivity | constructor]. }
    cbn [Walk]. unfold bind at 1. unfold waitFn at 1.
    destruct (verr v); [apply Hstop|].
    destruct (not_a_resource_file (vpath v) (vinfo v)) as [[|]| |];
      [apply IH | | apply Hstop | apply Hstop].
    destruct (GetResourceFromYaml (vpath v) (DiscoveryInterface kc)
                (TemplateArguments kc)) as [ur|err]; [|apply Hstop].
    pose proof (turns_are_quiet kc ur _ (waitFn_turn kc ur) (budget kc) 0 w)
      as [added [Ht [Hall _]]].
    cbv beta in Ht.
    assert (Hadded : Forall (fun e => is_get e = true
                                      \/ e = Sleep (getWaiterInterval kc)) added).
    { eapply Forall_impl; [|exact Hall]. intros e [-> | ->];
        [left; reflexivity | right; reflexivity]. }
    destruct (waitFn_loop (budget kc) kc (GVR ur) (UResource ur) 0 w)
      as [[[err|]| |] w1]; cbn [snd] in Ht;
      try (exists added; split; [exact Ht | exact Hadded]).
    destruct (IH w1) as [waits [Ht' Hall']].
    exists (added ++ waits)%list. rewrite Ht', Ht, <- app_assoc.
    split; [reflexivity | apply Forall_app; split; assumption].
Qed.

(** X18: the bulk delete submits before it waits, and does nothing else: whatever
    the tree and the remote system, what it adds to the trace is delete calls,
    at most one per visit, followed by fetches and sleeps of the waiter
    interval; no fetch comes before a delete, and nothing is ever created or
    updated. *)
Theorem bulk_delete_submits_then_waits kc resourcesPath w :
  exists deletes waits,
    trace (snd (DeleteResourcesAtPath GetResourceFromYaml walk_visits DiscoverClients
                  kc resourcesPath w))
    = (trace w ++ deletes ++ waits)%list
    /\ Forall (fun e => is_delete e = true) deletes
    /\ (length deletes <= length (walk_visits resourcesPath))%nat
    /\ Forall (fun e => is_get e = true
                        \/ e = Sleep (getWaiterInterval (fst (DiscoverClients kc))))
         waits.
Proof.
  unfold DeleteResourcesAtPath.
  destruct (DiscoverClients kc) as [kc' [err|]]; cbn [fst].
  { exists [], []. cbn [snd app]. rewrite app_nil_r.
    repeat split; [constructor | cbn; lia | constructor]. }
  unfold bind at 1.
  destruct (Walk_deleteFn_trace kc' (walk_visits resourcesPath) w)
    as [deletes [Ht [Hall Hlen]]].
  destruct (Walk (walk_visits resourcesPath) (deleteFn GetResourceFromYaml kc') w)
    as [[[err|]| |] w1]; cbn [snd] in Ht;
    try (exists deletes, []; cbn [snd]; rewrite app_nil_r;
         repeat split; [exact Ht | exact Hall | exact Hlen | constructor]).
  unfold bind.
  destruct (Walk_waitFn_trace kc' (walk_visits resourcesPath) w1)
    as [waits [Ht' Hall']].
  exists deletes, waits.
  assert (Htrace : trace (snd (Walk (walk_visits resourcesPath)
                                 (waitFn GetResourceFromYaml kc') w1))
                   = (trace w ++ deletes ++ waits)%list).
  { rewrite Ht', Ht, <- app_assoc. reflexivity. }
  destruct (Walk (walk_visits resourcesPath) (waitFn GetResourceFromYaml kc') w1)
    as [[[err|]| |] w2]; cbn [snd] in *;
    (repeat split; [exact Htrace | exact Hall | exact Hlen | exact Hall']).
Qed.

End BulkDelete.

(** ** The bulk delete on the in-memory remote system *)

Section BulkDeleteOnTracker.

Context {KubeClient DiscoveryClient TemplateArgs : Type}.
Variable GetResourceFromYaml :
  string -> option DiscoveryClient -> TemplateArgs -> result K8sUnstructuredResource.
Variable walk_visits : string -> list visit.
Variable DiscoverClients :
  ClientSet Tracker.objects KubeClient DiscoveryClient TemplateArgs
  -> ClientSet Tracker.objects KubeClient DiscoveryClient TemplateArgs * option error.
Implicit Type kc : ClientSet Tracker.objects KubeClient DiscoveryClient TemplateArgs.
Implicit Type w : World Tracker.objects.

Lemma waitFn_loop_on_tracker kc ur :
  DynamicInterface kc = Some Tracker.simpleDynamicClient ->
  forall fuel counter w r w',
    waitFn_loop fuel kc (GVR ur) (UResource ur) counter w = (r, w') ->
    remote w' = remote w
    /\ (r = Done None -> Tracker.find (tracker_key ur) (remote w) = None).
Proof.
  intros Hd. induction fuel as [|fuel IH]; intros counter w r w'; cbn [waitFn_loop].
  - intros [= <- <-]. split; [reflexivity | discriminate].
  - destruct (counter >=? getWaiterTries kc).
    { intros [= <- <-]. split; [reflexivity | discriminate]. }
    unfold bind at 1. unfold Get. rewrite Hd.
    cbn [dynGet Tracker.simpleDynamicClient]. unfold Tracker.get.
    fold (tracker_key ur).
    destruct (Tracker.find (tracker_key ur) (remote w)) as [o|] eqn:F.
    + unfold bind, time_Sleep. intros Hrun. apply IH in Hrun.
      cbn [emit remote] in Hrun. rewrite F in Hrun. exact Hrun.
    + cbn [IsNotFound Tracker.not_found]. intros [= <- <-].
      split; reflexivity.
Qed.

Lemma waitFn_on_tracker kc :
  DynamicInterface kc = Some Tracker.simpleDynamicClient ->
  forall v w r w',
    waitFn GetResourceFromYaml kc (vpath v) (vinfo v) (verr v) w = (r, w') ->
    remote w' = remote w
    /\ (r = Done None ->
        is_resource_file v = true ->
        forall ur,
          GetResourceFromYaml (vpath v) (DiscoveryInterface kc) (TemplateArguments kc)
          = Ok ur ->
          Tracker.find (tracker_key ur) (remote w) = None).
Proof.
  intros Hd v w r w'. unfold waitFn, not_a_resource_file, is_resource_file.
  destruct (verr v).
  { intros [= <- <-]. split; [reflexivity | discriminate]. }
  destruct (vinfo v) as [info|].
  2:{ intros [= <- <-]. split; [reflexivity | discriminate]. }
  destruct (IsDir info); cbn [orb negb andb].
  { intros [= <- <-]. split; [reflexivity | discriminate]. }
  destruct (String.eqb (Strings.Ext (vpath v)) ".yaml"); cbn [negb].
  2:{ intros [= <- <-]. split; [reflexivity | discriminate]. }
  destruct (GetResourceFromYaml (vpath v) (DiscoveryInterface kc)
              (TemplateArguments kc)) as [ur0|err].
  - intros Hrun.
    destruct (waitFn_loop_on_tracker kc ur0 Hd _ _ _ _ _ Hrun) as [Hsame Hnone].
    split; [exact Hsame|]. intros Hr _ ur [= <-]. exact (Hnone Hr).
  - intros [= <- <-]. split; [reflexivity | discriminate].
Qed.

Lemma Walk_waitFn_on_tracker kc :
  DynamicInterface kc = Some Tracker.simpleDynamicClient ->
  forall visits w r w',
    Walk visits (waitFn GetResourceFromYaml kc) w = (r, w') ->
    remote w' = remote w
    /\ (r = Done None ->
        forall v ur,
          In v visits ->
          is_resource_file v = true ->
          GetResourceFromYaml (vpath v) (DiscoveryInterface kc) (TemplateArguments kc)
          = Ok ur ->
          Tracker.find (tracker_key ur) (remote w) = None).
Proof.
  intros Hd. induction visits as [|v rest IH]; intros w r w'; cbn [Walk].
  - intros [= <- <-]. split; [reflexivity|]. intros _ v ur [].
  - unfold bind at 1.
    destruct (waitFn GetResourceFromYaml kc (vpath v) (vinfo v) (verr v) w)
      as [r1 w1] eqn:Hwait.
    destruct (waitFn_on_tracker kc Hd _ _ _ _ Hwait) as [Hs1 Hn1].
    destruct r1 as [[err|]| |];
      try (intros [= <- <-]; split; [exact Hs1 | discriminate]).
    intros Hrest. destruct (IH _ _ _ Hrest) as [Hs Hn].
    split; [congruence|].
    intros Hr v' ur [<- | Hin] Hfile Hy.
    + exact (Hn1 eq_refl Hfile ur Hy).
    + rewrite <- Hs1. exact (Hn Hr v' ur Hin Hfile Hy).
Qed.

(** X19: on the in-memory remote system, a bulk delete that returns nil leaves
    nothing behind: the object of every resource file of the tree is gone from
    the store. *)
Theorem bulk_delete_leaves_nothing_behind kc kc' resourcesPath w w' :
  DiscoverClients kc = (kc', None) ->
  DynamicInterface kc' = Some Tracker.simpleDynamicClient ->
  DeleteResourcesAtPath GetResourceFromYaml walk_visits DiscoverClients kc
    resourcesPath w = (Done None, w') ->
  forall v ur,
    In v (walk_visits resourcesPath) ->
    is_resource_file v = true ->
    GetResourceFromYaml (vpath v) (DiscoveryInterface kc') (TemplateArguments kc')
    = Ok ur ->
    Tracker.find (tracker_key ur) (remote w') = None.
Proof.
  intros Hdisc Hd. unfold DeleteResourcesAtPath. rewrite Hdisc. unfold bind.
  destruct (Walk (walk_visits resourcesPath) (deleteFn GetResourceFromYaml kc') w)
    as [[[err|]| |] w1]; try discriminate.
  destruct (Walk (walk_visits resourcesPath) (waitFn GetResourceFromYaml kc') w1)
    as [[[err|]| |] w2] eqn:Hwait; try discriminate.
  intros [= <-] v ur Hin Hfile Hyaml.
  destruct (Walk_waitFn_on_tracker kc' Hd _ _ _ _ Hwait) as [Hsame Hnone].
  rewrite Hsame. exact (Hnone eq_refl v ur Hin Hfile Hyaml).
Qed.

End BulkDeleteOnTracker.

(** ** Writing one field of the live resource *)

Lemma lookup_store_other (key k : string) (v : value) (m : list (string * value)) :
  k <> key -> lookup k (store key v m) = lookup k m.
Proof.
  intros Hne. induction m as [|[k' old] rest IH]; cbn [store lookup].
  - destruct (String.eqb key k) eqn:E; [|reflexivity].
    apply String.eqb_eq in E. congruence.
  - destruct (String.eqb k' key) eqn:E; cbn [lookup].
    + apply String.eqb_eq in E. subst k'.
      destruct (String.eqb key k) eqn:E'; [|reflexivity].
      apply String.eqb_eq in E'. congruence.
    + rewrite IH. reflexivity.
Qed.

Lemma setNestedFieldNoCopy_then_read (v : value) (rest : list string) :
  forall m walked field m',
    setNestedFieldNoCopy m v walked field rest = Ok m' ->
    NestedFieldNoCopy (VMap m') (field :: rest) = mkNested v true None
    /\ (forall k, k <> field -> lookup k m' = lookup k m).
Proof.
  induction rest as [|next rest IH]; intros m walked field m';
    cbn [setNestedFieldNoCopy].
  - intros [= <-]. cbn [NestedFieldNoCopy]. rewrite lookup_store_same.
    split; [reflexivity|]. intros k Hk. apply lookup_store_other. exact Hk.
  - assert (Hdown : forall sub sub',
               setNestedFieldNoCopy sub v (walked ++ [field]) next rest = Ok sub' ->
               NestedFieldNoCopy (VMap (store field (VMap sub') m))
                 (field :: next :: rest) = mkNested v true None
               /\ (forall k, k <> field ->
                     lookup k (store field (VMap sub') m) = lookup k m)).
    { intros sub sub' Hsub. destruct (IH _ _ _ _ Hsub) as [Hread _].
      split.
      - change (NestedFieldNoCopy (VMap (store field (VMap sub') m))
                  (field :: next :: rest))
          with (match lookup field (store field (VMap sub') m) with
                | None => mkNested VNil false None
                | Some x => NestedFieldNoCopy x (next :: rest)
                end).
        rewrite lookup_store_same. exact Hread.
      - intros k Hk. apply lookup_store_other. exact Hk. }
    destruct (lookup field m) as [[| | | | |valMap]|]; try discriminate.
    + destruct (setNestedFieldNoCopy valMap v (walked ++ [field]) next rest)
        as [valMap'|err] eqn:Hsub; [|discriminate].
      intros [= <-]. exact (Hdown _ _ Hsub).
    + destruct (setNestedFieldNoCopy [] v (walked ++ [field]) next rest)
        as [newVal|err] eqn:Hsub; [|discriminate].
      intros [= <-]. exact (Hdown _ _ Hsub).
Qed.

Section FieldUpdate.

Context {S KubeClient DiscoveryClient TemplateArgs : Type}.
Variable GetResourceFromYaml :
  string -> option DiscoveryClient -> TemplateArgs -> result K8sUnstructuredResource.
Variable filepath_Join : string -> string -> string.
Implicit Type kc : ClientSet S KubeClient DiscoveryClient TemplateArgs.
Implicit Type d : DynamicClient S.
Implicit Type w : World S.

(** X20: the field update changes the object it has just fetched, not the document
    of the file: the update it submits, in the namespace of the document,
    carries the fetched object with the written value at the key path (a
    number when the text reads as a decimal integer, the text otherwise) and
    with its other top-level fields untouched; when the update goes through
    it sleeps once for the waiter interval and returns nil, when it does not
    it returns the error of the update without sleeping. *)
Theorem update_field_writes_the_live_object kc d file key value ur w live s1
    content r s2 :
  Validate kc = None ->
  DynamicInterface kc = Some d ->
  GetResourceFromYaml (getResourcePath filepath_Join kc file)
    (DiscoveryInterface kc) (TemplateArguments kc) = Ok ur ->
  let gvr := MappingResource (GVR ur) in
  let ns := GetNamespace (UResource ur) in
  let keySlice := Strings.DeleteEmpty (Strings.Split key "."%char) in
  dynGet d gvr ns (GetName (UResource ur)) (remote w) = (Ok live, s1) ->
  SetNestedField (UnstructuredContent live) (written_value value) keySlice
  = Done (Ok content) ->
  dynUpdate d gvr ns (mkUnstructured content) s1 = (r, s2) ->
  let submit := Remote (CallUpdate gvr ns (mkUnstructured content)) in
  UpdateResourceWithField GetResourceFromYaml filepath_Join kc file key value w
  = (Done (match r with Ok _ => None | Err err => Some err end),
     mkWorld s2
       (trace w ++ [fetch_of ur; submit]
        ++ match r with
           | Ok _ => [Sleep (getWaiterInterval kc)]
           | Err _ => []
           end))
  /\ NestedFieldNoCopy (VMap content) keySlice
     = mkNested (written_value value) true None
  /\ (forall k, hd_error keySlice <> Some k ->
        lookup k content = lookup k (Object live)).
Proof.
  intros Hv Hd Hr gvr ns keySlice Hget Hset Hupd submit. split.
  - unfold UpdateResourceWithField. rewrite Hv, Hr.
    unfold bind, Get, Update. rewrite Hd. fold gvr ns. rewrite Hget.
    cbv beta iota zeta. fold keySlice. fold (written_value value). rewrite Hset.
    cbv beta iota zeta. cbn [remote trace]. rewrite Hupd.
    destruct r as [o|err]; unfold time_Sleep, emit, ret; cbn [remote trace];
      rewrite <- !app_assoc; reflexivity.
  - unfold SetNestedField in Hset.
    destruct keySlice as [|field rest]; [discriminate Hset|].
    injection Hset as Hset.
    destruct (setNestedFieldNoCopy_then_read _ _ _ _ _ _ Hset) as [Hread Hother].
    split; [exact Hread|].
    intros k Hk. apply Hother. cbn [hd_error] in Hk. congruence.
Qed.


End FieldUpdate.

(** ** The further properties at work on the test bed *)

Lemma multi_stops_at_first_error_witness :
  let kc := Example.clientSet Tracker.simpleDynamicClient 2 in
  let gvr := MappingResource Example.configMaps in
  MultiResourceOperationInNamespace Example.join Example.manyFromYaml kc
    operationUpdate "all.yaml" "test-ns" Example.empty
  = (Done (Some (Tracker.not_found "demo")),
     mkWorld [] [Remote (CallGet gvr "test-ns" "demo")]).
Proof.
  intros kc gvr.
  exact (multi_stops_at_first_error Example.manyFromYaml Example.join kc
           operationUpdate "all.yaml" "test-ns" [] Example.resolvedNoNamespace
           [Example.resolvedOther] Example.empty Example.empty _ _
           eq_refl eq_refl eq_refl eq_refl).
Defined.

Lemma multi_create_calls_in_order_witness :
  let kc := Example.clientSet Tracker.lenientClient 2 in
  exists w',
    MultiResourceOperationInNamespace Example.join Example.manyFromYaml kc
      operationCreate "all.yaml" "test-ns" Example.empty
    = (Done None, w')
    /\ trace w'
       = [create_call "test-ns" Example.resolvedNoNamespace;
          create_call "test-ns" Example.resolvedOther].
Proof.
  intros kc.
  refine (multi_create_calls_in_order Example.manyFromYaml Example.join kc
            Tracker.lenientClient "all.yaml" "test-ns"
            [Example.resolvedNoNamespace; Example.resolvedOther] Example.empty
            eq_refl eq_refl eq_refl _).
  intros gvr target obj s. cbn [dynCreate Tracker.lenientClient].
  destruct (Tracker.find (Resource gvr, target, GetName obj) s); [reflexivity | exact I].
Defined.

Lemma with_result_witness :
  let kc := Example.clientSet Tracker.simpleDynamicClient 2 in
  exists verdict,
    ResourceOperationWithResultInNamespace Example.fromYaml Example.join
      Example.equalFold kc operationUpdate "demo.yaml" "" "FAIL" Example.empty
    = (Done verdict,
       mkWorld [] [Remote (CallGet (MappingResource Example.configMaps) "default"
                             "demo")])
    /\ (verdict = None
        <-> Example.equalFold "FAIL" "fail" = is_error (Some (Tracker.not_found "demo"))).
Proof.
  intros kc.
  exact (with_result_checks_the_outcome Example.fromYaml Example.join
           Example.equalFold kc operationUpdate "demo.yaml" "" "FAIL" Example.empty
           _ (Some (Tracker.not_found "demo")) eq_refl).
Defined.

Lemma nil_handle_witness :
  exists err,
    Validate Example.unconnected = Some err
    /\ ResourceOperationInNamespace Example.fromYaml Example.join Example.unconnected
         operationCreate "demo.yaml" "" Example.running
       = (Done (Some err), Example.running)
    /\ MultiResourceOperation Example.join Example.manyFromYaml Example.unconnected
         operationCreate "demo.yaml" Example.running
       = (Done (Some err), Example.running)
    /\ MultiResourceOperationInNamespace Example.join Example.manyFromYaml
         Example.unconnected operationCreate "demo.yaml" "" Example.running
       = (Done (Some err), Example.running)
    /\ ResourceShouldBe Example.fromYaml Example.join Example.unconnected "demo.yaml"
         stateCreated Example.running
       = (Done (Some err), Example.running)
    /\ ResourceShouldConvergeToSelector Example.fromYaml Example.join
         Example.equalFold Example.unconnected "demo.yaml" "spec.replicas=3"
         Example.running
       = (Done (Some err), Example.running)
    /\ ResourceConditionShouldBe Example.fromYaml Example.join Example.title
         Example.unconnected "demo.yaml" "Ready" "true" Example.running
       = (Done (Some err), Example.running)
    /\ UpdateResourceWithField Example.fromYaml Example.join Example.unconnected
         "demo.yaml" "spec.replicas" "5" Example.running
       = (Done (Some err), Example.running).
Proof.
  exact (nil_handle_fails_fast Example.fromYaml Example.manyFromYaml Example.join
           Example.title Example.equalFold Example.unconnected operationCreate
           "demo.yaml" "" stateCreated "spec.replicas=3" "Ready" "true"
           "spec.replicas" "5" Example.running (or_intror (or_introl eq_refl))).
Defined.

Lemma unresolved_file_witness :
  let kc := Example.clientSet Tracker.simpleDynamicClient 2 in
  let err := errorString "cannot decode templates/notes.txt" in
  ResourceOperationInNamespace Example.fromYaml Example.join kc operationCreate
    "notes.txt" "" Example.running = (Done (Some err), Example.running)
  /\ ResourceShouldBe Example.fromYaml Example.join kc "notes.txt" stateCreated
       Example.running = (Done (Some err), Example.running)
  /\ ResourceConditionShouldBe Example.fromYaml Example.join Example.title kc
       "notes.txt" "Ready" "true" Example.running = (Done (Some err), Example.running)
  /\ UpdateResourceWithField Example.fromYaml Example.join kc "notes.txt"
       "spec.replicas" "5" Example.running = (Done (Some err), Example.running)
  /\ exists refused,
       ResourceShouldConvergeToSelector Example.fromYaml Example.join
         Example.equalFold kc "notes.txt" "spec.replicas=3" Example.running
       = (Done (Some refused), Example.running)
       /\ (refused = err \/ is_format_error "spec.replicas=3" refused).
Proof.
  intros kc err.
  exact (unresolved_file_makes_no_call Example.fromYaml Example.join Example.title
           Example.equalFold kc operationCreate "notes.txt" "" stateCreated
           "spec.replicas=3" "Ready" "true" "spec.replicas" "5" Example.running err
           eq_refl eq_refl).
Defined.

Lemma polls_only_fetch_and_sleep_witness :
  let kc := Example.clientSet Tracker.simpleDynamicClient 3 in
  quiet kc Example.resolved (getWaiterTries kc) (trace Example.running)
    (trace (snd (ResourceShouldBe Example.fromYaml Example.join kc "demo.yaml"
                   stateDeleted Example.running)))
  /\ quiet kc Example.resolved (getWaiterTries kc) (trace Example.running)
       (trace (snd (ResourceShouldConvergeToSelector Example.fromYaml Example.join
                      Example.equalFold kc "demo.yaml" "spec.replicas=4"
                      Example.running)))
  /\ quiet kc Example.resolved (getWaiterTries kc) (trace Example.running)
       (trace (snd (ResourceConditionShouldBe Example.fromYaml Example.join
                      Example.title kc "demo.yaml" "Available" "true"
                      Example.running))).
Proof.
  intros kc.
  exact (polls_only_fetch_and_sleep Example.fromYaml Example.join Example.title
           Example.equalFold kc "demo.yaml" stateDeleted "spec.replicas=4"
           "Available" "true" Example.resolved Example.running eq_refl).
Defined.

Lemma existence_poll_returns_when_observed_witness :
  let kc := Example.clientSet Tracker.finalizingClient 3 in
  ResourceShouldBe Example.fromYaml Example.join kc "demo.yaml" stateDeleted
    Example.running
  = (Done None,
     mkWorld [] [fetch_of Example.resolved; Sleep 1; fetch_of Example.resolved]).
Proof.
  intros kc.
  refine (existence_poll_returns_when_observed Example.fromYaml Example.join kc
            Tracker.finalizingClient "demo.yaml" stateDeleted Example.resolved 1
            Example.running eq_refl eq_refl eq_refl _ _ eq_refl).
  - reflexivity.
  - intros i Hi. destruct i as [|i]; [reflexivity | lia].
Defined.

Lemma existence_poll_sleeps_witness :
  let kc := Example.clientSet (Tracker.steadyClient Example.demoLive) 3 in
  exists s',
    ResourceShouldBe Example.fromYaml Example.join kc "demo.yaml" stateDeleted
      Example.empty
    = (Done (Some timed_out_state),
       mkWorld s' (trace Example.empty
                   ++ rounds (Z.to_nat (getWaiterTries kc))
                        (fetch_of Example.resolved) (getWaiterInterval kc))).
Proof.
  intros kc.
  refine (existence_poll_sleeps_after_every_attempt Example.fromYaml Example.join kc
            (Tracker.steadyClient Example.demoLive) "demo.yaml" stateDeleted
            Example.resolved Example.empty eq_refl eq_refl eq_refl _).
  intros s. reflexivity.
Defined.

Lemma existence_poll_created_witness :
  let kc := Example.clientSet Tracker.simpleDynamicClient 3 in
  let gone := Example.clientSet Tracker.goneClient 3 in
  ResourceShouldBe Example.fromYaml Example.join kc "demo.yaml" stateCreated
    Example.running
  = (Done None,
     mkWorld (remote Example.running)
       (trace Example.running ++ [fetch_of Example.resolved]))
  /\ exists w',
       ResourceShouldBe Example.fromYaml Example.join gone "demo.yaml" stateCreated
         Example.running
       = (Done (Some timed_out_state), w')
       /\ fetches (trace w')
          = (fetches (trace Example.running) + Z.to_nat (getWaiterTries gone))%nat.
Proof.
  intros kc gone. split.
  - exact (proj1 (existence_poll_created Example.fromYaml Example.join kc
                    Tracker.simpleDynamicClient "demo.yaml" Example.resolved
                    Example.running eq_refl eq_refl eq_refl)
             Example.demoLive _ eq_refl).
  - refine (proj2 (existence_poll_created Example.fromYaml Example.join gone
                     Tracker.goneClient "demo.yaml" Example.resolved
                     Example.running eq_refl eq_refl eq_refl) _).
    intros s. exists (Tracker.not_found "demo"), s. split; reflexivity.
Defined.

Lemma convergence_poll_succeeds_witness :
  let kc := Example.clientSet Tracker.simpleDynamicClient 3 in
  selector_parts "spec.replicas=3" = Some (["spec"; "replicas"], "3")
  /\ ResourceShouldConvergeToSelector Example.fromYaml Example.join Example.equalFold
       kc "demo.yaml" "spec.replicas=3" Example.running
     = (Done None,
        mkWorld (remote Example.running)
          (trace Example.running ++ [fetch_of Example.resolved])).
Proof.
  intros kc. split; [reflexivity|].
  exact (convergence_poll_succeeds Example.fromYaml Example.join Example.equalFold kc
           Tracker.simpleDynamicClient "demo.yaml" "spec.replicas=3"
           ["spec"; "replicas"] "3" Example.resolved Example.running
           Example.demoLive _ "3" eq_refl eq_refl eq_refl eq_refl eq_refl eq_refl
           eq_refl).
Defined.

Lemma convergence_poll_times_out_witness :
  let kc := Example.clientSet Example.scaled 3 in
  string_at ["spec"; "replicas"] Example.demoScaled = None
  /\ exists s',
       ResourceShouldConvergeToSelector Example.fromYaml Example.join
         Example.equalFold kc "demo.yaml" "spec.replicas=3" Example.running
       = (Done (Some timed_out_resource),
          mkWorld s' (trace Example.running
                      ++ rounds (Z.to_nat (getWaiterTries kc))
                           (fetch_of Example.resolved) (getWaiterInterval kc))).
Proof.
  intros kc. split; [reflexivity|].
  refine (convergence_poll_times_out Example.fromYaml Example.join Example.equalFold
            kc Example.scaled "demo.yaml" "spec.replicas=3" ["spec"; "replicas"] "3"
            Example.resolved Example.running eq_refl eq_refl eq_refl eq_refl _).
  intros s. exists Example.demoScaled, s. split; [reflexivity | exact I].
Defined.

Lemma absent_resource_witness :
  let kc := Example.clientSet Tracker.simpleDynamicClient 3 in
  let stopped :=
    (Done (Some (Tracker.not_found "demo")),
     mkWorld (remote Example.empty)
       (trace Example.empty ++ [fetch_of Example.resolved])) in
  ResourceShouldConvergeToSelector Example.fromYaml Example.join Example.equalFold kc
    "demo.yaml" "spec.replicas=3" Example.empty = stopped
  /\ ResourceConditionShouldBe Example.fromYaml Example.join Example.title kc
       "demo.yaml" "Ready" "true" Example.empty = stopped.
Proof.
  intros kc stopped.
  exact (absent_resource_ends_field_and_condition_polls Example.fromYaml Example.join
           Example.title Example.equalFold kc Tracker.simpleDynamicClient "demo.yaml"
           "spec.replicas=3" ["spec"; "replicas"] "3" "Ready" "true" Example.resolved
           Example.empty (Tracker.not_found "demo") _ eq_refl eq_refl eq_refl eq_refl
           eq_refl).
Defined.

Lemma selector_parts_witness :
  selector_parts ("metadata.labels.someTestKey" ++ "=" ++ "someTestValue")
  = Some (["metadata"; "labels"; "someTestKey"], "someTestValue")
  /\ selector_parts ("." ++ "metadata.labels.someTestKey" ++ "=" ++ "someTestValue")
     = selector_parts ("metadata.labels.someTestKey" ++ "=" ++ "someTestValue").
Proof.
  refine (selector_parts_of_key_value "metadata.labels.someTestKey" "someTestValue"
            eq_refl eq_refl _ _ _); discriminate.
Defined.

Lemma scan_conditions_decides_witness :
  let conditions :=
    [VString "noise"; VMap [("type", VString "Ready"); ("status", VString "False")];
     VMap [("type", VString "Ready"); ("status", VString "True")]] in
  scan_conditions conditions "Ready" "True"
  = Done (existsb (condition_matches "Ready" "True") conditions).
Proof.
  intros conditions.
  exact (scan_conditions_decides "Ready" "True" conditions eq_refl).
Defined.

Lemma scan_conditions_stops_witness :
  let before := [VMap [("type", VString "Ready"); ("status", VString "True")]] in
  let after := [VMap [("type", VString "Ready")]] in
  existsb (condition_matches "Ready" "True") before = true
  /\ scan_conditions (before ++ after) "Ready" "True" = Done true.
Proof.
  intros before after.
  pose proof (scan_conditions_stops_at_first_match "Ready" "True") as [Hsound Hfirst].
  split.
  - exact (Hsound before eq_refl).
  - exact (Hfirst before after eq_refl eq_refl).
Defined.

Lemma condition_poll_witness :
  let kc := Example.clientSet Example.scaled 3 in
  ResourceConditionShouldBe Example.fromYaml Example.join Example.title kc
    "demo.yaml" "Ready" "true" Example.running
  = (Done None,
     mkWorld (remote Example.running)
       (trace Example.running ++ [fetch_of Example.resolved]))
  /\ exists s',
       ResourceConditionShouldBe Example.fromYaml Example.join Example.title kc
         "demo.yaml" "Ready" "unknown" Example.running
       = (Done (Some timed_out_state),
          mkWorld s' (trace Example.running
                      ++ rounds (Z.to_nat (getWaiterTries kc))
                           (fetch_of Example.resolved) (getWaiterInterval kc))).
Proof.
  intros kc. split.
  - exact (proj1 (condition_poll_follows_the_conditions Example.fromYaml Example.join
                    Example.title kc Example.scaled "demo.yaml" "Ready" "true"
                    Example.resolved Example.running eq_refl eq_refl eq_refl)
             Example.demoScaled _ _ eq_refl eq_refl eq_refl eq_refl).
  - refine (proj2 (condition_poll_follows_the_conditions Example.fromYaml
                     Example.join Example.title kc Example.scaled "demo.yaml" "Ready"
                     "unknown" Example.resolved Example.running eq_refl eq_refl
                     eq_refl) _).
    intros s. exists Example.demoScaled, s. split; [reflexivity|].
    split; reflexivity.
Defined.

Lemma bulk_delete_without_resource_files_witness :
  let kc := Example.clientSet Tracker.simpleDynamicClient 2 in
  DeleteResourcesAtPath Example.fromYaml Example.plainVisits Example.discover kc
    "templates" Example.running
  = (Done None, Example.running).
Proof.
  intros kc.
  refine (bulk_delete_without_resource_files Example.fromYaml Example.plainVisits
            Example.discover kc kc "templates" Example.running eq_refl _).
  repeat constructor; discriminate.
Defined.

Lemma bulk_delete_leaves_nothing_behind_witness :
  let kc := Example.clientSet Tracker.simpleDynamicClient 2 in
  let gvr := MappingResource Example.configMaps in
  let w' :=
    mkWorld [] [Remote (CallDelete gvr "default" "demo");
                Remote (CallGet gvr "default" "demo")] in
  DeleteResourcesAtPath Example.fromYaml Example.visits Example.discover kc
    "templates" Example.running = (Done None, w')
  /\ Tracker.find (tracker_key Example.resolved) (remote w') = None.
Proof.
  intros kc gvr w'.
  assert (Hrun : DeleteResourcesAtPath Example.fromYaml Example.visits
                   Example.discover kc "templates" Example.running = (Done None, w'))
    by reflexivity.
  split; [exact Hrun|].
  refine (bulk_delete_leaves_nothing_behind Example.fromYaml Example.visits
            Example.discover kc kc "templates" Example.running w' eq_refl eq_refl Hrun
            (mkVisit "templates/demo.yaml" (Some (mkFileInfo false)) None)
            Example.resolved _ eq_refl eq_refl).
  right. left. reflexivity.
Defined.

Lemma update_field_witness :
  let kc := Example.clientSet Tracker.simpleDynamicClient 2 in
  let gvr := MappingResource Example.configMaps in
  written_value "5" = VInt 5
  /\ written_value "five" = VString "five"
  /\ exists content s2,
       UpdateResourceWithField Example.fromYaml Example.join kc "demo.yaml"
         "spec.replicas" "5" Example.running
       = (Done None,
          mkWorld s2
            (trace Example.running
             ++ [fetch_of Example.resolved;
                 Remote (CallUpdate gvr "default" (mkUnstructured content))]
             ++ [Sleep (getWaiterInterval kc)]))
       /\ NestedFieldNoCopy (VMap content) ["spec"; "replicas"]
          = mkNested (VInt 5) true None
       /\ lookup "metadata" content = lookup "metadata" (Object Example.demoLive).
Proof.
  intros kc gvr. split; [reflexivity|]. split; [reflexivity|].
  destruct (SetNestedField (UnstructuredContent Example.demoLive) (written_value "5")
              ["spec"; "replicas"]) as [[content|err]| |] eqn:Hset;
    try discriminate Hset.
  destruct (Tracker.update gvr "default" (mkUnstructured content)
              (remote Example.running)) as [r s2] eqn:Hupd.
  assert (Hr : exists o, r = Ok o).
  { unfold Tracker.update in Hupd.
    injection Hset as <-. vm_compute in Hupd. injection Hupd as <- _.
    eexists. reflexivity. }
  destruct Hr as [o ->].
  exists content, s2.
  destruct (update_field_writes_the_live_object Example.fromYaml Example.join kc
              Tracker.simpleDynamicClient "demo.yaml" "spec.replicas" "5"
              Example.resolved Example.running Example.demoLive
              (remote Example.running) content (Ok o) s2
              eq_refl eq_refl eq_refl eq_refl Hset Hupd) as [Hrun [Hread Hother]].
  split; [exact Hrun|]. split; [exact Hread|].
  apply Hother. discriminate.
Defined.

